(** * Dataset integrity and quality pipeline: a shallow embedding

    The Python sources embedded here are [encryption.py] (DataEncryption),
    [data_manager.py] (DataManager), [data_validator.py] (DataValidator),
    [quality_checker.py] (QualityChecker), and the loader and the two outlier
    checks of [analytics.py] (DatasetAnalytics).

    Conventions of the embedding.
    - A Python call that may raise returns a [result]: [inl e] is the raised
      exception, [inr v] the returned value.
    - Methods that read or write the file system, the IPFS node or the
      [DataEncryption] instance are state transformers over a [World]; the
      state reached when an exception is raised is kept.
    - The outlier tests of the two quality checks compare floating-point
      numbers, and rounding can decide such a comparison: the quartiles, the
      fences and the comparisons are computed in IEEE binary64 (module [B64],
      over the Standard Library's [SpecFloat]), int64 cells being cast as
      numpy casts them.
    - The scores themselves are ratios of counts and their means: they are
      modelled by exact rational arithmetic extended with the two infinities
      and NaN (NaN propagation, comparisons with NaN and division by zero as
      in Python); the rounding of a score to binary64 is not modelled.
    - Libraries outside the repository (cryptography, hashlib, the IPFS client,
      the pandas readers, the mean and the standard deviation of a column,
      [datetime.fromisoformat]) are the fields of a record [Libs]; the code is
      embedded once, for any such libraries. *)

From Stdlib Require Import ZArith QArith Qround Lqa Lia List Bool Ascii String Sorted.
From Stdlib Require Import SpecFloat.
From Stdlib Require Strings.Byte.
From stdpp Require Import gmap strings list fin_maps.
Set Warnings "-register-all".

(** ** Exceptions and results *)

Inductive exn : Type :=
| AttributeError (msg : string)
| KeyError (msg : string)
| TypeError (msg : string)
| ValueError (msg : string)
| ZeroDivisionError (msg : string)
| FileNotFoundError (msg : string)
| InvalidToken
| LibraryError (cls msg : string).

(** [str(e)] *)
Definition exn_str (e : exn) : string :=
match e with
| AttributeError m | KeyError m | TypeError m | ValueError m
| ZeroDivisionError m | FileNotFoundError m => m
| InvalidToken => ""
| LibraryError _ m => m
end.

Definition result (A : Type) : Type := (exn + A)%type.

Definition raise {A} (e : exn) : result A := inl e.

#[global] Instance result_ret : MRet result := fun A x => inr x.
#[global] Instance result_bind : MBind result :=
  fun A B f m => match m with inl e => inl e | inr x => f x end.

(** [try: body except Exception as e: handler(e)] *)
Definition try_except {A} (body : result A) (handler : exn -> result A) : result A :=
match body with
| inl e => handler e
| inr v => inr v
end.

(** ** Floats: exact rationals with infinities and NaN *)

Module PyFloat.

Inductive float : Type :=
| Fin (q : Q)
| PInf
| NInf
| NaN.

Definition of_Z (z : Z) : float := Fin (inject_Z z).
Definition of_nat (n : nat) : float := of_Z (Z.of_nat n).

Definition Qltb (a b : Q) : bool := negb (Qle_bool b a).

Definition inf_of_sign (positive : bool) : float := if positive then PInf else NInf.

Definition fopp (x : float) : float :=
match x with
| Fin q => Fin (- q)
| PInf => NInf
| NInf => PInf
| NaN => NaN
end.

Definition fadd (x y : float) : float :=
match x, y with
| NaN, _ | _, NaN => NaN
| Fin a, Fin b => Fin (a + b)
| PInf, NInf | NInf, PInf => NaN
| PInf, _ | _, PInf => PInf
| NInf, _ | _, NInf => NInf
end.

Definition fsub (x y : float) : float := fadd x (fopp y).

(** sign of a non-NaN value: [Some true] positive, [Some false] negative,
    [None] zero *)
Definition fsign (x : float) : option bool :=
match x with
| Fin q => if Qeq_bool q 0 then None else Some (Qltb 0 q)
| PInf => Some true
| NInf => Some false
| NaN => None
end.

Definition fmul (x y : float) : float :=
match x, y with
| NaN, _ | _, NaN => NaN
| Fin a, Fin b => Fin (a * b)
| _, _ =>
    match fsign x, fsign y with
    | Some s, Some t => inf_of_sign (eqb s t)
    | _, _ => NaN
    end
end.

(** IEEE division, as numpy performs it (no exception on a zero divisor). *)
Definition fdiv (x y : float) : float :=
match x, y with
| NaN, _ | _, NaN => NaN
| Fin a, Fin b =>
    if Qeq_bool b 0 then
      match fsign x with
      | None => NaN
      | Some s => inf_of_sign s
      end
    else Fin (a / b)
| Fin _, _ => Fin 0
| _, Fin b => inf_of_sign (eqb (match x with PInf => true | _ => false end)
                               (Qle_bool 0 b))
| _, _ => NaN
end.

(** [x < y]; false as soon as one side is NaN *)
Definition flt (x y : float) : bool :=
match x, y with
| NaN, _ | _, NaN => false
| Fin a, Fin b => Qltb a b
| NInf, NInf | PInf, _ | _, NInf => false
| NInf, _ | _, PInf => true
end.

(** the same float value *)
Definition feq (x y : float) : Prop :=
match x, y with
| Fin a, Fin b => (a == b)%Q
| PInf, PInf | NInf, NInf | NaN, NaN => True
| _, _ => False
end.

(** a finite value of the unit interval *)
Definition in_unit (x : float) : Prop :=
match x with
| Fin q => (0 <= q /\ q <= 1)%Q
| _ => False
end.

Definition fsum (l : list float) : float := fold_left fadd l (of_Z 0).

End PyFloat.
Export PyFloat.

(** ** Binary64, for the comparisons of the outlier tests *)

Module B64.

Definition binary64 : Type := spec_float.

Definition prec : Z := 53.
Definition emax : Z := 1024.

Definition nan : binary64 := S754_nan.

Definition is_nan (x : binary64) : bool :=
match x with
| S754_nan => true
| _ => false
end.

Definition add : binary64 -> binary64 -> binary64 := SFadd prec emax.
Definition sub : binary64 -> binary64 -> binary64 := SFsub prec emax.
Definition mul : binary64 -> binary64 -> binary64 := SFmul prec emax.
Definition div : binary64 -> binary64 -> binary64 := SFdiv prec emax.
Definition sqrt : binary64 -> binary64 := SFsqrt prec emax.
Definition abs : binary64 -> binary64 := SFabs.

(** [x < y] and [x <= y]; false as soon as one side is NaN *)
Definition ltb : binary64 -> binary64 -> bool := SFltb.
Definition leb : binary64 -> binary64 -> bool := SFleb.

(** an integer as a significand with exponent 0, not yet rounded *)
Definition unrounded (z : Z) : binary64 :=
match z with
| Z0 => S754_zero false
| Zpos p => S754_finite false p 0
| Zneg p => S754_finite true p 0
end.

(** the binary64 nearest to an integer (ties to even): the cast of an int64 *)
Definition of_Z (z : Z) : binary64 := binary_normalize prec emax z 0 false.

(** the binary64 nearest to a rational: what a decimal literal or a decimal
    field of a file denotes *)
Definition of_Q (q : Q) : binary64 := div (unrounded (Qnum q)) (unrounded (Zpos (Qden q))).

End B64.

(** ** Python values (metadata dictionaries, JSON documents) *)

Inductive pyval : Type :=
| VNone
| VBool (b : bool)
| VInt (z : Z)
| VFloat (x : float)
| VStr (s : string)
| VList (l : list pyval)
| VDict (d : gmap string pyval).

(** truth value of an object in a condition *)
Definition truthy (v : pyval) : bool :=
match v with
| VNone => false
| VBool b => b
| VInt z => negb (Z.eqb z 0)
| VFloat x => match x with Fin q => negb (Qeq_bool q 0) | _ => true end
| VStr s => negb (String.eqb s "")
| VList l => match l with [] => false | _ => true end
| VDict d => negb (bool_decide (d = ∅))
end.

(** truth value of an [Optional[str]] argument *)
Definition password_given (password : option string) : bool :=
match password with
| None => false
| Some s => negb (String.eqb s "")
end.

Definition type_name (v : pyval) : string :=
match v with
| VNone => "NoneType"
| VBool _ => "bool"
| VInt _ => "int"
| VFloat _ => "float"
| VStr _ => "str"
| VList _ => "list"
| VDict _ => "dict"
end.

Definition no_attribute (v : pyval) (attr : string) : exn :=
AttributeError ("'" +:+ type_name v +:+ "' object has no attribute '" +:+ attr +:+ "'").

(** [d.get(key, default)] *)
Definition py_get (v : pyval) (key : string) (dflt : pyval) : result pyval :=
match v with
| VDict d => mret (default dflt (d !! key))
| _ => raise (no_attribute v "get")
end.

(** [d[key]] for a string key *)
Definition py_getitem (v : pyval) (key : string) : result pyval :=
match v with
| VDict d =>
    match d !! key with
    | Some x => mret x
    | None => raise (KeyError ("'" +:+ key +:+ "'"))
    end
| VList _ => raise (TypeError "list indices must be integers or slices, not str")
| VStr _ => raise (TypeError "string indices must be integers, not 'str'")
| _ => raise (TypeError ("'" +:+ type_name v +:+ "' object is not subscriptable"))
end.

Definition chars_of (s : string) : list pyval :=
map (fun c => VStr (String c EmptyString)) (list_ascii_of_string s).

(** the elements visited by [for x in v] *)
Definition py_iter (v : pyval) : result (list pyval) :=
match v with
| VStr s => mret (chars_of s)
| VList l => mret l
| VDict d => mret (map (fun kv => VStr kv.1) (map_to_list d))
| _ => raise (TypeError ("'" +:+ type_name v +:+ "' object is not iterable"))
end.

(** [len(v)] *)
Definition py_len (v : pyval) : result nat :=
match v with
| VStr s => mret (String.length s)
| VList l => mret (length l)
| VDict d => mret (size d)
| _ => raise (TypeError ("object of type '" +:+ type_name v +:+ "' has no len()"))
end.

Definition ascii_lower (c : ascii) : ascii :=
let n := nat_of_ascii c in
if (65 <=? n)%nat && (n <=? 90)%nat then ascii_of_nat (n + 32) else c.

Fixpoint str_lower (s : string) : string :=
match s with
| EmptyString => EmptyString
| String c s' => String (ascii_lower c) (str_lower s')
end.

(** [v.lower()] *)
Definition py_lower (v : pyval) : result string :=
match v with
| VStr s => mret (str_lower s)
| _ => raise (no_attribute v "lower")
end.

(** [s.replace(old, new)] for a non-empty [old]: occurrences are replaced
    from the left and do not overlap; [skip] counts the characters of a
    replaced occurrence still to be dropped. *)
Fixpoint str_replace_from (old new : string) (skip : nat) (s : string) : string :=
match s with
| EmptyString => EmptyString
| String c s' =>
    match skip with
    | S k => str_replace_from old new k s'
    | O =>
        if String.prefix old s
        then new +:+ str_replace_from old new (String.length old - 1) s'
        else String c (str_replace_from old new 0 s')
    end
end.

Definition str_replace (s old new : string) : string := str_replace_from old new 0 s.

(** ** Byte strings *)

Abbreviation bytes := (list Byte.byte).

(** [password.encode()]: a [str] is kept as its UTF-8 bytes *)
Definition str_encode (s : string) : bytes := list_byte_of_string s.

Definition byte_of_N (n : N) : Byte.byte :=
match Byte.of_N n with
| Some b => b
| None => Byte.x00
end.

Definition hex_digit (n : N) : ascii :=
ascii_of_N (if (n <? 10)%N then 48 + n else 87 + n).

(** [b.hex()] *)
Fixpoint bytes_hex (b : bytes) : string :=
match b with
| [] => EmptyString
| x :: rest =>
    let n := Byte.to_N x in
    String (hex_digit (n / 16)) (String (hex_digit (n mod 16)) (bytes_hex rest))
end.

Definition hex_value (c : ascii) : option N :=
let n := N_of_ascii c in
if (48 <=? n)%N && (n <=? 57)%N then Some (n - 48)%N
else if (97 <=? n)%N && (n <=? 102)%N then Some (n - 87)%N
else if (65 <=? n)%N && (n <=? 70)%N then Some (n - 55)%N
else None.

Definition is_ascii_space (c : ascii) : bool :=
let n := N_of_ascii c in
(n =? 32)%N || ((9 <=? n)%N && (n <=? 13)%N).

Definition fromhex_error : exn :=
ValueError "non-hexadecimal number found in fromhex() arg".

(** [bytes.fromhex(s)]: pairs of hexadecimal digits, white space allowed
    between the pairs; [hi] is the pending first digit of a pair. *)
Fixpoint fromhex_from (s : string) (hi : option N) : result bytes :=
match s with
| EmptyString =>
    match hi with
    | None => mret []
    | Some _ => raise fromhex_error
    end
| String c s' =>
    match hex_value c, hi with
    | Some v, None => fromhex_from s' (Some v)
    | Some v, Some h => rest ← fromhex_from s' None; mret (byte_of_N (16 * h + v) :: rest)
    | None, None => if is_ascii_space c then fromhex_from s' None else raise fromhex_error
    | None, Some _ => raise fromhex_error
    end
end.

Definition bytes_fromhex (s : string) : result bytes := fromhex_from s None.

(** the code of the [n]-th character of the URL-safe alphabet
    [A-Z a-z 0-9 - _] *)
Definition b64_code (n : N) : N :=
if (n <? 26)%N then 65 + n
else if (n <? 52)%N then 71 + n
else if (n <? 62)%N then n - 4
else if (n =? 62)%N then 45 else 95.

Definition b64_urlsafe_char (n : N) : Byte.byte := byte_of_N (b64_code n).

Definition b64_pad : Byte.byte := byte_of_N 61.

(** [base64.urlsafe_b64encode(b)] *)
Fixpoint urlsafe_b64encode (b : bytes) : bytes :=
match b with
| [] => []
| [x] =>
    let n := (Byte.to_N x * 65536)%N in
    [b64_urlsafe_char (n / 262144); b64_urlsafe_char ((n / 4096) mod 64); b64_pad; b64_pad]
| [x; y] =>
    let n := (Byte.to_N x * 65536 + Byte.to_N y * 256)%N in
    [b64_urlsafe_char (n / 262144); b64_urlsafe_char ((n / 4096) mod 64);
     b64_urlsafe_char ((n / 64) mod 64); b64_pad]
| x :: y :: z :: rest =>
    let n := (Byte.to_N x * 65536 + Byte.to_N y * 256 + Byte.to_N z)%N in
    b64_urlsafe_char (n / 262144) :: b64_urlsafe_char ((n / 4096) mod 64)
    :: b64_urlsafe_char ((n / 64) mod 64) :: b64_urlsafe_char (n mod 64)
    :: urlsafe_b64encode rest
end.

(** ** Tables: the part of a pandas DataFrame the code observes *)

(** dtypes other than the three the code names; only the missing-value mask
    of such a column is kept *)
Inductive ext_dtype : Type := dt_bool | dt_datetime64 | dt_int32 | dt_float32 | dt_category.

(** A column. A missing cell of a [float64] column is NaN, a missing cell of
    an [object] column is [None]; an [int64] column has no missing cell. *)
Inductive Series : Type :=
| Int64Col (vs : list Z)
| Float64Col (vs : list (option Q))
| ObjectCol (vs : list (option string))
| OtherCol (dt : ext_dtype) (na : list bool).

(** [str(s.dtype)] *)
Definition series_dtype (s : Series) : string :=
match s with
| Int64Col _ => "int64"
| Float64Col _ => "float64"
| ObjectCol _ => "object"
| OtherCol dt_bool _ => "bool"
| OtherCol dt_datetime64 _ => "datetime64[ns]"
| OtherCol dt_int32 _ => "int32"
| OtherCol dt_float32 _ => "float32"
| OtherCol dt_category _ => "category"
end.

(** [s.isnull()] *)
Definition series_isnull (s : Series) : list bool :=
match s with
| Int64Col vs => map (fun _ => false) vs
| Float64Col vs => map (fun c => negb (bool_decide (is_Some c))) vs
| ObjectCol vs => map (fun c => negb (bool_decide (is_Some c))) vs
| OtherCol _ na => na
end.

Definition series_len (s : Series) : nat := length (series_isnull s).

Definition count_true (mask : list bool) : nat := length (filter (fun b => b = true) mask).

(** the cells of a numeric column as floats (NaN where missing) *)
Definition series_floats (s : Series) : list float :=
match s with
| Int64Col vs => map of_Z vs
| Float64Col vs => map (fun c => match c with Some q => Fin q | None => NaN end) vs
| ObjectCol vs => map (fun _ => NaN) vs
| OtherCol _ na => map (fun _ => NaN) na
end.

(** the non-missing numbers of a numeric column *)
Definition series_numbers (s : Series) : list Q :=
match s with
| Int64Col vs => map inject_Z vs
| Float64Col vs => omap id vs
| _ => []
end.

(** the cells of a column as binary64 numbers, the form in which numpy
    compares them with a float: an int64 cell is cast (rounded to nearest), a
    float64 cell given by the rational [q] is the binary64 nearest to [q], a
    missing cell is NaN *)
Definition series_cells64 (s : Series) : list B64.binary64 :=
match s with
| Int64Col vs => map B64.of_Z vs
| Float64Col vs => map (fun c => match c with Some q => B64.of_Q q | None => B64.nan end) vs
| ObjectCol vs => map (fun _ => B64.nan) vs
| OtherCol _ na => map (fun _ => B64.nan) na
end.

(** what [isna] leaves of a float64 column *)
Definition series_numbers64 (s : Series) : list B64.binary64 :=
List.filter (fun x => negb (B64.is_nan x)) (series_cells64 s).

Record DataFrame : Type := {
  index_len : nat;
  columns : list (string * Series)
}.

(** every column has one cell per row *)
Definition frame_wf (df : DataFrame) : Prop :=
Forall (fun c => series_len c.2 = index_len df) (columns df).

Definition df_columns (df : DataFrame) : list string := map fst (columns df).

(** [df.empty] *)
Definition df_empty (df : DataFrame) : bool :=
(index_len df =? 0)%nat || (length (columns df) =? 0)%nat.

(** what [df[col]] is: a Series, or a DataFrame when several columns bear
    the name *)
Inductive selection : Type :=
| SeriesSel (s : Series)
| FrameSel (cols : list Series).

(** [df[col]] *)
Definition df_getitem (df : DataFrame) (col : string) : result selection :=
match filter (fun c => c.1 = col) (columns df) with
| [] => raise (KeyError ("'" +:+ col +:+ "'"))
| [c] => mret (SeriesSel c.2)
| cs => mret (FrameSel (map snd cs))
end.

(** use of [df[col]] through an attribute or a function of Series *)
Definition as_series (sel : selection) (attr : string) : result Series :=
match sel with
| SeriesSel s => mret s
| FrameSel _ => raise (AttributeError ("'DataFrame' object has no attribute '" +:+ attr +:+ "'"))
end.

(** [df.dtypes.to_dict()]: a repeated name keeps its last column *)
Definition df_dtypes (df : DataFrame) : gmap string string :=
fold_left (fun m c => <[c.1 := series_dtype c.2]> m) (columns df) ∅.

(** [df.isnull().sum().sum()] *)
Definition df_null_count (df : DataFrame) : nat :=
fold_left (fun n c => (n + count_true (series_isnull c.2))%nat) (columns df) 0%nat.

Fixpoint insert_sorted {A : Type} (leb : A -> A -> bool) (x : A) (l : list A) : list A :=
match l with
| [] => [x]
| y :: l' => if leb x y then x :: l else y :: insert_sorted leb x l'
end.

Definition sort_by {A : Type} (leb : A -> A -> bool) (l : list A) : list A :=
fold_right (insert_sorted leb) [] l.

(** numpy's [_lerp(a, b, t)] on float64 values: [a + (b - a) * t], taken
    from the other end when [t >= 0.5] *)
Definition lerp64 (a b : B64.binary64) (t : Q) : B64.binary64 :=
let diff_b_a := B64.sub b a in
if Qle_bool (1 # 2) t then B64.sub b (B64.mul diff_b_a (B64.sub (B64.of_Z 1) (B64.of_Q t)))
else B64.add a (B64.mul diff_b_a (B64.of_Q t)).

(** subtraction of int64 values wraps around *)
Definition wrap_int64 (z : Z) : Z := ((z + 2 ^ 63) mod 2 ^ 64 - 2 ^ 63)%Z.

(** the same on int64 values: [b - a] is an int64 subtraction, and each
    integer is cast to float64 where it meets a float *)
Definition lerp_int64 (a b : Z) (t : Q) : B64.binary64 :=
let diff_b_a := B64.of_Z (wrap_int64 (b - a)) in
if Qle_bool (1 # 2) t then
  B64.sub (B64.of_Z b) (B64.mul diff_b_a (B64.sub (B64.of_Z 1) (B64.of_Q t)))
else B64.add (B64.of_Z a) (B64.mul diff_b_a (B64.of_Q t)).

(** the quantile of level [q] by linear interpolation, pandas' default, as
    numpy computes it: on the sorted values, rank [(n - 1) * q] lies between
    two values, which are interpolated; NaN when there is no value. For the
    levels 0.25 and 0.75 that the code asks for, the rank is exact in
    binary64. *)
Definition quantile_with {A : Type} (leb : A -> A -> bool)
  (lerp : A -> A -> Q -> B64.binary64) (values : list A) (q : Q) : B64.binary64 :=
match sort_by leb values with
| [] => B64.nan
| (v0 :: _) as sorted =>
    let rank := (q * inject_Z (Z.of_nat (length sorted) - 1))%Q in
    let previous := Z.to_nat (Qfloor rank) in
    let gamma := (rank - inject_Z (Qfloor rank))%Q in
    let a := nth previous sorted v0 in
    let b := nth (S previous) sorted a in
    lerp a b gamma
end.

(** [s.quantile(q)], missing values skipped *)
Definition series_quantile (s : Series) (q : Q) : B64.binary64 :=
match s with
| Int64Col vs => quantile_with Z.leb lerp_int64 vs q
| Float64Col _ => quantile_with B64.leb lerp64 (series_numbers64 s) q
| _ => B64.nan
end.

(** [np.mean(scores)] of a non-empty list *)
Definition np_mean (scores : list float) : float := fdiv (fsum scores) (of_nat (length scores)).

(** [a / b] on Python integers *)
Definition py_truediv (a b : Z) : result float :=
if (b =? 0)%Z then raise (ZeroDivisionError "division by zero")
else mret (Fin (inject_Z a / inject_Z b)).

(** [a / b] when [a] is a numpy integer: no exception, NaN or an infinity
    on a zero divisor *)
Definition np_truediv (a b : Z) : float := fdiv (of_Z a) (of_Z b).

(** [max(0, x)]: the first argument unless the second is greater *)
Definition py_max0 (x : float) : float := if flt (of_Z 0) x then x else of_Z 0.

(** [for x in xs: state = step(state, x)], stopping at the first exception *)
Fixpoint for_each {S A : Type} (step : S -> A -> result S) (xs : list A) (s : S) : result S :=
match xs with
| [] => mret s
| x :: rest => s' ← step s x; for_each step rest s'
end.

(** ** Libraries outside the repository *)

(** naive datetimes, in microseconds *)
Definition datetime : Type := Z.

Definition microseconds_per_day : Z := 86400000000.

(** [(a - b).days] *)
Definition timedelta_days (a b : datetime) : Z := ((a - b) / microseconds_per_day)%Z.

(** what [datetime.fromisoformat] returns: a naive datetime, or an aware one
    when the string carries a UTC offset (kept in microseconds) *)
Inductive parsed_datetime : Type :=
| NaiveDatetime (t : datetime)
| AwareDatetime (t : datetime) (utcoffset : Z).

(** [(now - other).days] for the naive [now] that [datetime.now()] returns *)
Definition days_since (now : datetime) (other : parsed_datetime) : result Z :=
match other with
| NaiveDatetime t => mret (timedelta_days now t)
| AwareDatetime _ _ =>
    raise (TypeError "can't subtract offset-naive and offset-aware datetimes")
end.

Record Libs : Type := {
  (** [PBKDF2HMAC(algorithm=SHA256(), length, salt, iterations).derive(key_material)] *)
  PBKDF2HMAC_SHA256_derive : N -> bytes -> N -> bytes -> bytes;
  (** [Fernet(key).encrypt(data)]; the second argument is what the call draws
      from the operating system (initialisation vector, current time) *)
  Fernet_encrypt : bytes -> bytes -> bytes -> bytes;
  (** [Fernet(key).decrypt(token)] *)
  Fernet_decrypt : bytes -> bytes -> result bytes;
  (** [hashlib.sha256(data).digest()] *)
  sha256_digest : bytes -> bytes;
  (** content identifiers the IPFS node gives to a file and to a JSON document *)
  ipfs_cid_file : bytes -> string;
  ipfs_cid_json : pyval -> string;
  (** where [ipfs.get(cid)] leaves the downloaded file *)
  ipfs_download_path : string -> string;
  (** [pd.read_csv], [pd.read_json], [pd.read_parquet] on a file's content *)
  read_csv : bytes -> result DataFrame;
  read_json : bytes -> result DataFrame;
  read_parquet : bytes -> result DataFrame;
  (** [s.mean()] and [s.std()] of a numeric column, missing values skipped *)
  series_mean : Series -> B64.binary64;
  series_std : Series -> B64.binary64;
  (** [datetime.fromisoformat] *)
  fromisoformat : string -> result parsed_datetime
}.

(** *** The key of HMAC

    [PBKDF2HMAC] reads its key material through HMAC only, and HMAC
    (RFC 2104) first brings its key to the block size of the hash: a key
    longer than a block is hashed, and the result is filled with zero bytes
    up to the block size. *)
Definition hmac_block_key (hash : bytes -> bytes) (block_size : nat) (key : bytes) : bytes :=
let k := if (block_size <? length key)%nat then hash key else key in
k ++ repeat Byte.x00 (block_size - length k).

(** [x / y] on Python floats *)
Definition py_fdiv (x y : float) : result float :=
match y with
| Fin q => if Qeq_bool q 0 then raise (ZeroDivisionError "float division by zero") else mret (fdiv x y)
| _ => mret (fdiv x y)
end.

(** [d[key]] on a dictionary of floats *)
Definition dict_getitem (d : gmap string float) (key : string) : result float :=
match d !! key with
| Some x => mret x
| None => raise (KeyError ("'" +:+ key +:+ "'"))
end.

(** ** quality_checker.py *)

Record QualityReport : Type := {
  overall_score : float;
  detailed_scores : list (string * float);
  recommendations : list string
}.

(** [self.quality_thresholds], set by [__init__] *)
Definition quality_thresholds : gmap string float :=
list_to_map [("completeness", Fin 0.9); ("consistency", Fin 0.95);
             ("accuracy", Fin 0.95); ("timeliness", of_Z 30)].

(** the [weights] of [evaluate_quality] *)
Definition weights : gmap string float :=
list_to_map [("completeness", Fin 0.3); ("consistency", Fin 0.2); ("accuracy", Fin 0.2);
             ("timeliness", Fin 0.1); ("format_validity", Fin 0.1);
             ("schema_compliance", Fin 0.1)].

(** The names an instance of QualityChecker resolves: the attribute bound by
    [__init__] and the methods of the class body; the class has no base class
    but [object]. *)
Definition QualityChecker_attributes : list string :=
["quality_thresholds"; "__init__"; "evaluate_quality"; "_check_completeness";
 "_check_consistency"; "_check_accuracy"; "_check_timeliness"; "_check_format_validity";
 "_check_schema_compliance"; "_generate_recommendations"].

(** [self.name]: [bound] when the instance has the attribute *)
Definition QualityChecker_getattr {A} (name : string) (bound : A) : result A :=
if bool_decide (name ∈ QualityChecker_attributes) then mret bound
else raise (AttributeError ("'QualityChecker' object has no attribute '" +:+ name +:+ "'")).

Definition is_int64_or_float64 (s : Series) : bool :=
bool_decide (series_dtype s ∈ ["int64"; "float64"]).

Definition _check_completeness (df : DataFrame) : result float :=
mret (fsub (of_Z 1)
       (np_truediv (Z.of_nat (df_null_count df))
                   (Z.of_nat (index_len df) * Z.of_nat (length (columns df))))).

(** [Q1 - 1.5 * IQR] and [Q3 + 1.5 * IQR] *)
Definition iqr_bounds (s : Series) : B64.binary64 * B64.binary64 :=
let Q1 := series_quantile s 0.25 in
let Q3 := series_quantile s 0.75 in
let IQR := B64.sub Q3 Q1 in
(B64.sub Q1 (B64.mul (B64.of_Q 1.5) IQR), B64.add Q3 (B64.mul (B64.of_Q 1.5) IQR)).

(** the rows of a column outside the interquartile fence *)
Definition iqr_outlier_mask (s : Series) : list bool :=
map (fun x => B64.ltb x (iqr_bounds s).1 || B64.ltb (iqr_bounds s).2 x) (series_cells64 s).

(** one iteration of the loop of [_check_consistency] *)
Definition consistency_step (df : DataFrame) (consistency_scores : list float) (col : string)
  : result (list float) :=
sel ← df_getitem df col;
s ← as_series sel "dtype";
if is_int64_or_float64 s then
  let outliers := count_true (iqr_outlier_mask s) in
  ratio ← py_truediv (Z.of_nat outliers) (Z.of_nat (index_len df));
  mret (consistency_scores ++ [fsub (of_Z 1) ratio])
else mret consistency_scores.

Definition _check_consistency (df : DataFrame) : result float :=
consistency_scores ← for_each (consistency_step df) (df_columns df) [];
mret (match consistency_scores with [] => of_Z 1 | _ => np_mean consistency_scores end).

(** the rows of a column further than three standard deviations from the mean *)
Definition three_sigma_mask (L : Libs) (s : Series) : list bool :=
let mean := series_mean L s in
let std := series_std L s in
map (fun x => B64.ltb (B64.mul (B64.of_Z 3) std) (B64.abs (B64.sub x mean)))
    (series_cells64 s).

Definition accuracy_step (L : Libs) (df : DataFrame) (accuracy_scores : list float)
  (col : string) : result (list float) :=
sel ← df_getitem df col;
s ← as_series sel "dtype";
if is_int64_or_float64 s then
  let outliers := count_true (three_sigma_mask L s) in
  ratio ← py_truediv (Z.of_nat outliers) (Z.of_nat (index_len df));
  mret (accuracy_scores ++ [fsub (of_Z 1) ratio])
else mret accuracy_scores.

(** [df.select_dtypes(include=['int64', 'float64']).columns] *)
Definition numeric_column_names (df : DataFrame) : list string :=
map fst (filter (fun c => is_int64_or_float64 c.2 = true) (columns df)).

Definition format_step (df : DataFrame) (format_scores : list float) (col : string)
  : result (list float) :=
sel ← df_getitem df col;
s ← match sel with
    | SeriesSel s => mret s
    | FrameSel _ => raise (TypeError "arg must be a list, tuple, 1-d array, or Series")
    end;
let invalid_count := count_true (series_isnull s) in
mret (format_scores ++
      [fsub (of_Z 1) (np_truediv (Z.of_nat invalid_count) (Z.of_nat (index_len df)))]).

Definition _check_format_validity (df : DataFrame) : result float :=
try_except
  (format_scores ← for_each (format_step df) (numeric_column_names df) [];
   mret (match format_scores with [] => of_Z 1 | _ => np_mean format_scores end))
  (fun _ => mret (of_Z 0)).

(** the condition of the generator of [_check_schema_compliance] for one
    element [col] of [expected_schema] *)
Definition schema_column_matches (df : DataFrame) (expected_schema col : pyval) : result bool :=
match col with
| VStr c =>
    match df_dtypes df !! c with
    | Some actual =>
        declared ← py_getitem expected_schema c;
        mret (match declared with VStr t => String.eqb actual t | _ => false end)
    | None => mret false
    end
| VList _ => raise (TypeError "unhashable type: 'list'")
| VDict _ => raise (TypeError "unhashable type: 'dict'")
| _ => mret false
end.

Definition _check_schema_compliance (df : DataFrame) (metadata : gmap string pyval)
  : result float :=
match metadata !! "schema" with
| None => mret (Fin 0.5)
| Some expected_schema =>
    cols ← py_iter expected_schema;
    matching_columns ←
      for_each (fun n col => b ← schema_column_matches df expected_schema col;
                             mret (if b : bool then S n else n)) cols 0%nat;
    size ← py_len expected_schema;
    py_truediv (Z.of_nat matching_columns) (Z.of_nat size)
end.

(** the advisory of the [if]/[elif] chain of [_generate_recommendations] *)
Definition advisory (metric : string) : option string :=
if String.eqb metric "completeness" then
  Some "Consider handling missing values or collecting more complete data"
else if String.eqb metric "consistency" then
  Some "Review and handle outliers in the dataset"
else if String.eqb metric "accuracy" then
  Some "Validate extreme values and consider data cleaning"
else if String.eqb metric "timeliness" then
  Some "Update the dataset with more recent data"
else if String.eqb metric "format_validity" then
  Some "Review data types and format specifications"
else if String.eqb metric "schema_compliance" then
  Some "Ensure data follows the expected schema"
else None.

(** [self.quality_thresholds.get(metric, 0.9)] *)
Definition threshold_get (metric : string) : float :=
default (Fin 0.9) (quality_thresholds !! metric).

Definition recommendation_step (recommendations : list string) (item : string * float)
  : list string :=
if flt item.2 (threshold_get item.1) then
  match advisory item.1 with
  | Some text => recommendations ++ [text]
  | None => recommendations
  end
else recommendations.

Definition _generate_recommendations (scores : list (string * float)) : list string :=
fold_left recommendation_step scores [].

(** [sum(score * weights[metric] for metric, score in quality_scores.items())] *)
Definition weighted_sum (quality_scores : list (string * float)) : result float :=
for_each (fun acc item => w ← dict_getitem weights item.1; mret (fadd acc (fmul item.2 w)))
         quality_scores (of_Z 0).

Section QualityChecker.

Variable L : Libs.
(** [datetime.now()] *)
Variable now : datetime.

Definition _check_accuracy (df : DataFrame) : result float :=
accuracy_scores ← for_each (accuracy_step L df) (df_columns df) [];
mret (match accuracy_scores with [] => of_Z 1 | _ => np_mean accuracy_scores end).

Definition _check_timeliness (metadata : gmap string pyval) : result float :=
match metadata !! "last_updated" with
| Some v =>
    last_updated ← match v with
                   | VStr s => fromisoformat L s
                   | _ => raise (TypeError "fromisoformat: argument must be str")
                   end;
    days_old ← days_since now last_updated;
    limit ← dict_getitem quality_thresholds "timeliness";
    ratio ← py_fdiv (of_Z days_old) limit;
    mret (py_max0 (fsub (of_Z 1) ratio))
| None => mret (Fin 0.5)
end.

(** lines 20-48 of [evaluate_quality]: the report computed from the loaded
    table *)
Definition quality_report (df : DataFrame) (metadata : gmap string pyval)
  : result QualityReport :=
completeness ← _check_completeness df;
consistency ← _check_consistency df;
accuracy ← _check_accuracy df;
timeliness ← _check_timeliness metadata;
format_validity ← _check_format_validity df;
schema_compliance ← _check_schema_compliance df metadata;
let quality_scores :=
  [("completeness", completeness); ("consistency", consistency); ("accuracy", accuracy);
   ("timeliness", timeliness); ("format_validity", format_validity);
   ("schema_compliance", schema_compliance)] in
overall ← weighted_sum quality_scores;
mret {| overall_score := overall;
        detailed_scores := quality_scores;
        recommendations := _generate_recommendations quality_scores |}.

(** [evaluate_quality]; [load_dataset] is what the name [_load_dataset] would
    denote if the instance had such an attribute *)
Definition evaluate_quality (load_dataset : string -> result DataFrame)
  (file_path : string) (metadata : gmap string pyval) : result QualityReport :=
try_except
  (loader ← QualityChecker_getattr "_load_dataset" load_dataset;
   df ← loader file_path;
   quality_report df metadata)
  (fun e => raise (ValueError ("Error evaluating dataset quality: " +:+ exn_str e))).

End QualityChecker.

(** ** data_validator.py *)

(** [self.supported_formats] *)
Definition supported_formats : list string := ["csv"; "json"; "parquet"].

(** [all(f(x) for x in xs)]: stops at the first false element *)
Fixpoint py_all {A : Type} (f : A -> result bool) (xs : list A) : result bool :=
match xs with
| [] => mret true
| x :: rest => b ← f x; if b : bool then py_all f rest else mret false
end.

(** [col in df.columns] *)
Definition index_contains (df : DataFrame) (col : pyval) : result bool :=
match col with
| VStr c => mret (bool_decide (c ∈ df_columns df))
| VList _ => raise (TypeError "unhashable type: 'list'")
| VDict _ => raise (TypeError "unhashable type: 'dict'")
| _ => mret false
end.

(** [d.items()] *)
Definition py_items (v : pyval) : result (list (string * pyval)) :=
match v with
| VDict d => mret (map_to_list d)
| _ => raise (no_attribute v "items")
end.

(** the negation of the condition under which the type loop returns False *)
Definition column_type_ok (df : DataFrame) (item : string * pyval) : result bool :=
if bool_decide (item.1 ∈ df_columns df) then
  sel ← df_getitem df item.1;
  s ← as_series sel "dtype";
  mret (match item.2 with VStr t => String.eqb (series_dtype s) t | _ => false end)
else mret true.

(** the checks made on the loaded table *)
Definition validation_checks (df : DataFrame) (metadata : gmap string pyval) : result bool :=
if df_empty df then mret false
else
  required_columns ← py_iter (default (VList []) (metadata !! "required_columns"));
  present ← py_all (index_contains df) required_columns;
  if negb present then mret false
  else
    column_types ← py_items (default (VDict ∅) (metadata !! "column_types"));
    typed ← py_all (column_type_ok df) column_types;
    if negb typed then mret false else mret true.

(** a pandas reader applied to a path *)
Definition read_file_with (reader : bytes -> result DataFrame) (fs : gmap string bytes)
  (file_path : string) : result DataFrame :=
match fs !! file_path with
| Some content => reader content
| None => raise (FileNotFoundError ("No such file or directory: '" +:+ file_path +:+ "'"))
end.

Section DataValidator.

Variable L : Libs.

Definition validate_dataset (fs : gmap string bytes) (file_path : string)
  (metadata : gmap string pyval) : result bool :=
file_format ← py_lower (default (VStr "") (metadata !! "format"));
if negb (bool_decide (file_format ∈ supported_formats)) then mret false
else
  try_except
    (df ← (if String.eqb file_format "csv" then read_file_with (read_csv L) fs file_path
           else if String.eqb file_format "json" then read_file_with (read_json L) fs file_path
           else if String.eqb file_format "parquet" then
             read_file_with (read_parquet L) fs file_path
           else raise (LibraryError "UnboundLocalError"
                         "cannot access local variable 'df' where it is not associated with a value"));
     validation_checks df metadata)
    (fun _ => mret false).

End DataValidator.

(** ** The world of encryption.py and data_manager.py *)

Record World : Type := {
  (** the local file system: path to content *)
  fs : gmap string bytes;
  (** the IPFS node: files and JSON documents by content identifier *)
  ipfs_files : gmap string bytes;
  ipfs_json : gmap string pyval;
  (** [self.salt] of the DataEncryption instance *)
  salt : bytes;
  (** the bytes the operating system will hand out, and how many were drawn *)
  os_tape : nat -> Byte.byte;
  os_drawn : nat
}.

Definition M (A : Type) : Type := World -> result A * World.

#[global] Instance M_ret : MRet M := fun A x w => (inr x, w).
#[global] Instance M_bind : MBind M :=
  fun A B f m w => match m w with
                   | (inl e, w') => (inl e, w')
                   | (inr x, w') => f x w'
                   end.

Definition lift {A} (r : result A) : M A := fun w => (r, w).

Definition get_world : M World := fun w => (inr w, w).

Definition set_fs (f : gmap string bytes) (w : World) : World :=
{| fs := f; ipfs_files := ipfs_files w; ipfs_json := ipfs_json w; salt := salt w;
   os_tape := os_tape w; os_drawn := os_drawn w |}.

Definition set_ipfs_files (f : gmap string bytes) (w : World) : World :=
{| fs := fs w; ipfs_files := f; ipfs_json := ipfs_json w; salt := salt w;
   os_tape := os_tape w; os_drawn := os_drawn w |}.

Definition set_ipfs_json (j : gmap string pyval) (w : World) : World :=
{| fs := fs w; ipfs_files := ipfs_files w; ipfs_json := j; salt := salt w;
   os_tape := os_tape w; os_drawn := os_drawn w |}.

Definition set_salt (s : bytes) (w : World) : World :=
{| fs := fs w; ipfs_files := ipfs_files w; ipfs_json := ipfs_json w; salt := s;
   os_tape := os_tape w; os_drawn := os_drawn w |}.

Definition set_os_drawn (n : nat) (w : World) : World :=
{| fs := fs w; ipfs_files := ipfs_files w; ipfs_json := ipfs_json w; salt := salt w;
   os_tape := os_tape w; os_drawn := n |}.

Definition modify (f : World -> World) : M unit := fun w => (inr tt, f w).

(** [os.urandom(n)] *)
Definition os_urandom (n : nat) : M bytes :=
fun w => (inr (map (os_tape w) (seq (os_drawn w) n)), set_os_drawn (os_drawn w + n) w).

(** [open(path, 'rb').read()] *)
Definition read_file (path : string) : M bytes :=
fun w => match fs w !! path with
         | Some content => (inr content, w)
         | None => (inl (FileNotFoundError ("No such file or directory: '" +:+ path +:+ "'")), w)
         end.

(** [open(path, 'wb').write(data)]. A path is a key of the file system;
    directories are not modelled, the directory of [path] is taken to
    exist. *)
Definition write_file (path : string) (data : bytes) : M unit :=
modify (fun w => set_fs (<[path := data]> (fs w)) w).

(** ** encryption.py *)

(** [DataEncryption.__init__] *)
Definition DataEncryption_init : M unit :=
s ← os_urandom 16; modify (set_salt s).

Section DataEncryption.

Variable L : Libs.

Definition generate_key (password : string) : M bytes :=
w ← get_world;
mret (urlsafe_b64encode
        (PBKDF2HMAC_SHA256_derive L 32%N (salt w) 100000%N (str_encode password))).

Definition encrypt_file (file_path password : string) : M (string * bytes) :=
key ← generate_key password;
file_data ← read_file file_path;
drawn ← os_urandom 24;
let encrypted_data := Fernet_encrypt L key drawn file_data in
let encrypted_file_path := file_path +:+ ".encrypted" in
_ ← write_file encrypted_file_path encrypted_data;
w ← get_world;
mret (encrypted_file_path, salt w).

Definition decrypt_file (encrypted_file_path password : string) (salt_arg : bytes) : M string :=
_ ← modify (set_salt salt_arg);
key ← generate_key password;
encrypted_data ← read_file encrypted_file_path;
decrypted_data ← lift (Fernet_decrypt L key encrypted_data);
let decrypted_file_path := str_replace encrypted_file_path ".encrypted" ".decrypted" in
_ ← write_file decrypted_file_path decrypted_data;
mret decrypted_file_path.

End DataEncryption.

(** ** data_manager.py *)

Record UploadResult : Type := {
  metadata_hash : string;
  ipfs_hash : string;
  file_hash : string
}.

(** the [metadata_obj] dictionary of [upload_dataset] *)
Definition metadata_obj (file_hash ipfs_hash : string) (metadata : gmap string pyval) : pyval :=
VDict (<["file_hash" := VStr file_hash]>
       (<["ipfs_hash" := VStr ipfs_hash]> (<["metadata" := VDict metadata]> ∅))).

(** the loop of [_calculate_file_hash]: [unread] is what the file object has
    not yet returned, [absorbed] what the hash object was fed; one unit of
    [fuel] per call of [f.read(4096)] *)
Fixpoint hash_blocks (fuel : nat) (unread absorbed : bytes) : bytes :=
match fuel with
| O => absorbed
| S k =>
    match take 4096 unread with
    | [] => absorbed
    | byte_block => hash_blocks k (drop 4096 unread) (absorbed ++ byte_block)
    end
end.

Section DataManager.

Variable L : Libs.

(** [self.ipfs.add(path)['Hash']] *)
Definition ipfs_add (path : string) : M string :=
content ← read_file path;
let cid := ipfs_cid_file L content in
_ ← modify (fun w => set_ipfs_files (<[cid := content]> (ipfs_files w)) w);
mret cid.

(** [self.ipfs.add_json(obj)] *)
Definition ipfs_add_json (obj : pyval) : M string :=
let cid := ipfs_cid_json L obj in
_ ← modify (fun w => set_ipfs_json (<[cid := obj]> (ipfs_json w)) w);
mret cid.

(** [self.ipfs.get_json(cid)] *)
Definition ipfs_get_json (cid : string) : M pyval :=
fun w => match ipfs_json w !! cid with
         | Some obj => (inr obj, w)
         | None => (inl (LibraryError "ipfs_api.Error" ("no JSON document " +:+ cid)), w)
         end.

(** [self.ipfs.get(cid)]: the file is downloaded and its path returned *)
Definition ipfs_get (cid : pyval) : M string :=
match cid with
| VStr c =>
    fun w => match ipfs_files w !! c with
             | Some content =>
                 (inr (ipfs_download_path L c),
                  set_fs (<[ipfs_download_path L c := content]> (fs w)) w)
             | None => (inl (LibraryError "ipfs_api.Error" ("no file " +:+ c)), w)
             end
| _ => lift (raise (TypeError "content identifier must be str"))
end.

Definition _calculate_file_hash (file_path : string) : M string :=
content ← read_file file_path;
mret (bytes_hex (sha256_digest L (hash_blocks (S (length content)) content []))).

(** [upload_dataset]; the second component of the value is the caller's
    [metadata] dictionary after the call, which updates it in place *)
Definition upload_dataset (file_path : string) (metadata : gmap string pyval)
  (password : option string) : M (UploadResult * gmap string pyval) :=
file_hash ← _calculate_file_hash file_path;
'(ipfs_hash, metadata) ←
  match password with
  | Some pw =>
      if password_given password then
        '(encrypted_file_path, salt) ← encrypt_file L file_path pw;
        ipfs_hash ← ipfs_add encrypted_file_path;
        mret (ipfs_hash,
              <["salt" := VStr (bytes_hex salt)]> (<["encrypted" := VBool true]> metadata))
      else
        ipfs_hash ← ipfs_add file_path;
        mret (ipfs_hash, <["encrypted" := VBool false]> metadata)
  | None =>
      ipfs_hash ← ipfs_add file_path;
      mret (ipfs_hash, <["encrypted" := VBool false]> metadata)
  end;
metadata_hash ← ipfs_add_json (metadata_obj file_hash ipfs_hash metadata);
mret ({| metadata_hash := metadata_hash; ipfs_hash := ipfs_hash; file_hash := file_hash |},
      metadata).

Definition retrieve_dataset (metadata_hash : string) (password : option string)
  : M (string * pyval) :=
metadata ← ipfs_get_json metadata_hash;
ipfs_hash ← lift (py_getitem metadata "ipfs_hash");
dataset_path ← ipfs_get ipfs_hash;
encrypted ← lift (py_get metadata "encrypted" (VBool false));
match password with
| Some pw =>
    if truthy encrypted && password_given password then
      salt_hex ← lift (py_getitem metadata "salt");
      salt ← lift (match salt_hex with
                   | VStr s => bytes_fromhex s
                   | _ => raise (TypeError "fromhex() argument must be str")
                   end);
      dataset_path ← decrypt_file L dataset_path pw salt;
      mret (dataset_path, metadata)
    else mret (dataset_path, metadata)
| None => mret (dataset_path, metadata)
end.

End DataManager.

(** ** data_manager.py: previews *)

(** [s.endswith(suffix)]: one of the tails of [s] is [suffix] *)
Fixpoint str_endswith (s suffix : string) : bool :=
String.eqb s suffix
|| match s with
   | EmptyString => false
   | String _ s' => str_endswith s' suffix
   end.

(** [sub in s] on strings: one of the tails of [s] starts with [sub] *)
Fixpoint str_contains (sub s : string) : bool :=
String.prefix sub s
|| match s with
   | EmptyString => false
   | String _ s' => str_contains sub s'
   end.

(** the pandas calls that only [generate_preview] makes *)
Record PreviewLibs : Type := {
  (** [pd.read_csv(path, nrows=n)] on a file's content *)
  read_csv_nrows : Z -> bytes -> result DataFrame;
  (** [df.to_dict('records')] *)
  to_dict_records : DataFrame -> pyval;
  (** [df.describe().to_dict()] *)
  describe_to_dict : DataFrame -> result pyval
}.

(** how many rows the slice [[:stop]] keeps of [len] rows: a negative
    [stop] counts from the end *)
Definition slice_stop (stop : Z) (len : nat) : nat :=
if (stop <? 0)%Z then Z.to_nat (Z.of_nat len + stop) else Nat.min (Z.to_nat stop) len.

Definition series_head (n : nat) (s : Series) : Series :=
match s with
| Int64Col vs => Int64Col (take n vs)
| Float64Col vs => Float64Col (take n vs)
| ObjectCol vs => ObjectCol (take n vs)
| OtherCol dt na => OtherCol dt (take n na)
end.

(** [df[:stop]] *)
Definition df_head (df : DataFrame) (stop : Z) : DataFrame :=
let n := slice_stop stop (index_len df) in
{| index_len := n; columns := map (fun c => (c.1, series_head n c.2)) (columns df) |}.

(** [df.select_dtypes(include=['int64', 'float64'])] *)
Definition df_select_numeric (df : DataFrame) : DataFrame :=
{| index_len := index_len df;
   columns := filter (fun c => is_int64_or_float64 c.2 = true) (columns df) |}.

(** [df.isnull().sum().to_dict()]: a repeated name keeps its last column *)
Definition df_missing_values (df : DataFrame) : gmap string nat :=
fold_left (fun m c => <[c.1 := count_true (series_isnull c.2)]> m) (columns df) ∅.

(** the dictionary [generate_preview] returns; [statistics] is flattened
    into its two entries *)
Record Preview : Type := {
  preview_columns : list string;
  preview_data : pyval;
  total_rows : nat;
  preview_rows : Z;
  preview_dtypes : gmap string string;
  statistics_numeric_columns : pyval;
  statistics_missing_values : gmap string nat
}.

Section GeneratePreview.

Variable L : Libs.
Variable P : PreviewLibs.

Definition generate_preview (fs : gmap string bytes) (file_path : string) (max_rows : Z)
  : result Preview :=
try_except
  (df ← (if str_endswith file_path ".csv" then
           read_file_with (read_csv_nrows P max_rows) fs file_path
         else if str_endswith file_path ".json" then
           whole ← read_file_with (read_json L) fs file_path; mret (df_head whole max_rows)
         else if str_endswith file_path ".parquet" then
           whole ← read_file_with (read_parquet L) fs file_path; mret (df_head whole max_rows)
         else raise (ValueError "Unsupported file format"));
   let preview_columns := df_columns df in
   let preview_data := to_dict_records P df in
   let total_rows := index_len df in
   let preview_rows := Z.min max_rows (Z.of_nat (index_len df)) in
   let preview_dtypes := df_dtypes df in
   numeric_columns ← describe_to_dict P (df_select_numeric df);
   mret {| preview_columns := preview_columns;
           preview_data := preview_data;
           total_rows := total_rows;
           preview_rows := preview_rows;
           preview_dtypes := preview_dtypes;
           statistics_numeric_columns := numeric_columns;
           statistics_missing_values := df_missing_values df |})
  (fun e => raise (ValueError ("Error generating preview: " +:+ exn_str e))).

End GeneratePreview.

(** ** data_manager.py: search *)

(** The names an instance of DataManager resolves: the two attributes bound
    by [__init__] and the methods of the class body; the class has no base
    class but [object]. *)
Definition DataManager_attributes : list string :=
["ipfs"; "encryption"; "__init__"; "upload_dataset"; "retrieve_dataset"; "generate_preview";
 "_calculate_file_hash"; "search_datasets"].

(** [self.name]: [bound] when the instance has the attribute *)
Definition DataManager_getattr {A} (name : string) (bound : A) : result A :=
if bool_decide (name ∈ DataManager_attributes) then mret bound
else raise (AttributeError ("'DataManager' object has no attribute '" +:+ name +:+ "'")).

(** what [contract.functions.datasets(i).call()] returns: owner, metadata
    hash, price, active flag, description, size, data type *)
Record Listing : Type := {
  listing_owner : string;
  listing_metadata_hash : string;
  listing_price : Z;
  listing_active : bool;
  listing_description : string;
  listing_size : Z;
  listing_data_type : string
}.

(** the two calls [search_datasets] makes on the market contract *)
Record Contract : Type := {
  datasetCount : result Z;
  datasets : Z -> result Listing
}.

(** the [dataset_info] dictionary *)
Record DatasetInfo : Type := {
  info_id : Z;
  info_owner : string;
  info_price : Z;
  info_description : string;
  info_size : Z;
  info_data_type : string;
  info_metadata : pyval
}.

(** [try: body except Exception as e: handler(e)] over the world *)
Definition try_except_M {A} (body : M A) (handler : exn -> M A) : M A :=
fun w => match body w with
         | (inl e, w') => handler e w'
         | (inr v, w') => (inr v, w')
         end.

(** [for x in xs: state = step(state, x)] over the world *)
Fixpoint for_each_M {S A : Type} (step : S -> A -> M S) (xs : list A) (s : S) : M S :=
match xs with
| [] => mret s
| x :: rest => s' ← step s x; for_each_M step rest s'
end.

(** [[x for x in xs if cond(x)]], stopping at the first exception *)
Fixpoint py_filter {A : Type} (cond : A -> result bool) (xs : list A) : result (list A) :=
match xs with
| [] => mret []
| x :: rest =>
    b ← cond x;
    kept ← py_filter cond rest;
    mret (if b : bool then x :: kept else kept)
end.

(** [range(1, count + 1)] *)
Definition range_from_one (count : Z) : list Z :=
map (fun k => Z.of_nat k) (seq 1 (Z.to_nat count)).

(** [d.values()] *)
Definition py_values (v : pyval) : result (list pyval) :=
match v with
| VDict d => mret (map snd (map_to_list d))
| _ => raise (no_attribute v "values")
end.

(** [s == v] for a string [s] *)
Definition str_equals (s : string) (v : pyval) : bool :=
match v with
| VStr t => String.eqb s t
| _ => false
end.

(** [x >= y] and [x <= y] on floats; false as soon as one side is NaN *)
Definition fge (x y : float) : bool :=
match x, y with
| NaN, _ | _, NaN => false
| _, _ => negb (flt x y)
end.

Definition fle (x y : float) : bool := fge y x.

(** [price >= bound] for an integer [price] *)
Definition int_ge (price : Z) (bound : pyval) : result bool :=
match bound with
| VInt z => mret (z <=? price)%Z
| VBool b => mret ((if b then 1 else 0) <=? price)%Z
| VFloat x => mret (fge (of_Z price) x)
| _ => raise (TypeError ("'>=' not supported between instances of 'int' and '"
                         +:+ type_name bound +:+ "'"))
end.

(** [price <= bound] for an integer [price] *)
Definition int_le (price : Z) (bound : pyval) : result bool :=
match bound with
| VInt z => mret (price <=? z)%Z
| VBool b => mret (price <=? (if b then 1 else 0))%Z
| VFloat x => mret (fle (of_Z price) x)
| _ => raise (TypeError ("'<=' not supported between instances of 'int' and '"
                         +:+ type_name bound +:+ "'"))
end.

Section SearchDatasets.

(** [str(v)] on the values of a metadata dictionary *)
Variable py_str : pyval -> string.

(** one iteration of the loop that collects the active datasets *)
Definition collect_step (contract : Contract) (collected : list DatasetInfo) (i : Z)
  : M (list DatasetInfo) :=
dataset ← lift (datasets contract i);
if listing_active dataset then
  metadata ← ipfs_get_json (listing_metadata_hash dataset);
  inner ← lift (py_getitem metadata "metadata");
  mret (collected ++ [{| info_id := i;
                         info_owner := listing_owner dataset;
                         info_price := listing_price dataset;
                         info_description := listing_description dataset;
                         info_size := listing_size dataset;
                         info_data_type := listing_data_type dataset;
                         info_metadata := inner |}])
else mret collected.

(** the condition of the comprehension that applies the query *)
Definition matches_query (query : string) (d : DatasetInfo) : result bool :=
if str_contains query (str_lower (info_description d)) then mret true
else if str_contains query (str_lower (info_data_type d)) then mret true
else
  values ← py_values (info_metadata d);
  mret (existsb (fun v => str_contains query (str_lower (py_str v))) values).

Definition apply_query (query : option string) (found : list DatasetInfo)
  : result (list DatasetInfo) :=
match query with
| Some q =>
    if negb (String.eqb q "") then py_filter (matches_query (str_lower q)) found
    else mret found
| None => mret found
end.

Definition apply_filters (filters : option (gmap string pyval)) (found : list DatasetInfo)
  : result (list DatasetInfo) :=
match filters with
| Some f =>
    if truthy (VDict f) then
      found ← match f !! "data_type" with
              | Some v => mret (List.filter (fun d => str_equals (info_data_type d) v) found)
              | None => mret found
              end;
      found ← match f !! "min_price" with
              | Some v => py_filter (fun d => int_ge (info_price d) v) found
              | None => mret found
              end;
      found ← match f !! "max_price" with
              | Some v => py_filter (fun d => int_le (info_price d) v) found
              | None => mret found
              end;
      match f !! "owner" with
      | Some v => mret (List.filter (fun d => str_equals (info_owner d) v) found)
      | None => mret found
      end
    else mret found
| None => mret found
end.

(** the body of the [try] block, for the contract [self.blockchain_manager]
    would reach *)
Definition search_body (contract : Contract) (query : option string)
  (filters : option (gmap string pyval)) : M (list DatasetInfo) :=
count ← lift (datasetCount contract);
found ← for_each_M (collect_step contract) (range_from_one count) [];
found ← lift (apply_query query found);
lift (apply_filters filters found).

(** [search_datasets]; [blockchain_manager] is what the name would denote if
    the instance had such an attribute *)
Definition search_datasets (blockchain_manager : Contract) (query : option string)
  (filters : option (gmap string pyval)) : M (list DatasetInfo) :=
try_except_M
  (contract ← lift (DataManager_getattr "blockchain_manager" blockchain_manager);
   search_body contract query filters)
  (fun e => lift (raise (ValueError ("Error searching datasets: " +:+ exn_str e)))).

End SearchDatasets.

(** ** analytics.py *)

Module DatasetAnalytics.

(** one iteration of the loop of [_check_consistency] *)
Definition consistency_entry (df : DataFrame) (consistency : gmap string float) (col : string)
  : result (gmap string float) :=
sel ← df_getitem df col;
s ← as_series sel "dtype";
if is_int64_or_float64 s then
  let outliers := count_true (iqr_outlier_mask s) in
  ratio ← py_truediv (Z.of_nat outliers) (Z.of_nat (index_len df));
  mret (<[col := fsub (of_Z 1) ratio]> consistency)
else mret consistency.

Definition _check_consistency (df : DataFrame) : result (gmap string float) :=
for_each (consistency_entry df) (df_columns df) ∅.

(** one iteration of the loop of [_check_accuracy] *)
Definition accuracy_entry (L : Libs) (df : DataFrame) (accuracy : gmap string float)
  (col : string) : result (gmap string float) :=
sel ← df_getitem df col;
s ← as_series sel "dtype";
if is_int64_or_float64 s then
  let outliers := count_true (three_sigma_mask L s) in
  ratio ← py_truediv (Z.of_nat outliers) (Z.of_nat (index_len df));
  mret (<[col := fsub (of_Z 1) ratio]> accuracy)
else mret accuracy.

Section DatasetAnalytics.

Variable L : Libs.

Definition _load_dataset (fs : gmap string bytes) (file_path : string) : result DataFrame :=
if str_endswith file_path ".csv" then read_file_with (read_csv L) fs file_path
else if str_endswith file_path ".json" then read_file_with (read_json L) fs file_path
else if str_endswith file_path ".parquet" then read_file_with (read_parquet L) fs file_path
else raise (ValueError "Unsupported file format").

Definition _check_accuracy (df : DataFrame) : result (gmap string float) :=
for_each (accuracy_entry L df) (df_columns df) ∅.

End DatasetAnalytics.

End DatasetAnalytics.

(** ** Stand-ins for the libraries

    Small executable instances of [Libs], used to run the embedding on
    concrete inputs. Nothing proved for every [Libs] depends on them. *)

Module Stub.

(** a key derivation that keeps its whole input *)
Definition derive (length : N) (salt : bytes) (iterations : N) (key_material : bytes) : bytes :=
key_material ++ salt.

(** a token is its key, written in a self-delimiting way, then the data *)
Definition token_header (key : bytes) : bytes :=
flat_map (fun b => [Byte.x01; b]) key ++ [Byte.x00].

Definition encrypt (key drawn data : bytes) : bytes := token_header key ++ data.

Fixpoint strip_header (key token : bytes) : option bytes :=
match key, token with
| [], x :: rest => if Byte.eqb x Byte.x00 then Some rest else None
| b :: key', x :: c :: rest =>
    if Byte.eqb x Byte.x01 && Byte.eqb b c then strip_header key' rest else None
| _, _ => None
end.

Definition decrypt (key token : bytes) : result bytes :=
match strip_header key token with
| Some data => inr data
| None => inl InvalidToken
end.

Definition digit_value (c : ascii) : option Z :=
let n := Z.of_N (N_of_ascii c) in
if (48 <=? n)%Z && (n <=? 57)%Z then Some (n - 48)%Z else None.

Fixpoint number_of (digits : list ascii) (acc : Z) : option Z :=
match digits with
| [] => Some acc
| c :: rest => match digit_value c with
               | Some d => number_of rest (acc * 10 + d)%Z
               | None => None
               end
end.

(** days from 1970-01-01 to a date of the proleptic Gregorian calendar *)
Definition days_from_civil (y m d : Z) : Z :=
let y' := (if m <=? 2 then y - 1 else y)%Z in
let era := (y' / 400)%Z in
let yoe := (y' - era * 400)%Z in
let doy := ((153 * (if m >? 2 then m - 3 else m + 9) + 2) / 5 + d - 1)%Z in
let doe := (yoe * 365 + yoe / 4 - yoe / 100 + doy)%Z in
(era * 146097 + doe - 719468)%Z.

(** midnight of a date [YYYY-MM-DD] *)
Definition parse_day (s : string) (digits : list ascii) : result datetime :=
match digits with
| [y1; y2; y3; y4; "-"%char; m1; m2; "-"%char; d1; d2] =>
    match number_of [y1; y2; y3; y4] 0, number_of [m1; m2] 0, number_of [d1; d2] 0 with
    | Some y, Some m, Some d =>
        if (1 <=? m)%Z && (m <=? 12)%Z && (1 <=? d)%Z && (d <=? 31)%Z
        then inr (days_from_civil y m d * microseconds_per_day)%Z
        else inl (ValueError "month or day is out of range")
    | _, _, _ => inl (ValueError ("Invalid isoformat string: '" +:+ s +:+ "'"))
    end
| _ => inl (ValueError ("Invalid isoformat string: '" +:+ s +:+ "'"))
end.

(** [datetime.fromisoformat] on two of its forms: the date alone
    [YYYY-MM-DD], which gives a naive datetime, and midnight in UTC
    [YYYY-MM-DDT00:00:00+00:00], which gives an aware one *)
Definition parse_date (s : string) : result parsed_datetime :=
let digits := list_ascii_of_string s in
if String.eqb (String.substring 10 15 s) "T00:00:00+00:00" && (String.length s =? 25)%nat then
  t ← parse_day s (take 10 digits); mret (AwareDatetime t 0)
else t ← parse_day s digits; mret (NaiveDatetime t).

(** the sum of binary64 numbers, added from left to right *)
Definition sum64 (xs : list B64.binary64) : B64.binary64 :=
fold_left B64.add xs (B64.of_Z 0).

(** the mean of the numbers of a column: NaN (0/0) when there is none *)
Definition mean (s : Series) : B64.binary64 :=
match s with
| Int64Col _ | Float64Col _ =>
    let xs := series_numbers64 s in
    B64.div (sum64 xs) (B64.of_Z (Z.of_nat (length xs)))
| _ => B64.nan
end.

(** the sample standard deviation (one degree of freedom removed): NaN
    when the column has fewer than two numbers *)
Definition std (s : Series) : B64.binary64 :=
match s with
| Int64Col _ | Float64Col _ =>
    match series_numbers64 s with
    | [] | [_] => B64.nan
    | xs =>
        let squares := map (fun x => let d := B64.sub (mean s) x in B64.mul d d) xs in
        B64.sqrt (B64.div (sum64 squares) (B64.of_Z (Z.of_nat (length xs) - 1)))
    end
| _ => B64.nan
end.

(** the libraries, with pandas readers that all return [table] *)
Definition libs (table : result DataFrame) : Libs :=
{| PBKDF2HMAC_SHA256_derive := derive;
   Fernet_encrypt := encrypt;
   Fernet_decrypt := decrypt;
   sha256_digest := fun data => data;
   ipfs_cid_file := fun data => "Qm" +:+ bytes_hex data;
   ipfs_cid_json := fun _ => "QmMetadata";
   ipfs_download_path := fun cid => "/tmp/" +:+ cid;
   read_csv := fun _ => table;
   read_json := fun _ => table;
   read_parquet := fun _ => table;
   series_mean := mean;
   series_std := std;
   fromisoformat := parse_date |}.

(** a key derivation that reads its key material as HMAC does, through the
    block key *)
Definition hmac_derive (hash : bytes -> bytes) (length : N) (salt : bytes) (iterations : N)
  (key_material : bytes) : bytes :=
hmac_block_key hash 64 key_material ++ salt.

(** the same libraries with that key derivation *)
Definition hmac_libs (table : result DataFrame) : Libs :=
{| PBKDF2HMAC_SHA256_derive := hmac_derive (sha256_digest (libs table));
   Fernet_encrypt := encrypt;
   Fernet_decrypt := decrypt;
   sha256_digest := sha256_digest (libs table);
   ipfs_cid_file := ipfs_cid_file (libs table);
   ipfs_cid_json := ipfs_cid_json (libs table);
   ipfs_download_path := ipfs_download_path (libs table);
   read_csv := read_csv (libs table);
   read_json := read_json (libs table);
   read_parquet := read_parquet (libs table);
   series_mean := mean;
   series_std := std;
   fromisoformat := parse_date |}.

End Stub.

(** ** The specification's reading of the metrics *)

(** metric declaration order *)
Definition metric_names : list string :=
["completeness"; "consistency"; "accuracy"; "timeliness"; "format_validity";
 "schema_compliance"].

Definition weight_of (metric : string) : float := default NaN (weights !! metric).

(** the dot product of the detailed scores with the weights *)
Definition dot_product (scores : list (string * float)) : float :=
fsum (map (fun item => fmul item.2 (weight_of item.1)) scores).

(** the declared timestamp, when there is one that parses, is not later
    than the time of evaluation *)
Definition not_dated_ahead (L : Libs) (now : datetime) (metadata : gmap string pyval) : Prop :=
forall s t, metadata !! "last_updated" = Some (VStr s) ->
            fromisoformat L s = inr (NaiveDatetime t) -> (t <= now)%Z.




(** the key [generate_key] derives from a password under a salt *)
Definition derived_key (L : Libs) (salt_bytes : bytes) (password : string) : bytes :=
urlsafe_b64encode (PBKDF2HMAC_SHA256_derive L 32%N salt_bytes 100000%N (str_encode password)).

(** the world after [encrypt_file] wrote [token] beside [file_path] *)
Definition world_after_encrypt (w : World) (file_path : string) (token : bytes) : World :=
set_fs (<[file_path +:+ ".encrypted" := token]> (fs w)) (set_os_drawn (os_drawn w + 24) w).

(** what [Fernet.encrypt] draws from the operating system in world [w] *)
Definition fernet_draw (w : World) : bytes := map (os_tape w) (seq (os_drawn w) 24).

(** the world after [upload_dataset] stored [blob] and the [record] that
    points to it *)
Definition world_after_upload (L : Libs) (w : World) (blob : bytes) (record : pyval) : World :=
set_ipfs_json (<[ipfs_cid_json L record := record]> (ipfs_json w))
  (set_ipfs_files (<[ipfs_cid_file L blob := blob]> (ipfs_files w)) w).

(** the token [upload_dataset] stores for [data] under [password] in world [w] *)
Definition upload_token (L : Libs) (w : World) (password : string) (data : bytes) : bytes :=
Fernet_encrypt L (derived_key L (salt w) password) (fernet_draw w) data.

(** the declared format, absent or a string *)
Definition declared_format (metadata : gmap string pyval) (format : string) : Prop :=
(metadata !! "format" = None /\ format = "")
\/ metadata !! "format" = Some (VStr format).

(** the reader [validate_dataset] applies for a supported format *)
Definition reader_for (L : Libs) (format : string) : bytes -> result DataFrame :=
if String.eqb format "csv" then read_csv L
else if String.eqb format "json" then read_json L
else read_parquet L.

(** numeric columns, in table order *)
Definition numeric_columns (df : DataFrame) : list Series :=
filter (fun s => is_int64_or_float64 s = true) (map snd (columns df)).

(** the cells of a column that a mask flags *)
Definition flagged_cells (s : Series) (mask : list bool) : list float :=
map fst (filter (fun cell => cell.2 = true) (zip (series_floats s) mask)).

(** one column's score: 1 - outliers / rowcount *)
Definition column_consistency (df : DataFrame) (s : Series) : float :=
fsub (of_Z 1)
     (Fin (inject_Z (Z.of_nat (count_true (iqr_outlier_mask s)))
           / inject_Z (Z.of_nat (index_len df)))).

(** consistency as the specification words it: the unweighted mean of the
    column scores over the numeric columns, 1.0 when there is none *)
Definition consistency_spec (df : DataFrame) : float :=
match numeric_columns df with
| [] => of_Z 1
| cols => np_mean (map (column_consistency df) cols)
end.

(** a list in ascending order *)
Definition ascending {A : Type} (leb : A -> A -> bool) (l : list A) : Prop :=
Sorted (fun x y => leb x y = true) l.

(** [v] is the quantile of level [q] of [values] by linear interpolation:
    with the values put in ascending order, it is interpolated at the rank
    [(n - 1) * q], between the value at that rank rounded down and the next
    one (the same value again at the last rank); NaN when there is no value *)
Definition is_quantile {A : Type} (leb : A -> A -> bool)
  (lerp : A -> A -> Q -> B64.binary64) (values : list A) (q : Q) (v : B64.binary64) : Prop :=
match values with
| [] => v = B64.nan
| _ :: _ =>
    exists sorted below above,
      sorted ≡ₚ values
      /\ ascending leb sorted
      /\ let rank := (q * inject_Z (Z.of_nat (length values) - 1))%Q in
         sorted !! Z.to_nat (Qfloor rank) = Some below
         /\ above = default below (sorted !! S (Z.to_nat (Qfloor rank)))
         /\ v = lerp below above (rank - inject_Z (Qfloor rank))%Q
end.

(** the quantile of a numeric column, over its non-missing cells *)
Definition is_series_quantile (s : Series) (q : Q) (v : B64.binary64) : Prop :=
match s with
| Int64Col vs => is_quantile Z.leb lerp_int64 vs q v
| Float64Col _ => is_quantile B64.leb lerp64 (series_numbers64 s) q v
| _ => v = B64.nan
end.

(** a cell outside the bounds [Q1 - 1.5 IQR, Q3 + 1.5 IQR] *)
Definition outside_iqr_bounds (Q1 Q3 x : B64.binary64) : bool :=
let IQR := B64.sub Q3 Q1 in
B64.ltb x (B64.sub Q1 (B64.mul (B64.of_Q 1.5) IQR))
|| B64.ltb (B64.add Q3 (B64.mul (B64.of_Q 1.5) IQR)) x.

(** [score] is the score of column [s] as the specification words it:
    1 - outliers/rowcount, the outliers being the rows whose cell lies
    outside the bounds drawn from the quartiles of the column *)
Definition outlier_free_fraction (df : DataFrame) (s : Series) (score : float) : Prop :=
exists Q1 Q3,
  is_series_quantile s 0.25 Q1 /\ is_series_quantile s 0.75 Q3
  /\ score = Fin (1 - inject_Z (Z.of_nat (length (List.filter (outside_iqr_bounds Q1 Q3)
                                                           (series_cells64 s))))
                   / inject_Z (Z.of_nat (index_len df))).

(** the advisories the specification expects: one per metric whose score is
    below its threshold, in the order of the scores *)
Definition advisories_below_threshold (scores : list (string * float)) : list string :=
omap (fun item => if flt item.2 (threshold_get item.1) then advisory item.1 else None) scores.

(** ** Example inputs *)

Module Examples.

(** the single numeric column [1, 2, 3, 4, 100] *)
Definition outlier_column : Series := Int64Col [1; 2; 3; 4; 100]%Z.

Definition outlier_frame : DataFrame :=
{| index_len := 5; columns := [("value", outlier_column)] |}.

(** a table with one textual column and one row *)
Definition names_frame : DataFrame :=
{| index_len := 1; columns := [("name", ObjectCol [Some "a"])] |}.

(** the table of the validation scenario: one column [id] *)
Definition id_frame : DataFrame :=
{| index_len := 2; columns := [("id", Int64Col [1; 2]%Z)] |}.

(** 2024-01-01T00:00:00 *)
Definition new_year_2024 : datetime := (19723 * microseconds_per_day)%Z.

(** metadata dated at the end of year 9999 *)
Definition future_metadata : gmap string pyval := {["last_updated" := VStr "9999-12-31"]}.

(** a table with one textual column and no row, as read from a file that
    holds a header line only *)
Definition header_only_frame : DataFrame :=
{| index_len := 0; columns := [("name", ObjectCol [])] |}.

(** metadata dated a month before [new_year_2024] *)
Definition past_metadata : gmap string pyval := {["last_updated" := VStr "2023-12-01"]}.


(** the ten bytes [0 .. 9] *)
Definition ten_bytes : bytes := map (fun n => byte_of_N (N.of_nat n)) (seq 0 10).

(** a machine holding the file [data.bin], with a DataEncryption instance
    whose salt was drawn by [__init__] *)
Definition fresh_world : World :=
{| fs := {["data.bin" := ten_bytes]};
   ipfs_files := ∅;
   ipfs_json := ∅;
   salt := [];
   os_tape := fun n => byte_of_N (N.of_nat (n mod 256));
   os_drawn := 0 |}.

Definition world : World := (DataEncryption_init fresh_world).2.

(** the same machine with a second file *)
Definition world_two_files : World :=
set_fs (<["other.bin" := [Byte.x2a]]> (fs world)) world.

Definition libs : Libs := Stub.libs (inr id_frame).

(** the same with a key derivation that reads its key material as HMAC
    does *)
Definition hmac_libs : Libs := Stub.hmac_libs (inr id_frame).

End Examples.

(** ** Further notions used to state what the code does *)

(** the first character of [old] occurs nowhere else in [old] *)
Definition borderless (old : string) : Prop :=
forall k, (0 < k < String.length old)%nat -> String.get k old <> String.get 0 old.

(** whether an entry (column, declared dtype) of a schema dictionary agrees
    with the table *)
Definition schema_entry_matches (df : DataFrame) (entry : string * pyval) : bool :=
match df_dtypes df !! entry.1, entry.2 with
| Some actual, VStr t => String.eqb actual t
| _, _ => false
end.

(** one column's score under an outlier test: 1 - flagged / rowcount *)
Definition column_score (mask : Series -> list bool) (df : DataFrame) (s : Series) : float :=
fsub (of_Z 1)
     (Fin (inject_Z (Z.of_nat (count_true (mask s))) / inject_Z (Z.of_nat (index_len df)))).

(** the mean of the column scores over the numeric columns, 1.0 when there
    is none *)
Definition mean_column_score (mask : Series -> list bool) (df : DataFrame) : float :=
match numeric_columns df with
| [] => of_Z 1
| cols => np_mean (map (column_score mask df) cols)
end.

(** the dictionary of column scores: one entry per numeric column of
    [cols], a later column replacing an earlier one of the same name *)
Definition scores_by_column (mask : Series -> list bool) (df : DataFrame)
  (cols : list (string * Series)) (d : gmap string float) : gmap string float :=
fold_left (fun d c => if is_int64_or_float64 c.2 then <[c.1 := column_score mask df c.2]> d
                      else d) cols d.

(** [d] is the entry made for the active listing the contract holds under
    [d]'s identifier *)
Definition reflects_listing (contract : Contract) (d : DatasetInfo) : Prop :=
exists listing,
  datasets contract (info_id d) = inr listing
  /\ listing_active listing = true
  /\ info_owner d = listing_owner listing
  /\ info_price d = listing_price listing
  /\ info_description d = listing_description listing
  /\ info_size d = listing_size listing
  /\ info_data_type d = listing_data_type listing.

(** ** Further example inputs *)

Module Cases.

(** stand-ins for the pandas calls of [generate_preview]: the reader keeps
    the first rows of the table of [Examples.libs]; [describe] refuses a
    table without columns *)
Definition preview_libs : PreviewLibs :=
{| read_csv_nrows := fun n _ => inr (df_head Examples.id_frame n);
   to_dict_records := fun _ => VList [];
   describe_to_dict := fun df =>
     match columns df with
     | [] => inl (ValueError "Cannot describe a DataFrame without columns")
     | _ => inr (VDict ∅)
     end |}.

(** a file system that holds one table under two names *)
Definition table_files : gmap string bytes := {["ids.json" := []; "ids.csv" := []]}.

(** four rows: a float64 column with one missing cell, an object column
    with one missing cell *)
Definition gaps_frame : DataFrame :=
{| index_len := 4;
   columns := [("price", Float64Col [Some 1%Q; None; Some 3%Q; Some 4%Q]);
               ("label", ObjectCol [Some "a"; None; Some "c"; Some "d"])] |}.

(** an int64 column and no row *)
Definition rowless_frame : DataFrame :=
{| index_len := 0; columns := [("value", Int64Col [])] |}.

(** ten rows at 0 and one at 100 *)
Definition spike_frame : DataFrame :=
{| index_len := 11; columns := [("x", Int64Col (replicate 10 0%Z ++ [100%Z]))] |}.

(** two columns under one name *)
Definition twin_frame : DataFrame :=
{| index_len := 1; columns := [("a", Int64Col [1%Z]); ("a", Int64Col [2%Z])] |}.

(** the column of the scenario with its rows in another order *)
Definition shuffled_frame : DataFrame :=
{| index_len := 5; columns := [("value", Int64Col [100; 3; 1; 4; 2]%Z)] |}.

(** a float64 column whose largest value, 1.7, is the upper bound
    1.4 + 1.5 * (1.4 - 1.2) in exact arithmetic *)
Definition bound_frame : DataFrame :=
{| index_len := 5;
   columns := [("x", Float64Col [Some 1.3; Some 1.4; Some 1.2; Some 1.7; Some 0.3]%Q)] |}.

(** an int64 column whose values differ by less than binary64 can tell *)
Definition large_frame : DataFrame :=
{| index_len := 5;
   columns := [("x", Int64Col [1700000000000000000; 1700000000000000000;
                               1700000000000000000; 1700000000000000000;
                               1700000000000000100]%Z)] |}.

(** metadata dated a month before [Examples.new_year_2024], at midnight
    in UTC *)
Definition utc_metadata : gmap string pyval :=
{["last_updated" := VStr "2023-12-01T00:00:00+00:00"]}.

(** the schema of [Examples.id_frame], and an empty schema *)
Definition id_schema : gmap string pyval := {["id" := VStr "int64"]}.

Definition id_schema_metadata : gmap string pyval := {["schema" := VDict id_schema]}.

Definition empty_schema_metadata : gmap string pyval := {["schema" := VDict ∅]}.

(** metadata that requires the column [id] *)
Definition id_required : gmap string pyval := {["required_columns" := VList [VStr "id"]]}.

(** the token of the ten bytes under the password [secret] and the empty
    salt, stored under a name that does not say so *)
Definition blob_token : bytes :=
Stub.encrypt (derived_key Examples.libs [] "secret") [] Examples.ten_bytes.

Definition blob_world : World :=
set_fs (<["blob" := blob_token]> (fs Examples.world)) Examples.world.

(** a market with an active listing and a withdrawn one, and an IPFS node
    that holds the record of the first *)
Definition weather_listing : Listing :=
{| listing_owner := "0xA1";
   listing_metadata_hash := "QmWeather";
   listing_price := 5;
   listing_active := true;
   listing_description := "Weather stations";
   listing_size := 10;
   listing_data_type := "csv" |}.

Definition withdrawn_listing : Listing :=
{| listing_owner := "0xB2";
   listing_metadata_hash := "QmGone";
   listing_price := 1;
   listing_active := false;
   listing_description := "Withdrawn";
   listing_size := 1;
   listing_data_type := "json" |}.

Definition market : Contract :=
{| datasetCount := inr 2%Z;
   datasets := fun i =>
     if (i =? 1)%Z then inr weather_listing
     else if (i =? 2)%Z then inr withdrawn_listing
     else inl (LibraryError "ContractLogicError" "execution reverted") |}.

Definition market_world : World :=
set_ipfs_json {["QmWeather" := VDict {["metadata" := VDict ∅]}]} Examples.world.

End Cases.

(** * Proofs *)

(** unfolding the two monads *)
Ltac unfold_result :=
  unfold mbind, mret, result_bind, result_ret, raise in *.

Ltac unfold_M :=
  unfold mbind, mret, M_bind, M_ret, lift, modify, get_world in *.

(** ** QualityChecker: the missing loader *)

Lemma load_dataset_not_an_attribute : "_load_dataset" ∉ QualityChecker_attributes.
Proof.
unfold QualityChecker_attributes. intros H.
repeat (apply elem_of_cons in H as [H|H]; [discriminate H|]).
by apply elem_of_nil in H.
Qed.

Lemma getattr_load_dataset {A} (bound : A) :
  QualityChecker_getattr "_load_dataset" bound
  = inl (AttributeError "'QualityChecker' object has no attribute '_load_dataset'").
Proof.
unfold QualityChecker_getattr.
rewrite bool_decide_eq_false_2 by apply load_dataset_not_an_attribute.
reflexivity.
Qed.

(** C6: [evaluate_quality] raises for every input: the call of
    [self._load_dataset] raises AttributeError, since the class defines no
    such method; the handler catches it and raises one ValueError that wraps
    its message. No quality report is ever returned. *)
Theorem evaluate_quality_always_raises (L : Libs) (now : datetime)
  (load_dataset : string -> result DataFrame) (file_path : string)
  (metadata : gmap string pyval) :
  ("_load_dataset" ∉ QualityChecker_attributes)
  /\ evaluate_quality L now load_dataset file_path metadata
     = inl (ValueError ("Error evaluating dataset quality: "
                        +:+ exn_str (AttributeError
                              "'QualityChecker' object has no attribute '_load_dataset'")))
  /\ forall report, evaluate_quality L now load_dataset file_path metadata <> inr report.
Proof.
assert (Heval : evaluate_quality L now load_dataset file_path metadata
     = inl (ValueError ("Error evaluating dataset quality: "
                        +:+ exn_str (AttributeError
                              "'QualityChecker' object has no attribute '_load_dataset'")))).
{ unfold evaluate_quality. rewrite getattr_load_dataset. reflexivity. }
split; [apply load_dataset_not_an_attribute|].
split; [exact Heval|].
intros report Hreport. rewrite Heval in Hreport. discriminate Hreport.
Qed.

(** ** QualityChecker: recommendations *)




Lemma recommendations_from (scores : list (string * float)) (acc : list string) :
  fold_left recommendation_step scores acc = acc ++ advisories_below_threshold scores.
Proof.
revert acc. induction scores as [|item scores IH]; intros acc; simpl.
- by rewrite app_nil_r.
- rewrite IH. unfold recommendation_step, advisories_below_threshold. simpl.
  destruct (flt item.2 (threshold_get item.1)); [|reflexivity].
  destruct (advisory item.1); [|reflexivity].
  by rewrite <- app_assoc.
Qed.







(** ** Arithmetic of scores *)

Lemma Qeq_bool_inject_Z_pos (b : Z) : (0 < b)%Z -> Qeq_bool (inject_Z b) 0 = false.
Proof.
intros Hb. destruct (Qeq_bool (inject_Z b) 0) eqn:H; [|reflexivity].
apply Qeq_bool_iff in H. unfold Qeq in H. simpl in H. lia.
Qed.

Lemma ratio_bounds (a b : Z) :
  (0 <= a <= b)%Z -> (0 < b)%Z ->
  (0 <= inject_Z a / inject_Z b /\ inject_Z a / inject_Z b <= 1)%Q.
Proof.
intros Ha Hb.
assert (Hb' : (0 < inject_Z b)%Q) by (unfold Qlt; simpl; lia).
split.
- apply Qle_shift_div_l; [exact Hb'|]. unfold Qle; simpl; lia.
- apply Qle_shift_div_r; [exact Hb'|]. unfold Qle; simpl; lia.
Qed.

Lemma one_minus_ratio_in_unit (a b : Z) :
  (0 <= a <= b)%Z -> (0 < b)%Z ->
  in_unit (fsub (of_Z 1) (Fin (inject_Z a / inject_Z b))).
Proof.
intros Ha Hb. destruct (ratio_bounds a b Ha Hb) as [H0 H1].
simpl. change (inject_Z 1) with 1%Q. split; lra.
Qed.

Lemma np_truediv_pos (a b : Z) :
  (0 < b)%Z -> np_truediv a b = Fin (inject_Z a / inject_Z b).
Proof.
intros Hb. unfold np_truediv, fdiv, of_Z. by rewrite Qeq_bool_inject_Z_pos.
Qed.

Lemma py_truediv_inr (a b : Z) (x : float) :
  py_truediv a b = inr x -> b <> 0%Z /\ x = Fin (inject_Z a / inject_Z b).
Proof.
unfold py_truediv. destruct (Z.eqb_spec b 0); intros H; [discriminate H|].
inversion H. by split.
Qed.

Lemma fsum_from_bounds (l : list float) (a : Q) :
  Forall in_unit l ->
  exists s, fold_left fadd l (Fin a) = Fin s
            /\ (a <= s /\ s <= a + inject_Z (Z.of_nat (length l)))%Q.
Proof.
intros Hl. revert a. induction Hl as [|x l Hx Hl IH]; intros a; simpl.
- exists a. split; [reflexivity|]. change (inject_Z (Z.of_nat 0)) with 0%Q. split; lra.
- destruct x as [q| | |]; try contradiction. simpl in Hx. destruct Hx as [Hq0 Hq1].
  destruct (IH (a + q)%Q) as (s & Hs & Hlo & Hhi). exists s. split; [exact Hs|].
  rewrite Nat2Z.inj_succ, <- Z.add_1_r, inject_Z_plus.
  change (inject_Z 1) with 1%Q. split; lra.
Qed.

Lemma np_mean_in_unit (l : list float) :
  Forall in_unit l -> l <> [] -> in_unit (np_mean l).
Proof.
intros Hl Hne. unfold np_mean, fsum, of_nat, of_Z.
destruct (fsum_from_bounds l (inject_Z 0) Hl) as (s & -> & Hlo & Hhi).
assert (Hn : (0 < Z.of_nat (length l))%Z) by (destruct l; [done|simpl; lia]).
unfold fdiv. rewrite Qeq_bool_inject_Z_pos by exact Hn.
assert (Hn' : (0 < inject_Z (Z.of_nat (length l)))%Q) by (unfold Qlt; simpl; lia).
change (inject_Z 0) with 0%Q in *. simpl. split.
- apply Qle_shift_div_l; [exact Hn'|]. lra.
- apply Qle_shift_div_r; [exact Hn'|]. lra.
Qed.

Lemma count_true_le (mask : list bool) : (count_true mask <= length mask)%nat.
Proof. unfold count_true. apply length_filter. Qed.

Lemma in_unit_one : in_unit (of_Z 1).
Proof. simpl. change (inject_Z 1) with 1%Q. split; lra. Qed.

Lemma in_unit_zero : in_unit (of_Z 0).
Proof. simpl. change (inject_Z 0) with 0%Q. split; lra. Qed.

Lemma in_unit_half : in_unit (Fin 0.5).
Proof. simpl. split; lra. Qed.

Lemma mean_or_one_in_unit (scores : list float) :
  Forall in_unit scores ->
  in_unit (match scores with [] => of_Z 1 | _ => np_mean scores end).
Proof.
intros H. destruct scores as [|x l]; [apply in_unit_one|].
by apply np_mean_in_unit.
Qed.

(** ** Ranges of the six metrics *)

Lemma for_each_invariant {S A : Type} (P : S -> Prop) (step : S -> A -> result S)
  (xs : list A) (s0 s : S) :
  (forall s1 a s2, P s1 -> step s1 a = inr s2 -> P s2) ->
  P s0 -> for_each step xs s0 = inr s -> P s.
Proof.
intros Hstep. revert s0. induction xs as [|x xs IH]; intros s0 H0 Hrun; simpl in Hrun.
- inversion Hrun. by subst.
- unfold_result. destruct (step s0 x) as [e|s1] eqn:Hs; [discriminate Hrun|].
  eapply IH; [|exact Hrun]. eapply Hstep; eauto.
Qed.

Lemma series_cells64_length (s : Series) : length (series_cells64 s) = series_len s.
Proof. destruct s; unfold series_len; simpl; by rewrite !length_map. Qed.

Lemma series_floats_length (s : Series) : length (series_floats s) = series_len s.
Proof. destruct s; unfold series_len; simpl; by rewrite !length_map. Qed.

Lemma df_getitem_series (df : DataFrame) (col : string) (s : Series) :
  df_getitem df col = inr (SeriesSel s) -> (col, s) ∈ columns df.
Proof.
unfold df_getitem.
destruct (filter (fun c => c.1 = col) (columns df)) as [|c [|c' rest]] eqn:Hf;
  intros H; inversion H; subst.
assert (Hc : c ∈ filter (fun c => c.1 = col) (columns df)) by (rewrite Hf; left).
apply list_elem_of_filter in Hc as [Hname Hin]. destruct c as [n s']. simpl in *. by subst.
Qed.

Lemma selected_series_len (df : DataFrame) (col attr : string) (sel : selection)
  (s : Series) :
  frame_wf df -> df_getitem df col = inr sel -> as_series sel attr = inr s ->
  series_len s = index_len df.
Proof.
intros Hwf Hsel Hs. destruct sel as [s'|cols]; [|discriminate Hs].
inversion Hs; subst. apply df_getitem_series in Hsel.
unfold frame_wf in Hwf. rewrite Forall_forall in Hwf. by apply (Hwf (col, s)).
Qed.

Lemma outlier_ratio_in_unit (df : DataFrame) (s : Series) (mask : list bool)
  (ratio : float) :
  series_len s = index_len df -> length mask = series_len s ->
  py_truediv (Z.of_nat (count_true mask)) (Z.of_nat (index_len df)) = inr ratio ->
  in_unit (fsub (of_Z 1) ratio).
Proof.
intros Hlen Hmask Hdiv. apply py_truediv_inr in Hdiv as [Hnz ->].
pose proof (count_true_le mask). apply one_minus_ratio_in_unit; lia.
Qed.

Lemma completeness_null_count (rows : nat) (cols : list (string * Series)) (n : nat) :
  Forall (fun c => series_len c.2 = rows) cols ->
  (fold_left (fun n c => (n + count_true (series_isnull c.2))%nat) cols n
   <= n + rows * length cols)%nat.
Proof.
intros Hwf. revert n. induction Hwf as [|c cols Hc Hwf IH]; intros n; simpl; [lia|].
etransitivity; [apply IH|].
pose proof (count_true_le (series_isnull c.2)). unfold series_len in Hc. lia.
Qed.

Lemma completeness_in_unit (df : DataFrame) (x : float) :
  frame_wf df -> (0 < index_len df)%nat -> columns df <> [] ->
  _check_completeness df = inr x -> in_unit x.
Proof.
intros Hwf Hrows Hcols H. unfold _check_completeness in H. inversion H; subst; clear H.
assert (Hlen : (0 < length (columns df))%nat) by (destruct (columns df); [done|simpl; lia]).
rewrite np_truediv_pos by lia.
pose proof (completeness_null_count _ _ 0%nat Hwf) as Hn. fold (df_null_count df) in Hn.
apply one_minus_ratio_in_unit; nia.
Qed.

Lemma consistency_in_unit (df : DataFrame) (x : float) :
  frame_wf df -> _check_consistency df = inr x -> in_unit x.
Proof.
intros Hwf H. unfold _check_consistency in H. unfold_result.
destruct (for_each _ _ _) as [e|scores] eqn:Hloop; [discriminate H|].
inversion H; subst; clear H. apply mean_or_one_in_unit.
eapply (for_each_invariant (Forall in_unit)); [|constructor|exact Hloop].
intros acc col acc' Hacc Hstep. unfold consistency_step in Hstep. unfold_result.
destruct (df_getitem df col) as [e|sel] eqn:Hsel; [discriminate Hstep|].
destruct (as_series sel "dtype") as [e|s] eqn:Hs; [discriminate Hstep|].
destruct (is_int64_or_float64 s); [|by inversion Hstep; subst].
destruct (py_truediv _ _) as [e|ratio] eqn:Hdiv; [discriminate Hstep|].
inversion Hstep; subst. apply Forall_app. split; [exact Hacc|].
constructor; [|constructor].
eapply outlier_ratio_in_unit; [eapply selected_series_len; eauto| |exact Hdiv].
unfold iqr_outlier_mask. by rewrite length_map, series_cells64_length.
Qed.

Lemma accuracy_in_unit (L : Libs) (df : DataFrame) (x : float) :
  frame_wf df -> _check_accuracy L df = inr x -> in_unit x.
Proof.
intros Hwf H. unfold _check_accuracy in H. unfold_result.
destruct (for_each _ _ _) as [e|scores] eqn:Hloop; [discriminate H|].
inversion H; subst; clear H. apply mean_or_one_in_unit.
eapply (for_each_invariant (Forall in_unit)); [|constructor|exact Hloop].
intros acc col acc' Hacc Hstep. unfold accuracy_step in Hstep. unfold_result.
destruct (df_getitem df col) as [e|sel] eqn:Hsel; [discriminate Hstep|].
destruct (as_series sel "dtype") as [e|s] eqn:Hs; [discriminate Hstep|].
destruct (is_int64_or_float64 s); [|by inversion Hstep; subst].
destruct (py_truediv _ _) as [e|ratio] eqn:Hdiv; [discriminate Hstep|].
inversion Hstep; subst. apply Forall_app. split; [exact Hacc|].
constructor; [|constructor].
eapply outlier_ratio_in_unit; [eapply selected_series_len; eauto| |exact Hdiv].
unfold three_sigma_mask. by rewrite length_map, series_cells64_length.
Qed.

Lemma format_validity_in_unit (df : DataFrame) (x : float) :
  frame_wf df -> (0 < index_len df)%nat -> _check_format_validity df = inr x -> in_unit x.
Proof.
intros Hwf Hrows H. unfold _check_format_validity, try_except in H. unfold_result.
destruct (for_each _ _ _) as [e|scores] eqn:Hloop.
{ inversion H; subst. apply in_unit_zero. }
inversion H; subst; clear H. apply mean_or_one_in_unit.
eapply (for_each_invariant (Forall in_unit)); [|constructor|exact Hloop].
intros acc col acc' Hacc Hstep. unfold format_step in Hstep. unfold_result.
destruct (df_getitem df col) as [e|sel] eqn:Hsel; [discriminate Hstep|].
destruct sel as [s|cols]; [|discriminate Hstep].
inversion Hstep; subst. apply Forall_app. split; [exact Hacc|].
constructor; [|constructor].
rewrite np_truediv_pos by lia.
assert (Hlen : series_len s = index_len df).
{ eapply (selected_series_len df col "dtype"); eauto. }
pose proof (count_true_le (series_isnull s)). unfold series_len in Hlen.
apply one_minus_ratio_in_unit; lia.
Qed.

Lemma timeliness_in_unit (L : Libs) (now : datetime) (metadata : gmap string pyval)
  (x : float) :
  not_dated_ahead L now metadata -> _check_timeliness L now metadata = inr x -> in_unit x.
Proof.
intros Hpast H. unfold _check_timeliness in H.
destruct (metadata !! "last_updated") as [v|] eqn:Hmd;
  [|inversion H; subst; apply in_unit_half].
unfold_result.
destruct v as [| | | |s| |]; try discriminate H.
destruct (fromisoformat L s) as [e|[t|t offset]] eqn:Ht; [discriminate H| |discriminate H].
specialize (Hpast s t Hmd Ht). cbn [days_since] in H.
change (dict_getitem quality_thresholds "timeliness") with (@inr exn float (of_Z 30)) in H.
unfold py_fdiv, of_Z in H. rewrite Qeq_bool_inject_Z_pos in H by lia.
inversion H; subst; clear H.
assert (Hdays : (0 <= timedelta_days now t)%Z).
{ unfold timedelta_days, microseconds_per_day. apply Z.div_pos; lia. }
set (d := timedelta_days now t) in *.
assert (Hq : (0 <= inject_Z d / inject_Z 30)%Q).
{ apply Qle_shift_div_l; [reflexivity|]. unfold Qle; simpl; lia. }
unfold py_max0. destruct (flt _ _) eqn:Hlt; [|apply in_unit_zero].
simpl in *. unfold Qltb in Hlt. apply negb_true_iff in Hlt.
assert (Hpos : ~ (inject_Z 1 + - (inject_Z d / inject_Z 30) <= inject_Z 0)%Q).
{ intros Hle. apply Qle_bool_iff in Hle. congruence. }
change (inject_Z 1) with 1%Q in *. change (inject_Z 0) with 0%Q in *. split; lra.
Qed.

Lemma chars_of_length (s : string) : length (chars_of s) = String.length s.
Proof.
unfold chars_of. rewrite length_map.
induction s as [|c s IH]; simpl; [reflexivity|by rewrite IH].
Qed.

Lemma py_iter_len (v : pyval) (xs : list pyval) (n : nat) :
  py_iter v = inr xs -> py_len v = inr n -> length xs = n.
Proof.
destruct v; simpl; intros Hi Hl; inversion Hi; inversion Hl; subst.
- apply chars_of_length.
- reflexivity.
- rewrite length_map. apply length_map_to_list.
Qed.

Lemma schema_compliance_in_unit (df : DataFrame) (metadata : gmap string pyval) (x : float) :
  _check_schema_compliance df metadata = inr x -> in_unit x.
Proof.
unfold _check_schema_compliance.
destruct (metadata !! "schema") as [expected|];
  [|intros H; inversion H; subst; apply in_unit_half].
unfold_result.
destruct (py_iter expected) as [e|cols] eqn:Hiter; [discriminate|].
destruct (for_each _ cols 0%nat) as [e|matching] eqn:Hloop; [discriminate|].
destruct (py_len expected) as [e|size] eqn:Hlen; [discriminate|].
intros H. apply py_truediv_inr in H as [Hnz ->].
pose proof (py_iter_len _ _ _ Hiter Hlen) as Hsize.
assert (Hle : forall xs n m,
          for_each (fun n col => b ← schema_column_matches df expected col;
                                 mret (if b : bool then S n else n)) xs n = inr m ->
          (m <= n + length xs)%nat).
{ induction xs as [|c xs IH]; simpl; intros n m Hrun.
  - inversion Hrun. lia.
  - unfold_result. destruct (schema_column_matches df expected c) as [e|b]; [discriminate|].
    apply IH in Hrun. destruct b; lia. }
apply Hle in Hloop. simpl. apply ratio_bounds; lia.
Qed.

(** ** QualityChecker: the weighted score *)

Lemma weights_sum_to_one : feq (fsum (map weight_of metric_names)) (of_Z 1).
Proof. reflexivity. Qed.

Lemma weights_domain (metric : string) :
  is_Some (weights !! metric) <-> metric ∈ metric_names.
Proof.
unfold weights, metric_names. rewrite <- elem_of_dom.
rewrite dom_list_to_map_L. simpl. set_solver.
Qed.

Lemma weighted_sum_six (c k a t f s : float) :
  weighted_sum [("completeness", c); ("consistency", k); ("accuracy", a);
                ("timeliness", t); ("format_validity", f); ("schema_compliance", s)]
  = inr (dot_product [("completeness", c); ("consistency", k); ("accuracy", a);
                      ("timeliness", t); ("format_validity", f);
                      ("schema_compliance", s)]).
Proof. reflexivity. Qed.

Lemma dot_product_six (c k a t f s : float) :
  dot_product [("completeness", c); ("consistency", k); ("accuracy", a);
               ("timeliness", t); ("format_validity", f); ("schema_compliance", s)]
  = fadd (fadd (fadd (fadd (fadd (fadd (of_Z 0) (fmul c (Fin 0.3))) (fmul k (Fin 0.2)))
                           (fmul a (Fin 0.2))) (fmul t (Fin 0.1))) (fmul f (Fin 0.1)))
         (fmul s (Fin 0.1)).
Proof. reflexivity. Qed.

Lemma dot_product_in_unit (c k a t f s : float) :
  in_unit c -> in_unit k -> in_unit a -> in_unit t -> in_unit f -> in_unit s ->
  in_unit (dot_product [("completeness", c); ("consistency", k); ("accuracy", a);
                        ("timeliness", t); ("format_validity", f);
                        ("schema_compliance", s)]).
Proof.
rewrite dot_product_six.
destruct c as [c| | |], k as [k| | |], a as [a| | |], t as [t| | |], f as [f| | |],
  s as [s| | |]; simpl; try tauto.
intros [? ?] [? ?] [? ?] [? ?] [? ?] [? ?].
change (inject_Z 0) with 0%Q. split; lra.
Qed.


(** X30: whenever the report is computed from a loaded table (lines 20-48
    of [evaluate_quality]), the detailed scores are the six metrics in
    declaration order, each of them has a weight, overall_score is their
    dot product with the weights, and every score, overall_score included,
    lies in [0,1] provided the table is well formed with at least one cell
    and the declared last_updated timestamp, if any, is not later than the
    time of evaluation. *)
Theorem quality_report_weighted_score (L : Libs) (now : datetime) (df : DataFrame)
  (metadata : gmap string pyval) (report : QualityReport) :
  quality_report L now df metadata = inr report ->
  (forall metric, is_Some (weights !! metric) <-> metric ∈ metric_names)
  /\ map fst (detailed_scores report) = metric_names
  /\ overall_score report = dot_product (detailed_scores report)
  /\ (frame_wf df -> (0 < index_len df)%nat -> columns df <> [] ->
      not_dated_ahead L now metadata ->
      Forall (fun item => in_unit item.2) (detailed_scores report)
      /\ in_unit (overall_score report)).
Proof.
intros H. unfold quality_report in H. unfold_result.
destruct (_check_completeness df) as [e|c] eqn:Hc; [discriminate H|].
destruct (_check_consistency df) as [e|k] eqn:Hk; [discriminate H|].
destruct (_check_accuracy L df) as [e|a] eqn:Ha; [discriminate H|].
destruct (_check_timeliness L now metadata) as [e|t] eqn:Ht; [discriminate H|].
destruct (_check_format_validity df) as [e|f] eqn:Hf; [discriminate H|].
destruct (_check_schema_compliance df metadata) as [e|s] eqn:Hs; [discriminate H|].
rewrite weighted_sum_six in H. inversion H; subst; clear H. simpl detailed_scores.
simpl overall_score.
split; [apply weights_domain|].
split; [reflexivity|]. split; [reflexivity|].
intros Hwf Hrows Hcols Hpast.
pose proof (completeness_in_unit df c Hwf Hrows Hcols Hc).
pose proof (consistency_in_unit df k Hwf Hk).
pose proof (accuracy_in_unit L df a Hwf Ha).
pose proof (timeliness_in_unit L now metadata t Hpast Ht).
pose proof (format_validity_in_unit df f Hwf Hrows Hf).
pose proof (schema_compliance_in_unit df metadata s Hs).
split; [repeat constructor; assumption|by apply dot_product_in_unit].
Qed.

Lemma quality_report_weighted_score_witness :
  exists report,
    quality_report Examples.libs Examples.new_year_2024 Examples.outlier_frame
      Examples.past_metadata = inr report
    /\ overall_score report = dot_product (detailed_scores report)
    /\ in_unit (overall_score report).
Proof.
eexists. split; [vm_compute; reflexivity|].
match goal with |- overall_score ?r = _ /\ _ =>
  assert (Hrun : quality_report Examples.libs Examples.new_year_2024 Examples.outlier_frame
                   Examples.past_metadata = inr r) by (vm_compute; reflexivity);
  pose proof (quality_report_weighted_score _ _ _ _ r Hrun) as (_ & _ & Hdot & Hrange)
end.
split; [exact Hdot|]. apply Hrange.
- repeat constructor.
- simpl. lia.
- discriminate.
- intros s t Hs Ht. unfold Examples.past_metadata in Hs.
  rewrite lookup_singleton_eq in Hs. inversion Hs; subst.
  vm_compute in Ht. inversion Ht; subst. vm_compute. discriminate.
Defined.

(** the condition on the timestamp is needed: for a well-formed one-cell
    table and metadata whose last_updated lies in the future (the end of
    year 9999), the report computed has a timeliness and an overall_score
    above 1 *)
Lemma overall_score_exceeds_one :
  exists report,
    quality_report Examples.libs Examples.new_year_2024 Examples.names_frame
      Examples.future_metadata = inr report
    /\ frame_wf Examples.names_frame
    /\ (exists timeliness, ("timeliness", timeliness) ∈ detailed_scores report
                           /\ flt (of_Z 1) timeliness = true)
    /\ flt (of_Z 1) (overall_score report) = true
    /\ ~ in_unit (overall_score report).
Proof.
eexists. split; [vm_compute; reflexivity|].
split; [repeat constructor|]. split.
{ eexists. split; [do 3 right; left|]; reflexivity. }
split; [reflexivity|].
simpl. intros [_ H]. revert H. apply Qlt_not_le. reflexivity.
Qed.

(** a table without a cell has completeness 0/0: the report is returned
    with NaN as its completeness and as its overall_score *)
Lemma overall_score_nan_without_cells :
  exists report,
    quality_report Examples.libs Examples.new_year_2024 Examples.header_only_frame ∅
    = inr report
    /\ frame_wf Examples.header_only_frame
    /\ overall_score report = NaN.
Proof.
eexists. split; [vm_compute; reflexivity|]. split; [repeat constructor|reflexivity].
Qed.

(** ** QualityChecker: consistency *)

Lemma filter_none {A} (P : A -> Prop) `{!forall x, Decision (P x)} (l : list A) :
  (forall x, x ∈ l -> ~ P x) -> filter P l = [].
Proof.
induction l as [|x l IH]; intros Hall; [reflexivity|].
rewrite filter_cons_False by (apply Hall; left).
apply IH. intros y Hy. apply Hall. by right.
Qed.

(** with distinct column names, [df[col]] is the column of that name *)
Lemma filter_by_unique_name (cols : list (string * Series)) (name : string) (s : Series) :
  NoDup (map fst cols) -> (name, s) ∈ cols ->
  filter (fun c => c.1 = name) cols = [(name, s)].
Proof.
induction cols as [|[n' s'] cols IH]; simpl; intros Hnd Hin.
- by apply elem_of_nil in Hin.
- apply NoDup_cons in Hnd as [Hfresh Hnd].
  apply elem_of_cons in Hin as [Hin|Hin].
  + inversion Hin; subst. rewrite filter_cons_True by reflexivity. f_equal.
    apply filter_none. intros [n s0] Hin' Heq. simpl in Heq. subst.
    apply Hfresh. apply list_elem_of_fmap. by exists (n', s0).
  + rewrite filter_cons_False; [by apply IH|].
    simpl. intros ->. apply Hfresh. apply list_elem_of_fmap. by exists (name, s).
Qed.

Lemma df_getitem_unique (df : DataFrame) (name : string) (s : Series) :
  NoDup (df_columns df) -> (name, s) ∈ columns df ->
  df_getitem df name = inr (SeriesSel s).
Proof.
intros Hnd Hin. unfold df_getitem.
by rewrite (filter_by_unique_name _ _ _ Hnd Hin).
Qed.

Lemma consistency_step_unique (df : DataFrame) (acc : list float) (name : string)
  (s : Series) :
  NoDup (df_columns df) -> (name, s) ∈ columns df ->
  (is_int64_or_float64 s = true -> (0 < index_len df)%nat) ->
  consistency_step df acc name
  = inr (if is_int64_or_float64 s then acc ++ [column_consistency df s] else acc).
Proof.
intros Hnd Hin Hrows. unfold consistency_step.
rewrite (df_getitem_unique _ _ _ Hnd Hin). unfold_result. simpl.
destruct (is_int64_or_float64 s); [|reflexivity].
unfold py_truediv.
destruct (Z.eqb_spec (Z.of_nat (index_len df)) 0) as [Hz|Hz]; [|reflexivity].
specialize (Hrows eq_refl). lia.
Qed.

Lemma consistency_loop (df : DataFrame) (cols : list (string * Series)) (acc : list float) :
  NoDup (df_columns df) -> cols ⊆ columns df ->
  (forall s, s ∈ map snd cols -> is_int64_or_float64 s = true -> (0 < index_len df)%nat) ->
  for_each (consistency_step df) (map fst cols) acc
  = inr (acc ++ map (column_consistency df)
                    (filter (fun s => is_int64_or_float64 s = true) (map snd cols))).
Proof.
intros Hnd. revert acc. induction cols as [|[name s] cols IH]; intros acc Hsub Hrows; simpl.
- by rewrite app_nil_r.
- rewrite (consistency_step_unique df acc name s Hnd).
  + unfold_result. rewrite IH.
    * destruct (is_int64_or_float64 s) eqn:Hnum.
      -- rewrite filter_cons_True by exact Hnum. simpl. by rewrite <- app_assoc.
      -- rewrite filter_cons_False by (rewrite Hnum; discriminate). reflexivity.
    * intros c Hc. apply Hsub. by right.
    * intros s' Hs'. apply Hrows. by right.
  + apply Hsub. by left.
  + apply Hrows. by left.
Qed.

Lemma consistency_matches_spec (df : DataFrame) :
  NoDup (df_columns df) -> (numeric_columns df = [] \/ (0 < index_len df)%nat) ->
  _check_consistency df = inr (consistency_spec df).
Proof.
intros Hnd Hrows. unfold _check_consistency, df_columns.
rewrite (consistency_loop df (columns df) [] Hnd).
- unfold_result. simpl. unfold consistency_spec, numeric_columns.
  by destruct (filter _ _).
- done.
- intros s Hs Hnum. destruct Hrows as [Hnone|Hpos]; [|exact Hpos].
  exfalso. unfold numeric_columns in Hnone.
  eapply (filter_nil_not_elem_of _ _ s Hnone); eauto.
Qed.

Ltac names_distinct := apply (bool_decide_unpack _); vm_compute; exact I.

Lemma py_truediv_zero (a : Z) : py_truediv a 0 = inl (ZeroDivisionError "division by zero").
Proof. reflexivity. Qed.

(** on a table without rows, a loop of one of the two outlier checks stops at
    the first numeric column *)
Lemma outlier_loop_without_rows (df : DataFrame) (mask : Series -> list bool)
  (step : list float -> string -> result (list float)) (cols : list (string * Series))
  (acc : list float) :
  (forall acc col,
     step acc col
     = (sel ← df_getitem df col;
        s ← as_series sel "dtype";
        if is_int64_or_float64 s then
          ratio ← py_truediv (Z.of_nat (count_true (mask s))) (Z.of_nat (index_len df));
          mret (acc ++ [fsub (of_Z 1) ratio])
        else mret acc)) ->
  index_len df = 0%nat -> NoDup (df_columns df) -> cols ⊆ columns df ->
  filter (fun s => is_int64_or_float64 s = true) (map snd cols) <> [] ->
  for_each step (map fst cols) acc = inl (ZeroDivisionError "division by zero").
Proof.
intros Hstep Hrows Hnd. revert acc.
induction cols as [|[name s] cols IH]; intros acc Hsub Hnum; [done|].
cbn [map fst for_each]. rewrite Hstep.
rewrite (df_getitem_unique df name s Hnd) by (apply Hsub; left).
unfold as_series. unfold_result. cbv beta iota.
destruct (is_int64_or_float64 s) eqn:Hs.
- by rewrite Hrows.
- apply IH.
  + intros c Hc. apply Hsub. by right.
  + cbn [map snd] in Hnum. by rewrite filter_cons_False in Hnum by (rewrite Hs; discriminate).
Qed.

Lemma count_true_cons (b : bool) (mask : list bool) :
  count_true (b :: mask) = ((if b then 1 else 0) + count_true mask)%nat.
Proof. unfold count_true. destruct b; [by rewrite filter_cons_True|by rewrite filter_cons_False]. Qed.

(** *** Sorting and quantiles *)

Lemma insert_sorted_perm {A} (leb : A -> A -> bool) (x : A) (l : list A) :
  insert_sorted leb x l ≡ₚ x :: l.
Proof.
induction l as [|y l IH]; simpl; [done|].
destruct (leb x y); [done|]. rewrite IH. apply Permutation_swap.
Qed.

Lemma sort_by_perm {A} (leb : A -> A -> bool) (l : list A) : sort_by leb l ≡ₚ l.
Proof.
induction l as [|x l IH]; [done|].
change (sort_by leb (x :: l)) with (insert_sorted leb x (sort_by leb l)).
by rewrite insert_sorted_perm, IH.
Qed.

Lemma insert_sorted_ascending {A} (leb : A -> A -> bool) (x : A) (l : list A) :
  (forall y, y ∈ l -> leb x y = true \/ leb y x = true) ->
  ascending leb l -> ascending leb (insert_sorted leb x l).
Proof.
unfold ascending. intros Htotal Hl. induction Hl as [|y l Hl IH Hhd]; simpl.
- repeat constructor.
- destruct (leb x y) eqn:Hxy.
  + constructor; [by constructor|]. by constructor.
  + assert (Hyx : leb y x = true).
    { destruct (Htotal y) as [H|H]; [left|congruence|exact H]. }
    constructor.
    * apply IH. intros z Hz. apply Htotal. by right.
    * destruct Hhd as [|z l' Hyz]; simpl; [by constructor|].
      destruct (leb x z); by constructor.
Qed.

(** sorting by insertion puts in ascending order any values that the order
    compares *)
Lemma sort_by_ascending {A} (leb : A -> A -> bool) (l : list A) :
  (forall x y, x ∈ l -> y ∈ l -> leb x y = true \/ leb y x = true) ->
  ascending leb (sort_by leb l).
Proof.
induction l as [|x l IH]; intros Htotal; [constructor|].
change (sort_by leb (x :: l)) with (insert_sorted leb x (sort_by leb l)).
apply insert_sorted_ascending.
- intros y Hy. rewrite sort_by_perm in Hy. apply Htotal; [left|by right].
- apply IH. intros y z Hy Hz. apply Htotal; by right.
Qed.

Lemma quantile_with_is_quantile {A} (leb : A -> A -> bool)
  (lerp : A -> A -> Q -> B64.binary64) (values : list A) (q : Q) :
  (forall x y, x ∈ values -> y ∈ values -> leb x y = true \/ leb y x = true) ->
  (0 <= q /\ q <= 1)%Q ->
  is_quantile leb lerp values q (quantile_with leb lerp values q).
Proof.
intros Htotal [Hq0 Hq1]. unfold quantile_with.
pose proof (sort_by_perm leb values) as Hperm.
pose proof (sort_by_ascending leb values Htotal) as Hasc.
destruct values as [|x values]; [reflexivity|].
destruct (sort_by leb (x :: values)) as [|v0 sorted] eqn:Hsort.
{ apply Permutation_nil_l in Hperm. discriminate Hperm. }
cbn [is_quantile]. cbv zeta.
assert (Hlen : length (v0 :: sorted) = length (x :: values)) by (by rewrite Hperm).
rewrite Hlen.
set (n1 := (Z.of_nat (length (x :: values)) - 1)%Z).
assert (Hn1 : (0 <= n1)%Z) by (unfold n1; simpl; lia).
set (rank := (q * inject_Z n1)%Q).
assert (Hr0 : (0 <= rank)%Q).
{ unfold rank. apply Qmult_le_0_compat; [exact Hq0|]. unfold Qle; simpl; lia. }
assert (Hr1 : (rank <= inject_Z n1)%Q).
{ unfold rank. rewrite <- (Qmult_1_l (inject_Z n1)) at 2.
  apply Qmult_le_compat_r; [exact Hq1|]. unfold Qle; simpl; lia. }
assert (Hf0 : (0 <= Qfloor rank)%Z).
{ change 0%Z with (Qfloor 0). by apply Qfloor_resp_le. }
assert (Hf1 : (Qfloor rank <= n1)%Z).
{ rewrite <- (Qfloor_Z n1). by apply Qfloor_resp_le. }
assert (Hlt : (Z.to_nat (Qfloor rank) < length (v0 :: sorted))%nat).
{ rewrite Hlen. unfold n1 in Hf1. lia. }
destruct (lookup_lt_is_Some_2 _ _ Hlt) as [below Hbelow].
exists (v0 :: sorted), below, (default below ((v0 :: sorted) !! S (Z.to_nat (Qfloor rank)))).
split; [exact Hperm|]. split; [exact Hasc|]. split; [exact Hbelow|]. split; [reflexivity|].
rewrite !nth_lookup, Hbelow. reflexivity.
Qed.

(** binary64 numbers other than NaN are comparable *)
Lemma B64_leb_total (x y : B64.binary64) :
  B64.is_nan x = false -> B64.is_nan y = false ->
  B64.leb x y = true \/ B64.leb y x = true.
Proof.
unfold B64.leb, SFleb.
destruct x as [sx|sx| |sx mx ex], y as [sy|sy| |sy my ey]; simpl; try discriminate;
  intros _ _; try (destruct sx; simpl; tauto); try (destruct sy; simpl; tauto);
  try (destruct sx, sy; simpl; tauto).
destruct sx, sy; simpl; try tauto.
- rewrite (Z.compare_antisym ey ex). destruct (ey ?= ex)%Z eqn:He; simpl; try tauto.
  change (Pos.compare_cont Eq mx my) with (mx ?= my)%positive.
  change (Pos.compare_cont Eq my mx) with (my ?= mx)%positive.
  rewrite (Pos.compare_antisym mx my). destruct (mx ?= my)%positive; simpl; tauto.
- rewrite (Z.compare_antisym ey ex). destruct (ey ?= ex)%Z eqn:He; simpl; try tauto.
  change (Pos.compare_cont Eq mx my) with (mx ?= my)%positive.
  change (Pos.compare_cont Eq my mx) with (my ?= mx)%positive.
  rewrite (Pos.compare_antisym mx my). destruct (mx ?= my)%positive; simpl; tauto.
Qed.

Lemma series_numbers64_not_nan (s : Series) (x : B64.binary64) :
  x ∈ series_numbers64 s -> B64.is_nan x = false.
Proof.
unfold series_numbers64. rewrite list_elem_of_In, filter_In. intros [_ H].
by apply negb_true_iff in H.
Qed.

(** what the code takes for a quartile is the quartile *)
Lemma series_quantile_is_quantile (s : Series) (q : Q) :
  (0 <= q /\ q <= 1)%Q -> is_series_quantile s q (series_quantile s q).
Proof.
intros Hq. destruct s as [vs|vs|vs|dt na]; cbn [is_series_quantile series_quantile];
  try reflexivity.
- apply quantile_with_is_quantile; [|exact Hq]. intros x y _ _. lia.
- apply quantile_with_is_quantile; [|exact Hq]. intros x y Hx Hy.
  apply B64_leb_total; by eapply series_numbers64_not_nan.
Qed.

Lemma count_true_map {A} (f : A -> bool) (l : list A) :
  count_true (map f l) = length (List.filter f l).
Proof.
induction l as [|x l IH]; [reflexivity|]. cbn [map List.filter].
rewrite count_true_cons, IH. by destruct (f x).
Qed.

(** the score the loop gives a column is its outlier-free fraction *)
Lemma column_consistency_fraction (df : DataFrame) (s : Series) :
  outlier_free_fraction df s (column_consistency df s).
Proof.
exists (series_quantile s 0.25), (series_quantile s 0.75).
split; [apply series_quantile_is_quantile; split; discriminate|].
split; [apply series_quantile_is_quantile; split; discriminate|].
unfold column_consistency, iqr_outlier_mask. by rewrite count_true_map.
Qed.

(** the tests are made in binary64. The value 1.7 is the upper bound
    1.4 + 1.5 * (1.4 - 1.2) exactly, but the bound as computed lies just
    below it: 1.7 is counted with 0.3, and the score is 3/5. Four int64
    values and a fifth that is 100 above them are one and the same binary64
    number: none is above the bound, and the score is 1. *)
Lemma outlier_tests_are_rounded :
  iqr_outlier_mask (Float64Col [Some 1.3; Some 1.4; Some 1.2; Some 1.7; Some 0.3]%Q)
  = [false; false; false; true; true]
  /\ _check_consistency Cases.bound_frame = inr (Fin (3 # 5))
  /\ B64.of_Z 1700000000000000100 = B64.of_Z 1700000000000000000
  /\ (exists score, _check_consistency Cases.large_frame = inr score /\ feq score (of_Z 1)).
Proof.
repeat split; try (vm_compute; reflexivity).
eexists. split; [vm_compute; reflexivity|reflexivity].
Qed.

(** quartiles between two ranks are interpolated, and missing cells do not
    count: of [1, NaN, 3, 4] the quartiles are 2 and 3.5, of [4, 1, 3, 2]
    they are 1.75 and 3.25; the difference of two int64 values wraps around *)
Lemma quartiles_are_interpolated :
  series_quantile (Float64Col [Some 1%Q; None; Some 3%Q; Some 4%Q]) 0.25 = B64.of_Z 2
  /\ series_quantile (Float64Col [Some 1%Q; None; Some 3%Q; Some 4%Q]) 0.75 = B64.of_Q 3.5
  /\ series_quantile (Float64Col [Some 4%Q; Some 1%Q; Some 3%Q; Some 2%Q]) 0.25 = B64.of_Q 1.75
  /\ series_quantile (Float64Col [Some 4%Q; Some 1%Q; Some 3%Q; Some 2%Q]) 0.75 = B64.of_Q 3.25
  /\ series_quantile (Int64Col [4; 1; 3; 2]%Z) 0.25 = B64.of_Q 1.75
  /\ series_quantile (Int64Col [4; 1; 3; 2]%Z) 0.75 = B64.of_Q 3.25
  /\ series_quantile (Int64Col [9223372036854775807; -9223372036854775808]%Z) 0.25
     = B64.of_Z (-9223372036854775808).
Proof. repeat split; vm_compute; reflexivity. Qed.

(** C8, as amended: for the single numeric column [1, 2, 3, 4, 100] the
    quartiles are 2 and 4, the interquartile range is 2, the bounds are -1
    and 7, the only flagged value is 100 and the consistency score is 0.8;
    in general, on a table with distinct column names that has at least one
    row when it has a numeric column, consistency is the unweighted mean
    over the numeric columns of 1 - outliers/rowcount, the outliers of a
    column being the rows outside [Q1 - 1.5 IQR, Q3 + 1.5 IQR]; it is 1.0
    when there is no numeric column; on a table without rows that has a
    numeric column the check raises ZeroDivisionError. *)
Theorem consistency_is_mean_outlier_free_fraction :
  (let Q1 := series_quantile Examples.outlier_column 0.25 in
   let Q3 := series_quantile Examples.outlier_column 0.75 in
   let IQR := B64.sub Q3 Q1 in
   Q1 = B64.of_Z 2 /\ Q3 = B64.of_Z 4 /\ IQR = B64.of_Z 2
   /\ iqr_bounds Examples.outlier_column = (B64.of_Z (-1), B64.of_Z 7)
   /\ flagged_cells Examples.outlier_column (iqr_outlier_mask Examples.outlier_column)
      = [of_Z 100]
   /\ count_true (iqr_outlier_mask Examples.outlier_column) = 1%nat
   /\ exists score, _check_consistency Examples.outlier_frame = inr score
                    /\ feq score (Fin 0.8))
  /\ (forall df : DataFrame,
        NoDup (df_columns df) ->
        numeric_columns df = [] \/ (0 < index_len df)%nat ->
        exists scores,
          Forall2 (outlier_free_fraction df) (numeric_columns df) scores
          /\ _check_consistency df
             = inr (match scores with [] => of_Z 1 | _ => np_mean scores end))
  /\ (forall df : DataFrame,
        NoDup (df_columns df) -> numeric_columns df = [] ->
        _check_consistency df = inr (of_Z 1))
  /\ (forall df : DataFrame,
        NoDup (df_columns df) -> index_len df = 0%nat -> numeric_columns df <> [] ->
        _check_consistency df = inl (ZeroDivisionError "division by zero")).
Proof.
split; [|split; [|split]].
- cbv zeta. repeat split; try (vm_compute; reflexivity).
  eexists. split; [vm_compute; reflexivity|reflexivity].
- intros df Hnd Hrows. exists (map (column_consistency df) (numeric_columns df)).
  split.
  + apply Forall2_fmap_r, Forall_Forall2_diag, Forall_forall. intros s _.
    apply column_consistency_fraction.
  + rewrite (consistency_matches_spec df Hnd Hrows). unfold consistency_spec.
    by destruct (numeric_columns df).
- intros df Hnd Hnone. rewrite (consistency_matches_spec df Hnd) by (by left).
  unfold consistency_spec. by rewrite Hnone.
- intros df Hnd Hrows Hnum. unfold _check_consistency, df_columns.
  by rewrite (outlier_loop_without_rows df iqr_outlier_mask (consistency_step df)
                (columns df) []).
Qed.

Lemma consistency_is_mean_outlier_free_fraction_witness :
  exists scores,
    Forall2 (outlier_free_fraction Cases.shuffled_frame)
            (numeric_columns Cases.shuffled_frame) scores
    /\ _check_consistency Cases.shuffled_frame = inr (np_mean scores)
    /\ feq (np_mean scores) (Fin 0.8).
Proof.
destruct (proj1 (proj2 consistency_is_mean_outlier_free_fraction) Cases.shuffled_frame)
  as (scores & Hscores & Hrun).
- names_distinct.
- right. simpl. lia.
- exists scores. assert (Hvalue : _check_consistency Cases.shuffled_frame = inr (Fin (4 # 5)))
    by (vm_compute; reflexivity).
  inversion Hscores as [|s score cols rest Hscore Hrest]; subst.
  inversion Hrest; subst. split; [exact Hscores|]. split; [exact Hrun|].
  rewrite Hvalue in Hrun. injection Hrun as <-. reflexivity.
Defined.

(** C8 as stated fails: a table can hold a numeric column and no row (a
    Parquet file with a schema and no record); the outlier count is then
    divided by zero and there is no consistency score, neither a mean nor
    1.0. Nor is there one when two columns bear the same name: [df[col]] is
    then a table, which has no [dtype]. *)
Lemma consistency_raises_without_rows :
  NoDup (df_columns Cases.rowless_frame)
  /\ numeric_columns Cases.rowless_frame = [Int64Col []]
  /\ _check_consistency Cases.rowless_frame = inl (ZeroDivisionError "division by zero")
  /\ (~ exists score, _check_consistency Cases.rowless_frame = inr score)
  /\ _check_consistency Cases.twin_frame
     = inl (AttributeError "'DataFrame' object has no attribute 'dtype'").
Proof.
split; [apply (bool_decide_unpack _); vm_compute; exact I|].
split; [reflexivity|]. split; [reflexivity|].
split; [intros [score H]; discriminate H|reflexivity].
Qed.

(** ** Byte strings: base64 and hexadecimal *)

Lemma byte_to_N_inj (x y : Byte.byte) : Byte.to_N x = Byte.to_N y -> x = y.
Proof.
intros H. pose proof (Byte.of_to_N x) as Hx. rewrite H, Byte.of_to_N in Hx. congruence.
Qed.

Lemma byte_of_N_to_N (n : N) : (n < 256)%N -> Byte.to_N (byte_of_N n) = n.
Proof.
intros Hn. unfold byte_of_N. destruct (Byte.of_N n) as [b|] eqn:Hb.
- by apply Byte.to_of_N.
- apply Byte.of_N_None_iff in Hb. lia.
Qed.

Lemma b64_code_cases (n : N) :
  (n < 64)%N ->
  (n < 26 /\ b64_code n = 65 + n)%N \/ (26 <= n < 52 /\ b64_code n = 71 + n)%N
  \/ (52 <= n < 62 /\ b64_code n = n - 4)%N \/ (n = 62 /\ b64_code n = 45)%N
  \/ (n = 63 /\ b64_code n = 95)%N.
Proof.
intros Hn. unfold b64_code.
destruct (N.ltb_spec n 26); [lia|]. destruct (N.ltb_spec n 52); [lia|].
destruct (N.ltb_spec n 62); [lia|]. destruct (N.eqb_spec n 62); lia.
Qed.

Lemma b64_char_code (n : N) : (n < 64)%N -> Byte.to_N (b64_urlsafe_char n) = b64_code n.
Proof.
intros Hn. unfold b64_urlsafe_char.
apply byte_of_N_to_N. destruct (b64_code_cases n Hn) as [H|[H|[H|[H|H]]]]; lia.
Qed.

Lemma b64_char_inj (n m : N) :
  (n < 64)%N -> (m < 64)%N -> b64_urlsafe_char n = b64_urlsafe_char m -> n = m.
Proof.
intros Hn Hm H. apply (f_equal Byte.to_N) in H. rewrite !b64_char_code in H by assumption.
destruct (b64_code_cases n Hn) as [?|[?|[?|[?|?]]]];
  destruct (b64_code_cases m Hm) as [?|[?|[?|[?|?]]]]; lia.
Qed.

Lemma b64_char_not_pad (n : N) : (n < 64)%N -> b64_urlsafe_char n <> b64_pad.
Proof.
intros Hn H. apply (f_equal Byte.to_N) in H. rewrite b64_char_code in H by assumption.
unfold b64_pad in H. rewrite byte_of_N_to_N in H by lia.
destruct (b64_code_cases n Hn) as [?|[?|[?|[?|?]]]]; lia.
Qed.

Lemma list_ind3 {A} (P : list A -> Prop) :
  P [] -> (forall x, P [x]) -> (forall x y, P [x; y]) ->
  (forall x y z l, P l -> P (x :: y :: z :: l)) -> forall l, P l.
Proof.
intros H0 H1 H2 H3 l.
assert (H : P l /\ (forall x, P (x :: l)) /\ (forall x y, P (x :: y :: l))).
{ induction l as [|a l (IH0 & IH1 & IH2)]; [by auto|]. repeat split; auto. }
apply H.
Qed.

Ltac euclid := Z.to_euclidean_division_equations; lia.

Lemma sextet_bounds (n : N) :
  (n < 16777216)%N ->
  (n / 262144 < 64 /\ (n / 4096) mod 64 < 64 /\ (n / 64) mod 64 < 64 /\ n mod 64 < 64)%N.
Proof. intros Hn. zify. euclid. Qed.

Lemma sextets_inj (n m : N) :
  (n < 16777216)%N -> (m < 16777216)%N ->
  (n / 262144 = m / 262144)%N -> ((n / 4096) mod 64 = (m / 4096) mod 64)%N ->
  ((n / 64) mod 64 = (m / 64) mod 64)%N -> (n mod 64 = m mod 64)%N -> n = m.
Proof. intros. zify. euclid. Qed.

Ltac byte_bounds :=
  repeat match goal with
  | |- context [Byte.to_N ?x] =>
      lazymatch goal with
      | _ : (Byte.to_N x <= 255)%N |- _ => fail
      | _ => pose proof (Byte.to_N_bounded x)
      end
  | H : context [Byte.to_N ?x] |- _ =>
      lazymatch goal with
      | _ : (Byte.to_N x <= 255)%N |- _ => fail
      | _ => pose proof (Byte.to_N_bounded x)
      end
  end.

Ltac b64_equations :=
  repeat match goal with
  | H : _ :: _ = _ :: _ |- _ => injection H as ? H
  | H : b64_pad = b64_urlsafe_char _ |- _ => symmetry in H
  | H : b64_urlsafe_char _ = b64_pad |- _ =>
      exfalso; revert H; apply b64_char_not_pad; zify; euclid
  | H : b64_urlsafe_char _ = b64_urlsafe_char _ |- _ =>
      apply b64_char_inj in H; [|zify; euclid|zify; euclid]
  end.

(** the URL-safe base64 encoding loses nothing *)
Lemma urlsafe_b64encode_inj (b b' : bytes) :
  urlsafe_b64encode b = urlsafe_b64encode b' -> b = b'.
Proof.
revert b'. induction b as [|x|x y|x y z l IH] using list_ind3;
  intros [|x' [|y' [|z' l']]] H; simpl in H; try discriminate H;
  byte_bounds; b64_equations.
- reflexivity.
- f_equal. apply byte_to_N_inj. zify. euclid.
- assert (Byte.to_N x = Byte.to_N x' /\ Byte.to_N y = Byte.to_N y') as [Hx Hy]
    by (zify; euclid).
  apply byte_to_N_inj in Hx, Hy. by subst.
- match goal with
  | H1 : (?n / 262144 = ?m / 262144)%N |- _ =>
      assert (Hnm : n = m) by (apply sextets_inj; [lia|lia|assumption..])
  end.
  assert (Byte.to_N x = Byte.to_N x' /\ Byte.to_N y = Byte.to_N y'
          /\ Byte.to_N z = Byte.to_N z') as (Hx & Hy & Hz) by lia.
  apply byte_to_N_inj in Hx, Hy, Hz. subst. f_equal. f_equal. f_equal. by apply IH.
Qed.

Lemma urlsafe_b64encode_length (b : bytes) :
  length (urlsafe_b64encode b) = (4 * ((length b + 2) / 3))%nat.
Proof.
induction b as [|x|x y|x y z l IH] using list_ind3; try reflexivity.
change (urlsafe_b64encode (x :: y :: z :: l))
  with (b64_urlsafe_char ((Byte.to_N x * 65536 + Byte.to_N y * 256 + Byte.to_N z) / 262144)
        :: b64_urlsafe_char (((Byte.to_N x * 65536 + Byte.to_N y * 256 + Byte.to_N z) / 4096) mod 64)
        :: b64_urlsafe_char (((Byte.to_N x * 65536 + Byte.to_N y * 256 + Byte.to_N z) / 64) mod 64)
        :: b64_urlsafe_char ((Byte.to_N x * 65536 + Byte.to_N y * 256 + Byte.to_N z) mod 64)
        :: urlsafe_b64encode l).
cbn [length]. rewrite IH.
replace (S (S (S (length l))) + 2)%nat with (1 * 3 + (length l + 2))%nat by lia.
rewrite Nat.div_add_l by lia. lia.
Qed.

Lemma hex_digit_value (n : N) : (n < 16)%N -> hex_value (hex_digit n) = Some n.
Proof.
intros Hn. assert (Hcases : In n [0;1;2;3;4;5;6;7;8;9;10;11;12;13;14;15]%N).
{ simpl. lia. }
simpl in Hcases. repeat (destruct Hcases as [<-|Hcases]; [reflexivity|]). contradiction.
Qed.

(** [bytes.fromhex] undoes [bytes.hex] *)
Lemma bytes_fromhex_hex (b : bytes) : bytes_fromhex (bytes_hex b) = inr b.
Proof.
unfold bytes_fromhex. induction b as [|x b IH]; [reflexivity|].
pose proof (Byte.to_N_bounded x) as Hx.
cbn [bytes_hex fromhex_from].
rewrite !hex_digit_value by (zify; euclid).
rewrite IH. unfold_result. f_equal. f_equal.
apply byte_to_N_inj. rewrite byte_of_N_to_N by (zify; euclid). zify. euclid.
Qed.

(** ** DataEncryption *)

Lemma generate_key_run (L : Libs) (password : string) (w : World) :
  generate_key L password w = (inr (derived_key L (salt w) password), w).
Proof. reflexivity. Qed.

Lemma encrypt_file_run (L : Libs) (file_path password : string) (data : bytes) (w : World) :
  fs w !! file_path = Some data ->
  encrypt_file L file_path password w
  = (inr (file_path +:+ ".encrypted", salt w),
     world_after_encrypt w file_path
       (Fernet_encrypt L (derived_key L (salt w) password) (fernet_draw w) data)).
Proof.
intros Hfile. unfold encrypt_file. unfold_M. rewrite generate_key_run.
unfold read_file. rewrite Hfile. reflexivity.
Qed.

Lemma encrypt_file_missing (L : Libs) (file_path password : string) (w : World) :
  fs w !! file_path = None ->
  exists e, encrypt_file L file_path password w = (inl e, w).
Proof.
intros Hfile. unfold encrypt_file. unfold_M. rewrite generate_key_run.
unfold read_file. rewrite Hfile. by eexists.
Qed.

Lemma decrypt_file_run (L : Libs) (path password : string) (salt_arg token : bytes)
  (w : World) :
  fs w !! path = Some token ->
  decrypt_file L path password salt_arg w
  = match Fernet_decrypt L (derived_key L salt_arg password) token with
    | inr data =>
        (inr (str_replace path ".encrypted" ".decrypted"),
         set_fs (<[str_replace path ".encrypted" ".decrypted" := data]> (fs w))
                (set_salt salt_arg w))
    | inl e => (inl e, set_salt salt_arg w)
    end.
Proof.
intros Hfile. unfold decrypt_file. unfold_M. cbv beta iota zeta. rewrite generate_key_run.
unfold read_file. change (fs (set_salt salt_arg w)) with (fs w). rewrite Hfile.
by destruct (Fernet_decrypt L _ token).
Qed.

Lemma str_encode_inj (s s' : string) : str_encode s = str_encode s' -> s = s'.
Proof.
unfold str_encode. intros H. apply (f_equal string_of_list_byte) in H.
by rewrite !string_of_list_byte_of_string in H.
Qed.

(** ** The stand-in libraries satisfy the contracts assumed of the real ones *)

Lemma stub_strip_header (key data : bytes) :
  Stub.strip_header key (Stub.token_header key ++ data) = Some data.
Proof.
unfold Stub.token_header. induction key as [|b key IH]; [reflexivity|].
cbn [flat_map app Stub.strip_header].
change (Byte.eqb Byte.x01 Byte.x01) with true.
rewrite (Byte.byte_dec_lb (x:=b) (y:=b) eq_refl). exact IH.
Qed.


Lemma stub_round_trip (key drawn data : bytes) :
  Stub.decrypt key (Stub.encrypt key drawn data) = inr data.
Proof. unfold Stub.decrypt, Stub.encrypt. by rewrite stub_strip_header. Qed.

(** ** DataEncryption: the salt *)

Lemma init_draws_sixteen_bytes (w0 : World) :
  (DataEncryption_init w0).1 = inr tt /\ length (salt (DataEncryption_init w0).2) = 16%nat.
Proof. split; reflexivity. Qed.

Lemma encrypt_file_salt (L : Libs) (file_path password : string) (w w1 : World)
  (r : string * bytes) :
  encrypt_file L file_path password w = (inr r, w1) -> r.2 = salt w /\ salt w1 = salt w.
Proof.
destruct (fs w !! file_path) as [data|] eqn:Hfile.
- rewrite (encrypt_file_run _ _ _ data) by exact Hfile. intros H. inversion H. by split.
- destruct (encrypt_file_missing L file_path password w Hfile) as [e ->]. discriminate.
Qed.

Lemma decrypt_file_salt (L : Libs) (path password : string) (salt_arg : bytes) (w : World) :
  salt (decrypt_file L path password salt_arg w).2 = salt_arg.
Proof.
destruct (fs w !! path) as [token|] eqn:Hfile.
- rewrite (decrypt_file_run _ _ _ _ token) by exact Hfile.
  by destruct (Fernet_decrypt L _ token).
- unfold decrypt_file. unfold_M. cbv beta iota zeta. rewrite generate_key_run.
  unfold read_file. change (fs (set_salt salt_arg w)) with (fs w). by rewrite Hfile.
Qed.

(** C3, as amended: the salt is drawn once, sixteen bytes from the
    operating system, when the DataEncryption instance is built; encrypt_file
    returns the salt the instance holds and leaves it in place, so two
    successive encryptions on one instance return the same salt; the salt
    held changes only when decrypt_file stores the one it is given. *)
Theorem salt_is_per_instance (L : Libs) (w w1 w2 : World) (path1 path2 password : string)
  (r1 r2 : string * bytes) :
  encrypt_file L path1 password w = (inr r1, w1) ->
  encrypt_file L path2 password w1 = (inr r2, w2) ->
  r1.2 = salt w /\ r2.2 = r1.2 /\ salt w2 = salt w
  /\ (forall w0, (DataEncryption_init w0).1 = inr tt
                 /\ length (salt (DataEncryption_init w0).2) = 16%nat)
  /\ (forall path pw salt_arg w', salt (decrypt_file L path pw salt_arg w').2 = salt_arg).
Proof.
intros H1 H2. apply encrypt_file_salt in H1 as [Hr1 Hw1], H2 as [Hr2 Hw2].
repeat split; try congruence.
intros. apply decrypt_file_salt.
Qed.

Lemma salt_is_per_instance_witness :
  exists r1 w1 r2 w2,
    encrypt_file Examples.libs "data.bin" "secret" Examples.world_two_files = (inr r1, w1)
    /\ encrypt_file Examples.libs "other.bin" "secret" w1 = (inr r2, w2)
    /\ r2.2 = r1.2.
Proof.
pose proof (encrypt_file_run Examples.libs "data.bin" "secret" Examples.ten_bytes
              Examples.world_two_files eq_refl) as H1.
match type of H1 with _ = (_, ?w1) =>
  pose proof (encrypt_file_run Examples.libs "other.bin" "secret" [Byte.x2a] w1 eq_refl)
    as H2
end.
eexists _, _, _, _. split; [exact H1|]. split; [exact H2|].
exact (proj1 (proj2 (salt_is_per_instance _ _ _ _ _ _ _ _ _ H1 H2))).
Defined.

(** C3 as stated fails: two encryptions of different plaintexts under the
    same password on one instance return the same salt, the one drawn when
    the instance was built. *)
Lemma salt_reused_across_encryptions :
  exists r1 w1 r2 w2,
    encrypt_file Examples.libs "data.bin" "secret" Examples.world_two_files = (inr r1, w1)
    /\ encrypt_file Examples.libs "other.bin" "secret" w1 = (inr r2, w2)
    /\ fs Examples.world_two_files !! "data.bin" <> fs Examples.world_two_files !! "other.bin"
    /\ r1.2 = r2.2
    /\ r1.2 = salt Examples.world
    /\ os_drawn w2 = (os_drawn Examples.world + 48)%nat.
Proof.
eexists _, _, _, _.
split; [apply (encrypt_file_run _ _ _ Examples.ten_bytes); reflexivity|].
split; [apply (encrypt_file_run _ _ _ [Byte.x2a]); reflexivity|].
split; [vm_compute; discriminate|]. by repeat split.
Qed.

(** ** DataEncryption: key derivation *)

(** C4, as amended: key derivation checks nothing about the password: for
    every password, the empty string included, generate_key returns the
    URL-safe base64 encoding of the PBKDF2-HMAC-SHA256 output requested with
    a length of 32 bytes and 100,000 iterations over the salt the instance
    holds; the encoding of 32 bytes is 44 bytes long. *)
Theorem generate_key_never_rejects (L : Libs) (password : string) (w : World) :
  generate_key L password w
  = (inr (urlsafe_b64encode
            (PBKDF2HMAC_SHA256_derive L 32%N (salt w) 100000%N (str_encode password))), w)
  /\ (forall raw : bytes, length raw = 32%nat -> length (urlsafe_b64encode raw) = 44%nat).
Proof.
split; [reflexivity|]. intros raw Hraw. by rewrite urlsafe_b64encode_length, Hraw.
Qed.

(** C4 as stated fails: with the empty password generate_key returns a key
    and raises nothing. *)
Lemma empty_password_derives_a_key :
  exists key, generate_key Examples.libs "" Examples.world = (inr key, Examples.world).
Proof. eexists. reflexivity. Qed.

(** ** DataManager *)

(** reading a file in blocks feeds the hash object the whole content *)
Lemma hash_blocks_all (fuel : nat) (unread absorbed : bytes) :
  (length unread < fuel)%nat -> hash_blocks fuel unread absorbed = absorbed ++ unread.
Proof.
revert unread absorbed. induction fuel as [|fuel IH]; intros unread absorbed Hfuel; [lia|].
cbn [hash_blocks]. destruct (take 4096 unread) as [|b block] eqn:Hblock.
- destruct unread as [|x unread]; [by rewrite app_nil_r|]. discriminate Hblock.
- rewrite IH.
  + rewrite <- Hblock, <- app_assoc. by rewrite take_drop.
  + rewrite length_drop. destruct unread; [discriminate Hblock|]. simpl in *. lia.
Qed.

Lemma calculate_file_hash_run (L : Libs) (file_path : string) (data : bytes) (w : World) :
  fs w !! file_path = Some data ->
  _calculate_file_hash L file_path w = (inr (bytes_hex (sha256_digest L data)), w).
Proof.
intros Hfile. unfold _calculate_file_hash. unfold_M. unfold read_file. rewrite Hfile.
by rewrite hash_blocks_all by lia.
Qed.

Lemma ipfs_add_run (L : Libs) (path : string) (content : bytes) (w : World) :
  fs w !! path = Some content ->
  ipfs_add L path w
  = (inr (ipfs_cid_file L content),
     set_ipfs_files (<[ipfs_cid_file L content := content]> (ipfs_files w)) w).
Proof.
intros Hfile. unfold ipfs_add. unfold_M. unfold read_file. by rewrite Hfile.
Qed.

Lemma upload_plain_run (L : Libs) (file_path : string) (data : bytes)
  (metadata : gmap string pyval) (password : option string) (w : World) :
  fs w !! file_path = Some data -> password_given password = false ->
  let metadata' := <["encrypted" := VBool false]> metadata in
  let file_hash := bytes_hex (sha256_digest L data) in
  let record := metadata_obj file_hash (ipfs_cid_file L data) metadata' in
  upload_dataset L file_path metadata password w
  = (inr ({| metadata_hash := ipfs_cid_json L record;
             ipfs_hash := ipfs_cid_file L data;
             file_hash := file_hash |}, metadata'),
     world_after_upload L w data record).
Proof.
intros Hfile Hpw. cbv zeta. unfold upload_dataset. unfold_M.
rewrite (calculate_file_hash_run _ _ data) by exact Hfile.
destruct password as [pw|]; rewrite ?Hpw; rewrite (ipfs_add_run _ _ data) by exact Hfile;
  reflexivity.
Qed.

Lemma upload_encrypted_run (L : Libs) (file_path pw : string) (data : bytes)
  (metadata : gmap string pyval) (w : World) :
  fs w !! file_path = Some data -> pw <> "" ->
  let token := upload_token L w pw data in
  let metadata' :=
    <["salt" := VStr (bytes_hex (salt w))]> (<["encrypted" := VBool true]> metadata) in
  let file_hash := bytes_hex (sha256_digest L data) in
  let record := metadata_obj file_hash (ipfs_cid_file L token) metadata' in
  upload_dataset L file_path metadata (Some pw) w
  = (inr ({| metadata_hash := ipfs_cid_json L record;
             ipfs_hash := ipfs_cid_file L token;
             file_hash := file_hash |}, metadata'),
     world_after_upload L (world_after_encrypt w file_path token) token record).
Proof.
intros Hfile Hpw. cbv zeta. unfold upload_dataset. unfold_M.
rewrite (calculate_file_hash_run _ _ data) by exact Hfile.
assert (Hgiven : password_given (Some pw) = true).
{ simpl. destruct (String.eqb_spec pw ""); [contradiction|reflexivity]. }
rewrite Hgiven. rewrite (encrypt_file_run _ _ _ data) by exact Hfile.
fold (upload_token L w pw data).
rewrite (ipfs_add_run _ _ (upload_token L w pw data)); [reflexivity|].
simpl. apply lookup_insert_eq.
Qed.

Lemma password_given_cases (password : option string) :
  (password_given password = true /\ exists pw, password = Some pw /\ pw <> "")
  \/ password_given password = false.
Proof.
destruct password as [pw|]; [|by right]. simpl.
destruct (String.eqb_spec pw ""); [by right|left]. split; [reflexivity|by exists pw].
Qed.

(** C5, as amended: upload_dataset hashes the original plaintext, so the
    file_hash it returns does not depend on the password argument; when a
    non-empty password is supplied the stored record carries encrypted=True
    and the hexadecimal salt, and the stored blob is the Fernet token of the
    plaintext; with no password or with the empty string the plaintext
    itself is stored and the record carries encrypted=False. *)
Theorem upload_hashes_plaintext (L : Libs) (w : World) (file_path : string) (data : bytes)
  (metadata : gmap string pyval) (password : option string) :
  fs w !! file_path = Some data ->
  exists res metadata' w',
    upload_dataset L file_path metadata password w = (inr (res, metadata'), w')
    /\ file_hash res = bytes_hex (sha256_digest L data)
    /\ ipfs_json w' !! metadata_hash res
       = Some (metadata_obj (file_hash res) (ipfs_hash res) metadata')
    /\ (if password_given password
        then metadata' !! "encrypted" = Some (VBool true)
             /\ metadata' !! "salt" = Some (VStr (bytes_hex (salt w)))
             /\ exists pw, password = Some pw
                           /\ ipfs_files w' !! ipfs_hash res
                              = Some (upload_token L w pw data)
        else metadata' !! "encrypted" = Some (VBool false)
             /\ metadata' !! "salt" = metadata !! "salt"
             /\ ipfs_files w' !! ipfs_hash res = Some data).
Proof.
intros Hfile. destruct (password_given_cases password) as [(Hgiven & pw & -> & Hpw)|Hgiven].
- rewrite Hgiven. eexists _, _, _.
  split; [by apply upload_encrypted_run|]. split; [reflexivity|].
  split; [apply lookup_insert_eq|]. split; [by simplify_map_eq|].
  split; [by simplify_map_eq|]. exists pw. split; [reflexivity|]. apply lookup_insert_eq.
- rewrite Hgiven. eexists _, _, _.
  split; [by apply upload_plain_run|]. split; [reflexivity|].
  split; [apply lookup_insert_eq|]. split; [by simplify_map_eq|].
  split; [by simplify_map_eq|]. apply lookup_insert_eq.
Qed.

Lemma upload_hashes_plaintext_witness :
  exists res metadata' w',
    upload_dataset Examples.libs "data.bin" ∅ (Some "secret") Examples.world
    = (inr (res, metadata'), w')
    /\ file_hash res = bytes_hex (sha256_digest Examples.libs Examples.ten_bytes)
    /\ metadata' !! "encrypted" = Some (VBool true)
    /\ metadata' !! "salt" = Some (VStr (bytes_hex (salt Examples.world))).
Proof.
destruct (upload_hashes_plaintext Examples.libs Examples.world "data.bin" Examples.ten_bytes
            ∅ (Some "secret") eq_refl)
  as (res & metadata' & w' & Hrun & Hhash & _ & Henc & Hsalt & _).
exists res, metadata', w'. by repeat split.
Defined.

(** C5 as stated fails: with the empty string supplied as password the
    record stored carries encrypted=False and no salt, and the blob stored
    is the plaintext. *)
Lemma empty_password_uploads_plaintext :
  exists res metadata' w',
    upload_dataset Examples.libs "data.bin" ∅ (Some "") Examples.world
    = (inr (res, metadata'), w')
    /\ metadata' !! "encrypted" = Some (VBool false)
    /\ metadata' !! "salt" = None
    /\ ipfs_files w' !! ipfs_hash res = Some Examples.ten_bytes.
Proof.
eexists _, _, _.
split; [apply (upload_plain_run Examples.libs "data.bin" Examples.ten_bytes); reflexivity|].
split; [apply lookup_insert_eq|]. split; [by simplify_map_eq|]. apply lookup_insert_eq.
Qed.

(** ** DataManager: retrieval *)

Lemma metadata_obj_ipfs_hash (file_hash ipfs_hash : string) (metadata : gmap string pyval) :
  py_getitem (metadata_obj file_hash ipfs_hash metadata) "ipfs_hash" = inr (VStr ipfs_hash).
Proof. unfold metadata_obj, py_getitem. by simplify_map_eq. Qed.

(** the flag is not a key of the stored record: it lies one level down,
    under ["metadata"] *)
Lemma metadata_obj_encrypted (file_hash ipfs_hash : string) (metadata : gmap string pyval) :
  py_get (metadata_obj file_hash ipfs_hash metadata) "encrypted" (VBool false)
  = inr (VBool false)
  /\ py_getitem (metadata_obj file_hash ipfs_hash metadata) "metadata" = inr (VDict metadata).
Proof. unfold metadata_obj, py_get, py_getitem. by simplify_map_eq. Qed.

Lemma retrieve_uploaded_run (L : Libs) (w : World) (blob : bytes) (file_hash : string)
  (metadata : gmap string pyval) (password : option string) :
  let record := metadata_obj file_hash (ipfs_cid_file L blob) metadata in
  let w1 := world_after_upload L w blob record in
  retrieve_dataset L (ipfs_cid_json L record) password w1
  = (inr (ipfs_download_path L (ipfs_cid_file L blob), record),
     set_fs (<[ipfs_download_path L (ipfs_cid_file L blob) := blob]> (fs w1)) w1).
Proof.
cbv zeta. unfold retrieve_dataset. unfold_M. unfold ipfs_get_json.
cbn [world_after_upload ipfs_json set_ipfs_json]. rewrite lookup_insert_eq.
rewrite metadata_obj_ipfs_hash. unfold ipfs_get.
cbn [world_after_upload ipfs_files set_ipfs_json set_ipfs_files]. rewrite lookup_insert_eq.
rewrite (proj1 (metadata_obj_encrypted _ _ _)).
destruct password; reflexivity.
Qed.

(** C9 at its failing input: after upload_dataset stored a file under a
    non-empty password, retrieve_dataset returns the stored Fernet token
    undecrypted whatever password it is given, the right one included: it
    looks for the flag [encrypted] at the top of the stored record, where
    upload_dataset never writes it (the flag lies under [metadata]). The
    record returned still carries encrypted=True there. *)
Theorem retrieve_never_decrypts_uploads (L : Libs) (w : World) (file_path pw : string)
  (data : bytes) (metadata : gmap string pyval) :
  fs w !! file_path = Some data -> pw <> "" ->
  exists res metadata' w1,
    upload_dataset L file_path metadata (Some pw) w = (inr (res, metadata'), w1)
    /\ metadata' !! "encrypted" = Some (VBool true)
    /\ forall password : option string,
         exists record w2,
           retrieve_dataset L (metadata_hash res) password w1
           = (inr (ipfs_download_path L (ipfs_hash res), record), w2)
           /\ fs w2 !! ipfs_download_path L (ipfs_hash res)
              = Some (upload_token L w pw data)
           /\ py_getitem record "metadata" = inr (VDict metadata')
           /\ py_get record "encrypted" (VBool false) = inr (VBool false)
           /\ salt w2 = salt w1.
Proof.
intros Hfile Hpw. eexists _, _, _.
split; [by apply upload_encrypted_run|]. split; [by simplify_map_eq|].
intros password. eexists _, _. cbn [metadata_hash ipfs_hash].
split; [apply retrieve_uploaded_run|].
split; [apply lookup_insert_eq|].
split; [apply metadata_obj_encrypted|]. split; [apply metadata_obj_encrypted|reflexivity].
Qed.

Lemma retrieve_never_decrypts_uploads_witness :
  exists res metadata' w1 path record w2 content,
    upload_dataset Examples.libs "data.bin" ∅ (Some "secret") Examples.world
    = (inr (res, metadata'), w1)
    /\ retrieve_dataset Examples.libs (metadata_hash res) (Some "secret") w1
       = (inr (path, record), w2)
    /\ fs w2 !! path = Some content
    /\ content = upload_token Examples.libs Examples.world "secret" Examples.ten_bytes
    /\ content <> Examples.ten_bytes.
Proof.
destruct (retrieve_never_decrypts_uploads Examples.libs Examples.world "data.bin" "secret"
            Examples.ten_bytes ∅ eq_refl ltac:(discriminate))
  as (res & metadata' & w1 & Hup & _ & Hget).
destruct (Hget (Some "secret")) as (record & w2 & Hrun & Hfile & _).
eexists res, metadata', w1, _, record, w2, _.
split; [exact Hup|]. split; [exact Hrun|]. split; [exact Hfile|].
split; [reflexivity|]. vm_compute. discriminate.
Defined.

(** The decrypting branch itself is sound: had the flag and the salt been
    stored at the top of the record, where retrieve_dataset reads them,
    retrieval with the right password would return the plaintext. *)
Lemma retrieve_flat_record_decrypts (L : Libs) (w : World) (cid blob_cid pw : string)
  (record : gmap string pyval) (salt_bytes drawn data : bytes) :
  (forall key d m, Fernet_decrypt L key (Fernet_encrypt L key d m) = inr m) ->
  ipfs_json w !! cid = Some (VDict record) ->
  record !! "ipfs_hash" = Some (VStr blob_cid) ->
  ipfs_files w !! blob_cid
  = Some (Fernet_encrypt L (derived_key L salt_bytes pw) drawn data) ->
  record !! "encrypted" = Some (VBool true) ->
  record !! "salt" = Some (VStr (bytes_hex salt_bytes)) ->
  pw <> "" ->
  exists path w2,
    retrieve_dataset L cid (Some pw) w = (inr (path, VDict record), w2)
    /\ fs w2 !! path = Some data.
Proof.
intros Hrt Hjson Hhash Hblob Hflag Hsalt Hpw.
unfold retrieve_dataset. unfold_M. unfold ipfs_get_json. rewrite Hjson.
unfold py_getitem, py_get. rewrite Hhash. unfold_result. unfold ipfs_get.
rewrite Hblob, Hflag, Hsalt. cbn [default truthy andb].
assert (Hgiven : password_given (Some pw) = true).
{ simpl. destruct (String.eqb_spec pw ""); [contradiction|reflexivity]. }
rewrite Hgiven, bytes_fromhex_hex. cbn [id truthy andb]. cbv beta.
erewrite decrypt_file_run by (simpl; apply lookup_insert_eq).
rewrite Hrt. eexists _, _. split; [reflexivity|]. simpl. apply lookup_insert_eq.
Qed.

(** ** DataValidator *)

(** C10 at its failing input: with metadata [{"format": None}] validate_dataset
    raises AttributeError instead of returning False: the call of [lower] on
    the declared format stands before the [try] block, so nothing catches
    it. *)
Theorem validate_dataset_raises_on_null_format (L : Libs) (files : gmap string bytes)
  (file_path : string) :
  validate_dataset L files file_path {["format" := VNone]}
  = inl (AttributeError "'NoneType' object has no attribute 'lower'").
Proof. unfold validate_dataset. by rewrite lookup_singleton_eq. Qed.

(** the same for every declared format that is not a string *)
Lemma validate_dataset_raises_on_non_string (L : Libs) (files : gmap string bytes)
  (file_path : string) (metadata : gmap string pyval) (v : pyval) :
  metadata !! "format" = Some v -> (forall s, v <> VStr s) ->
  validate_dataset L files file_path metadata = inl (no_attribute v "lower").
Proof.
intros Hv Hstr. unfold validate_dataset. rewrite Hv. simpl.
destruct v; try reflexivity. by destruct (Hstr s).
Qed.

Lemma validate_dataset_run (L : Libs) (files : gmap string bytes) (file_path : string)
  (metadata : gmap string pyval) (format : string) :
  declared_format metadata format ->
  validate_dataset L files file_path metadata
  = if bool_decide (str_lower format ∈ supported_formats)
    then match df ← read_file_with (reader_for L (str_lower format)) files file_path;
               validation_checks df metadata with
         | inr b => inr b
         | inl _ => inr false
         end
    else inr false.
Proof.
intros Hformat. unfold validate_dataset.
assert (Hlower : py_lower (default (VStr "") (metadata !! "format")) = inr (str_lower format)).
{ destruct Hformat as [[-> ->]| ->]; reflexivity. }
rewrite Hlower. unfold_result. destruct (bool_decide _) eqn:Hsup; [|reflexivity].
simpl negb. cbv iota. unfold try_except, reader_for.
apply bool_decide_eq_true_1 in Hsup. unfold supported_formats in Hsup.
repeat (apply elem_of_cons in Hsup as [->|Hsup]; [simpl; by destruct (read_file_with _ _ _) as [|df]; [|destruct (validation_checks df metadata)]|]).
by apply elem_of_nil in Hsup.
Qed.

Lemma py_all_true {A} (f : A -> result bool) (xs : list A) :
  py_all f xs = inr true -> Forall (fun x => f x = inr true) xs.
Proof.
induction xs as [|x xs IH]; simpl; intros H; [constructor|].
unfold_result. destruct (f x) as [e|[|]] eqn:Hx; try discriminate H.
constructor; [exact Hx|by apply IH].
Qed.

Lemma validation_checks_true (df : DataFrame) (metadata : gmap string pyval) :
  validation_checks df metadata = inr true ->
  df_empty df = false
  /\ (forall required col,
        metadata !! "required_columns" = Some (VList required) ->
        VStr col ∈ required -> col ∈ df_columns df)
  /\ (forall types col declared,
        metadata !! "column_types" = Some (VDict types) -> types !! col = Some declared ->
        col ∈ df_columns df ->
        exists s, df_getitem df col = inr (SeriesSel s) /\ declared = VStr (series_dtype s)).
Proof.
unfold validation_checks. destruct (df_empty df); [discriminate|].
unfold_result.
destruct (py_iter _) as [e|required] eqn:Hiter; [discriminate|].
destruct (py_all (index_contains df) required) as [e|[|]] eqn:Hreq; try discriminate.
destruct (py_items _) as [e|items] eqn:Hitems; [discriminate|].
destruct (py_all (column_type_ok df) items) as [e|[|]] eqn:Htypes; try discriminate.
intros _. split; [reflexivity|]. split.
- intros l col Hmd Hin. rewrite Hmd in Hiter. simpl in Hiter. inversion Hiter; subst.
  apply py_all_true in Hreq. rewrite Forall_forall in Hreq.
  specialize (Hreq _ Hin). simpl in Hreq. inversion Hreq as [Hb].
  by apply bool_decide_eq_true_1 in Hb.
- intros types col declared Hmd Hcol Hin. rewrite Hmd in Hitems. simpl in Hitems.
  inversion Hitems; subst. apply py_all_true in Htypes. rewrite Forall_forall in Htypes.
  specialize (Htypes (col, declared)). unfold column_type_ok in Htypes. simpl in Htypes.
  rewrite bool_decide_eq_true_2 in Htypes by exact Hin. unfold_result.
  assert (Hitem : (col, declared) ∈ map_to_list types) by by apply elem_of_map_to_list.
  specialize (Htypes Hitem).
  destruct (df_getitem df col) as [e|[s|cols]]; try discriminate Htypes.
  simpl in Htypes. exists s. split; [reflexivity|].
  destruct declared; try discriminate Htypes. inversion Htypes as [Hb].
  apply String.eqb_eq in Hb. by subst.
Qed.

(** the type check passes over a column the table does not have *)
Lemma column_type_ok_absent (df : DataFrame) (col : string) (declared : pyval) :
  col ∉ df_columns df -> column_type_ok df (col, declared) = inr true.
Proof. intros Habsent. unfold column_type_ok. simpl. by rewrite bool_decide_eq_false_2. Qed.

(** What C10 says beyond "never raises", for a declared format that is a
    string or is absent: validate_dataset returns a boolean; it returns False
    when the format is not supported; and it returns True only if the table
    was loaded, is not empty, has every required column, and every typed
    column it has bears the declared dtype. *)
Lemma validate_dataset_on_string_format (L : Libs) (files : gmap string bytes)
  (file_path : string) (metadata : gmap string pyval) (format : string) :
  declared_format metadata format ->
  (exists b, validate_dataset L files file_path metadata = inr b)
  /\ (str_lower format ∉ supported_formats ->
      validate_dataset L files file_path metadata = inr false)
  /\ (validate_dataset L files file_path metadata = inr true ->
      exists df,
        read_file_with (reader_for L (str_lower format)) files file_path = inr df
        /\ validation_checks df metadata = inr true).
Proof.
intros Hformat. rewrite (validate_dataset_run L files file_path metadata format Hformat).
destruct (bool_decide _) eqn:Hsup.
- unfold_result. split; [|split].
  + destruct (read_file_with _ _ _) as [e|df]; [by eexists|].
    destruct (validation_checks df metadata); by eexists.
  + intros Hno. by apply bool_decide_eq_true_1 in Hsup.
  + destruct (read_file_with _ _ _) as [e|df]; [discriminate|].
    destruct (validation_checks df metadata) as [e|b] eqn:Hchecks; [discriminate|].
    intros H. inversion H; subst. by exists df.
- split; [by eexists|]. split; [reflexivity|discriminate].
Qed.

(** the validation scenario: format csv, required columns id and value, a
    table whose only column is id *)
Lemma validate_dataset_missing_required_column (L : Libs) (files : gmap string bytes)
  (file_path : string) (content : bytes) (df : DataFrame) :
  files !! file_path = Some content -> read_csv L content = inr df ->
  df_columns df = ["id"] ->
  validate_dataset L files file_path
    (<["format" := VStr "csv"]> {["required_columns" := VList [VStr "id"; VStr "value"]]})
  = inr false.
Proof.
intros Hfile Hread Hcols.
set (metadata := <["format" := VStr "csv"]> _).
assert (Hformat : declared_format metadata "csv") by (right; by simplify_map_eq).
destruct (validate_dataset_on_string_format L files file_path metadata "csv" Hformat)
  as ([b Hb] & _ & Htrue).
destruct b; [|exact Hb]. exfalso.
destruct (Htrue Hb) as (df' & Hload & Hchecks).
change (reader_for L (str_lower "csv")) with (read_csv L) in Hload.
unfold read_file_with in Hload. rewrite Hfile, Hread in Hload.
inversion Hload; subst df'.
apply validation_checks_true in Hchecks as (_ & Hreq & _).
specialize (Hreq [VStr "id"; VStr "value"] "value").
rewrite Hcols in Hreq.
assert (Hin : "value" ∈ ["id"]).
{ apply Hreq; [by simplify_map_eq|]. right. left. }
apply elem_of_cons in Hin as [Hin|Hin]; [discriminate Hin|by apply elem_of_nil in Hin].
Qed.

(** a type constraint on a column the table lacks does not fail the
    validation *)
Lemma validate_dataset_skips_absent_typed_column :
  validate_dataset Examples.libs {["ids.csv" := []]} "ids.csv"
    (<["format" := VStr "csv"]> {["column_types" := VDict {["ghost" := VStr "float64"]}]})
  = inr true.
Proof. vm_compute. reflexivity. Qed.

(** * Further properties of the code *)

(** distinct column names of a concrete table *)

(** ** Strings *)

Lemma str_endswith_refl (s : string) : str_endswith s s = true.
Proof. destruct s; simpl; [reflexivity|]. by rewrite Ascii.eqb_refl, String.eqb_refl. Qed.

Lemma str_endswith_app (p suffix : string) : str_endswith (p +:+ suffix) suffix = true.
Proof.
induction p as [|c p IH]; simpl; [apply str_endswith_refl|].
rewrite IH. apply orb_true_r.
Qed.

Lemma str_length_app (a b : string) :
  String.length (a +:+ b) = (String.length a + String.length b)%nat.
Proof. induction a as [|c a IH]; simpl; [reflexivity|by rewrite IH]. Qed.

Lemma str_eqb_length (a b : string) :
  String.length a <> String.length b -> String.eqb a b = false.
Proof.
intros Hlen. destruct (String.eqb_spec a b) as [->|]; [contradiction|reflexivity].
Qed.

(** a longer ending is not mistaken for a shorter one *)
Lemma str_endswith_other (p a b : string) :
  str_endswith a b = false -> (String.length b <= String.length a)%nat ->
  str_endswith (p +:+ a) b = false.
Proof.
intros Hab Hlen. induction p as [|c p IH]; simpl; [exact Hab|].
rewrite IH, orb_false_r.
change (String.eqb (String c (p +:+ a)) b = false).
apply str_eqb_length. simpl. rewrite str_length_app. lia.
Qed.

Lemma str_endswith_inv (s suffix : string) :
  str_endswith s suffix = true -> exists p, s = p +:+ suffix.
Proof.
induction s as [|c s IH]; intros H; cbn [str_endswith] in H.
- rewrite orb_false_r in H. apply String.eqb_eq in H. subst. by exists "".
- apply orb_true_iff in H as [H|H].
  + apply String.eqb_eq in H. subst. by exists "".
  + destruct (IH H) as [p ->]. by exists (String c p).
Qed.

Lemma str_app_nil_l (a : string) : "" +:+ a = a.
Proof. reflexivity. Qed.

Lemma str_app_cons (c : ascii) (p a : string) : String c p +:+ a = String c (p +:+ a).
Proof. reflexivity. Qed.

Lemma str_app_shorter_tail (p q a b : string) :
  p +:+ a = q +:+ b -> (String.length a <= String.length b)%nat -> exists r, b = r +:+ a.
Proof.
intros Heq Hlen. revert q Heq.
induction p as [|c p IH]; intros [|d q] Heq; rewrite ?str_app_nil_l, ?str_app_cons in Heq.
- by exists "".
- apply (f_equal String.length) in Heq. cbn [String.length] in Heq.
  rewrite str_length_app in Heq. lia.
- exists (String c p). by subst.
- injection Heq as _ Heq. by apply (IH q).
Qed.

(** an ending is not mistaken for a longer one either *)
Lemma str_endswith_longer (p a b : string) :
  str_endswith b a = false -> (String.length a <= String.length b)%nat ->
  str_endswith (p +:+ a) b = false.
Proof.
intros Hba Hlen. destruct (str_endswith (p +:+ a) b) eqn:H; [|reflexivity].
apply str_endswith_inv in H as [q Hq].
destruct (str_app_shorter_tail _ _ _ _ Hq Hlen) as [r ->].
by rewrite str_endswith_app in Hba.
Qed.

(** ** DataManager: search *)

Lemma blockchain_manager_not_an_attribute :
  "blockchain_manager" ∉ DataManager_attributes.
Proof.
unfold DataManager_attributes. intros H.
repeat (apply elem_of_cons in H as [H|H]; [discriminate H|]).
by apply elem_of_nil in H.
Qed.

(** X1: [search_datasets] raises for every query, every filter and every
    state of the IPFS node: [__init__] binds [ipfs] and [encryption] only, so
    the first use of [self.blockchain_manager] raises AttributeError, which
    the handler wraps in one ValueError. Nothing is read from IPFS and no
    list of datasets is ever returned. *)
Theorem search_datasets_always_raises (py_str : pyval -> string)
  (blockchain_manager : Contract) (query : option string)
  (filters : option (gmap string pyval)) (w : World) :
  search_datasets py_str blockchain_manager query filters w
  = (inl (ValueError ("Error searching datasets: "
                      +:+ "'DataManager' object has no attribute 'blockchain_manager'")), w)
  /\ forall found w', search_datasets py_str blockchain_manager query filters w
                      <> (inr found, w').
Proof.
assert (Hrun : search_datasets py_str blockchain_manager query filters w
  = (inl (ValueError ("Error searching datasets: "
                      +:+ "'DataManager' object has no attribute 'blockchain_manager'")), w)).
{ unfold search_datasets, try_except_M, DataManager_getattr.
  rewrite bool_decide_eq_false_2 by apply blockchain_manager_not_an_attribute.
  reflexivity. }
split; [exact Hrun|]. intros found w' H. rewrite Hrun in H. discriminate H.
Qed.

(** ** DatasetAnalytics: the loader *)

Ltac suffix_facts := first [vm_compute; reflexivity | vm_compute; lia].

(** X2: [DatasetAnalytics._load_dataset] chooses the reader by the ending
    of the path alone: a path that ends in [.csv], [.json] or [.parquet] is
    read by the reader of that format, whatever comes before the ending; any
    other path, an existing file included, raises ValueError without reading
    anything; the test is case sensitive. *)
Theorem load_dataset_by_extension (L : Libs) (files : gmap string bytes) (stem : string) :
  DatasetAnalytics._load_dataset L files (stem +:+ ".csv")
  = read_file_with (read_csv L) files (stem +:+ ".csv")
  /\ DatasetAnalytics._load_dataset L files (stem +:+ ".json")
     = read_file_with (read_json L) files (stem +:+ ".json")
  /\ DatasetAnalytics._load_dataset L files (stem +:+ ".parquet")
     = read_file_with (read_parquet L) files (stem +:+ ".parquet")
  /\ DatasetAnalytics._load_dataset L files (stem +:+ ".CSV")
     = inl (ValueError "Unsupported file format")
  /\ (forall path,
        str_endswith path ".csv" = false -> str_endswith path ".json" = false ->
        str_endswith path ".parquet" = false ->
        DatasetAnalytics._load_dataset L files path = inl (ValueError "Unsupported file format")).
Proof.
unfold DatasetAnalytics._load_dataset. repeat split.
- by rewrite str_endswith_app.
- rewrite (str_endswith_other stem ".json" ".csv") by suffix_facts.
  by rewrite str_endswith_app.
- rewrite (str_endswith_other stem ".parquet" ".csv") by suffix_facts.
  rewrite (str_endswith_other stem ".parquet" ".json") by suffix_facts.
  by rewrite str_endswith_app.
- rewrite (str_endswith_other stem ".CSV" ".csv") by suffix_facts.
  rewrite (str_endswith_longer stem ".CSV" ".json") by suffix_facts.
  rewrite (str_endswith_longer stem ".CSV" ".parquet") by suffix_facts.
  reflexivity.
- intros path -> -> ->. reflexivity.
Qed.

(** ** DataManager: previews *)

Lemma series_head_dtype (n : nat) (s : Series) : series_dtype (series_head n s) = series_dtype s.
Proof. by destruct s. Qed.

Lemma df_head_columns (df : DataFrame) (stop : Z) : df_columns (df_head df stop) = df_columns df.
Proof. unfold df_columns, df_head. simpl. rewrite map_map. reflexivity. Qed.

Lemma df_head_dtypes (df : DataFrame) (stop : Z) : df_dtypes (df_head df stop) = df_dtypes df.
Proof.
unfold df_dtypes, df_head. simpl. generalize (∅ : gmap string string).
induction (columns df) as [|c cols IH]; intros m; simpl; [reflexivity|].
by rewrite series_head_dtype, IH.
Qed.

Lemma df_head_rows (df : DataFrame) (stop : Z) :
  (0 <= stop)%Z ->
  Z.of_nat (index_len (df_head df stop)) = Z.min stop (Z.of_nat (index_len df)).
Proof.
intros Hstop. unfold df_head, slice_stop. simpl.
destruct (Z.ltb_spec stop 0); lia.
Qed.

(** X3: for a [.json] or a [.parquet] file and a non-negative [max_rows],
    every preview [generate_preview] returns reports as [total_rows] the
    number of rows kept for the preview, min(max_rows, rows of the file),
    never the number of rows of the file when that is larger; [preview_rows]
    is the same number; the column names and dtypes are those of the whole
    file, and the missing values are counted over the previewed rows only. *)
Theorem preview_total_rows_is_truncated (L : Libs) (P : PreviewLibs)
  (files : gmap string bytes) (stem ext : string) (reader : bytes -> result DataFrame)
  (max_rows : Z) (content : bytes) (whole : DataFrame) (preview : Preview) :
  (ext, reader) ∈ [(".json", read_json L); (".parquet", read_parquet L)] ->
  (0 <= max_rows)%Z ->
  files !! (stem +:+ ext) = Some content -> reader content = inr whole ->
  generate_preview L P files (stem +:+ ext) max_rows = inr preview ->
  Z.of_nat (total_rows preview) = Z.min max_rows (Z.of_nat (index_len whole))
  /\ preview_rows preview = Z.of_nat (total_rows preview)
  /\ ((max_rows < Z.of_nat (index_len whole))%Z ->
      (total_rows preview < index_len whole)%nat)
  /\ preview_columns preview = df_columns whole
  /\ preview_dtypes preview = df_dtypes whole
  /\ statistics_missing_values preview = df_missing_values (df_head whole max_rows).
Proof.
intros Hext Hmax Hfile Hread Hrun.
assert (Hload : generate_preview L P files (stem +:+ ext) max_rows
  = try_except
      (numeric ← describe_to_dict P (df_select_numeric (df_head whole max_rows));
       mret {| preview_columns := df_columns (df_head whole max_rows);
               preview_data := to_dict_records P (df_head whole max_rows);
               total_rows := index_len (df_head whole max_rows);
               preview_rows := Z.min max_rows (Z.of_nat (index_len (df_head whole max_rows)));
               preview_dtypes := df_dtypes (df_head whole max_rows);
               statistics_numeric_columns := numeric;
               statistics_missing_values := df_missing_values (df_head whole max_rows) |})
      (fun e => raise (ValueError ("Error generating preview: " +:+ exn_str e)))).
{ unfold generate_preview.
  apply elem_of_cons in Hext as [Hext|Hext]; [|apply elem_of_cons in Hext as [Hext|Hext]].
  - inversion Hext; subst.
    rewrite (str_endswith_other stem ".json" ".csv") by suffix_facts.
    rewrite str_endswith_app. unfold read_file_with. rewrite Hfile, Hread. reflexivity.
  - inversion Hext; subst.
    rewrite (str_endswith_other stem ".parquet" ".csv") by suffix_facts.
    rewrite (str_endswith_other stem ".parquet" ".json") by suffix_facts.
    rewrite str_endswith_app. unfold read_file_with. rewrite Hfile, Hread. reflexivity.
  - by apply elem_of_nil in Hext. }
rewrite Hload in Hrun. unfold try_except in Hrun. unfold_result.
destruct (describe_to_dict P _) as [e|numeric]; [discriminate Hrun|].
inversion Hrun; subst; clear Hrun. cbn [total_rows preview_rows preview_columns preview_dtypes
                                         statistics_missing_values].
pose proof (df_head_rows whole max_rows Hmax) as Hrows. cbn [df_head index_len] in Hrows.
split; [exact Hrows|]. split; [lia|]. split; [lia|].
split; [apply df_head_columns|]. split; [apply df_head_dtypes|reflexivity].
Qed.

Lemma preview_total_rows_is_truncated_witness :
  exists preview,
    generate_preview Examples.libs Cases.preview_libs Cases.table_files "ids.json" 1
    = inr preview
    /\ Z.of_nat (total_rows preview) = 1%Z
    /\ preview_rows preview = 1%Z
    /\ (total_rows preview < index_len Examples.id_frame)%nat.
Proof.
assert (Hrun : exists preview,
          generate_preview Examples.libs Cases.preview_libs Cases.table_files "ids.json" 1
          = inr preview) by (eexists; vm_compute; reflexivity).
destruct Hrun as [preview Hrun]. exists preview. split; [exact Hrun|].
destruct (preview_total_rows_is_truncated Examples.libs Cases.preview_libs Cases.table_files
            "ids" ".json" (read_json Examples.libs) 1 [] Examples.id_frame preview)
  as (Htotal & Hrows & Hless & _).
- left.
- lia.
- reflexivity.
- reflexivity.
- exact Hrun.
- split; [exact Htotal|]. split; [by rewrite Hrows, Htotal|]. apply Hless. simpl. lia.
Defined.

(** ** Strings: replacement *)

Lemma str_app_nil_r (a : string) : a +:+ "" = a.
Proof. induction a as [|c a IH]; [reflexivity|]. by rewrite str_app_cons, IH. Qed.

Lemma str_prefix_iff (a s : string) : String.prefix a s = true <-> exists r, s = a +:+ r.
Proof.
revert s. induction a as [|c a IH]; intros s.
- split; [intros _; by exists s|intros _; by destruct s].
- destruct s as [|d s]; simpl.
  + split; [discriminate|]. intros [r Hr]. discriminate Hr.
  + destruct (ascii_dec c d) as [->|Hne].
    * rewrite IH. split; intros [r Hr]; exists r.
      -- by rewrite str_app_cons, Hr.
      -- rewrite str_app_cons in Hr. by injection Hr.
    * split; [discriminate|]. intros [r Hr]. rewrite str_app_cons in Hr.
      injection Hr as Hc _. by destruct Hne.
Qed.

Lemma str_app_longer_head (a b c d : string) :
  a +:+ b = c +:+ d -> (String.length c <= String.length a)%nat -> exists r, a = c +:+ r.
Proof.
revert a. induction c as [|x c IH]; intros a Heq Hlen.
- by exists a.
- destruct a as [|y a]; [simpl in Hlen; lia|].
  rewrite !str_app_cons in Heq. injection Heq as -> Heq.
  destruct (IH a Heq) as [r ->]; [simpl in Hlen; lia|]. by exists r.
Qed.

(** a borderless word at the end of a string is not met earlier, astride
    the end of what precedes it *)
Lemma str_prefix_astride (old t : string) :
  borderless old -> t <> "" -> String.prefix old (t +:+ old) = true ->
  String.prefix old t = true.
Proof.
intros Hborder Ht H. apply str_prefix_iff in H as [r Hr].
destruct (Nat.lt_ge_cases (String.length t) (String.length old)) as [Hshort|Hlong].
- exfalso. apply (Hborder (String.length t)).
  + split; [|exact Hshort]. destruct t; [contradiction|simpl; lia].
  + rewrite (String.append_correct1 old r) by exact Hshort. rewrite <- Hr.
    symmetry. exact (String.append_correct2 t old 0).
- apply str_prefix_iff. by apply (str_app_longer_head t old old r).
Qed.

Lemma str_replace_skip (old new s : string) (skip : nat) :
  (String.length s <= skip)%nat -> str_replace_from old new skip s = "".
Proof.
revert skip. induction s as [|c s IH]; intros skip Hskip; [reflexivity|].
destruct skip as [|k]; [simpl in Hskip; lia|]. simpl. apply IH. simpl in Hskip. lia.
Qed.

(** [replace] leaves a string without occurrence as it is *)
Lemma str_replace_absent (s old new : string) :
  str_contains old s = false -> str_replace s old new = s.
Proof.
unfold str_replace. induction s as [|c s IH]; intros H; [reflexivity|].
cbn [str_contains] in H. apply orb_false_iff in H as [Hhere Hlater].
cbn [str_replace_from]. rewrite Hhere. by rewrite IH.
Qed.

(** [replace] rewrites a borderless ending that occurs nowhere before *)
Lemma str_replace_ending (p old new : string) :
  borderless old -> old <> "" -> str_contains old p = false ->
  str_replace (p +:+ old) old new = p +:+ new.
Proof.
intros Hborder Hold. unfold str_replace. induction p as [|c p IH]; intros H.
- rewrite !str_app_nil_l. destruct old as [|x old]; [contradiction|].
  cbn [str_replace_from].
  assert (Hself : String.prefix (String x old) (String x old) = true).
  { apply str_prefix_iff. exists "". by rewrite str_app_nil_r. }
  rewrite Hself. rewrite str_replace_skip by (simpl; lia). apply str_app_nil_r.
- cbn [str_contains] in H. apply orb_false_iff in H as [Hhere Hlater].
  rewrite !str_app_cons. cbn [str_replace_from].
  destruct (String.prefix old (String c (p +:+ old))) eqn:Hpre.
  + rewrite <- str_app_cons in Hpre. apply str_prefix_astride in Hpre; [|done|done].
    congruence.
  + by rewrite IH.
Qed.

Lemma encrypted_borderless : borderless ".encrypted".
Proof.
intros k [Hpos Hk]. simpl in Hk.
do 10 (destruct k as [|k]; [first [lia|discriminate]|]). lia.
Qed.

(** ** DataEncryption: what the two calls leave on disk *)

Lemma str_app_neq (p suffix : string) : suffix <> "" -> p +:+ suffix <> p.
Proof.
intros Hne Heq. apply (f_equal String.length) in Heq. rewrite str_length_app in Heq.
destruct suffix; [contradiction|simpl in Heq; lia].
Qed.

(** X4: [encrypt_file] on an existing file writes one file, the token,
    beside it under the name [file_path + '.encrypted'], and touches nothing
    else: the plaintext stays on disk unchanged, every other file keeps its
    content, the IPFS node and the salt are as before; on a missing file it
    raises FileNotFoundError and leaves the world as it was. *)
Theorem encrypt_file_keeps_plaintext (L : Libs) (w : World) (file_path password : string) :
  match fs w !! file_path with
  | Some data =>
      exists w1,
        encrypt_file L file_path password w = (inr (file_path +:+ ".encrypted", salt w), w1)
        /\ fs w1 = <[file_path +:+ ".encrypted"
                     := Fernet_encrypt L (derived_key L (salt w) password) (fernet_draw w) data]>
                   (fs w)
        /\ fs w1 !! file_path = Some data
        /\ ipfs_files w1 = ipfs_files w /\ ipfs_json w1 = ipfs_json w /\ salt w1 = salt w
  | None =>
      encrypt_file L file_path password w
      = (inl (FileNotFoundError ("No such file or directory: '" +:+ file_path +:+ "'")), w)
  end.
Proof.
destruct (fs w !! file_path) as [data|] eqn:Hfile.
- eexists. split; [by apply encrypt_file_run|].
  split; [reflexivity|]. split; [|by repeat split].
  cbn [world_after_encrypt fs set_fs]. rewrite lookup_insert_ne; [exact Hfile|].
  apply str_app_neq. discriminate.
- unfold encrypt_file. unfold_M. rewrite generate_key_run. unfold read_file.
  by rewrite Hfile.
Qed.

(** X5: when the path it is given holds no ['.encrypted'], [decrypt_file]
    writes the plaintext over the very file it read: the path returned is the
    path given, and the token is gone from the disk. *)
Theorem decrypt_file_overwrites_unmarked_path (L : Libs) (w : World)
  (path password : string) (salt_arg token data : bytes) :
  str_contains ".encrypted" path = false ->
  fs w !! path = Some token ->
  Fernet_decrypt L (derived_key L salt_arg password) token = inr data ->
  exists w2,
    decrypt_file L path password salt_arg w = (inr path, w2)
    /\ fs w2 = <[path := data]> (fs w)
    /\ fs w2 !! path = Some data.
Proof.
intros Hplain Hfile Hdec. eexists.
rewrite (decrypt_file_run _ _ _ _ token) by exact Hfile. rewrite Hdec.
rewrite (str_replace_absent path ".encrypted" ".decrypted" Hplain).
split; [reflexivity|]. split; [reflexivity|]. simpl. apply lookup_insert_eq.
Qed.

Lemma decrypt_file_overwrites_unmarked_path_witness :
  exists w2,
    decrypt_file Examples.libs "blob" "secret" [] Cases.blob_world = (inr "blob", w2)
    /\ fs Cases.blob_world !! "blob" = Some Cases.blob_token
    /\ fs w2 !! "blob" = Some Examples.ten_bytes.
Proof.
destruct (decrypt_file_overwrites_unmarked_path Examples.libs Cases.blob_world "blob" "secret"
            [] Cases.blob_token Examples.ten_bytes) as (w2 & Hrun & _ & Hfile).
- reflexivity.
- reflexivity.
- apply stub_round_trip.
- exists w2. split; [exact Hrun|]. split; [reflexivity|exact Hfile].
Defined.

(** X6: for a path that holds no ['.encrypted'], decrypting what
    [encrypt_file] wrote puts the plaintext in a third file,
    [file_path + '.decrypted']; the original file and the token both stay on
    disk with their contents (assuming that Fernet decrypts its own
    tokens). *)
Theorem decrypt_file_writes_third_file (L : Libs) (w : World) (file_path password : string)
  (data : bytes) :
  (forall key drawn m, Fernet_decrypt L key (Fernet_encrypt L key drawn m) = inr m) ->
  str_contains ".encrypted" file_path = false ->
  fs w !! file_path = Some data ->
  exists token w1 w2,
    encrypt_file L file_path password w = (inr (file_path +:+ ".encrypted", salt w), w1)
    /\ decrypt_file L (file_path +:+ ".encrypted") password (salt w) w1
       = (inr (file_path +:+ ".decrypted"), w2)
    /\ fs w2 = <[file_path +:+ ".decrypted" := data]>
                 (<[file_path +:+ ".encrypted" := token]> (fs w))
    /\ fs w2 !! (file_path +:+ ".decrypted") = Some data
    /\ fs w2 !! (file_path +:+ ".encrypted") = Some token
    /\ fs w2 !! file_path = Some data.
Proof.
intros Hrt Hplain Hfile.
assert (Hpath : str_replace (file_path +:+ ".encrypted") ".encrypted" ".decrypted"
                = file_path +:+ ".decrypted").
{ apply str_replace_ending; [apply encrypted_borderless|discriminate|exact Hplain]. }
assert (Hne : file_path +:+ ".decrypted" <> file_path +:+ ".encrypted").
{ intros Heq. apply (inj (String.append file_path)) in Heq. discriminate Heq. }
eexists _, _, _. split; [by apply encrypt_file_run|].
split.
{ erewrite decrypt_file_run by (simpl; apply lookup_insert_eq).
  rewrite Hrt, Hpath. reflexivity. }
split; [reflexivity|]. cbn [fs set_fs set_salt world_after_encrypt].
split; [apply lookup_insert_eq|]. split.
- rewrite lookup_insert_ne by (intros Heq; by apply Hne). apply lookup_insert_eq.
- rewrite !lookup_insert_ne; [exact Hfile|apply str_app_neq; discriminate
                              |apply str_app_neq; discriminate].
Qed.

Lemma decrypt_file_writes_third_file_witness :
  exists token w1 w2,
    encrypt_file Examples.libs "data.bin" "secret" Examples.world
    = (inr ("data.bin.encrypted", salt Examples.world), w1)
    /\ decrypt_file Examples.libs "data.bin.encrypted" "secret" (salt Examples.world) w1
       = (inr "data.bin.decrypted", w2)
    /\ fs w2 !! "data.bin.decrypted" = Some Examples.ten_bytes
    /\ fs w2 !! "data.bin.encrypted" = Some token
    /\ fs w2 !! "data.bin" = Some Examples.ten_bytes.
Proof.
destruct (decrypt_file_writes_third_file Examples.libs Examples.world "data.bin" "secret"
            Examples.ten_bytes stub_round_trip eq_refl eq_refl)
  as (token & w1 & w2 & Henc & Hdec & _ & Hplain & Htoken & Horig).
exists token, w1, w2. by repeat split.
Defined.

(** ** DataEncryption: round trip, and other passwords *)











(** ** DataManager: hashing, upload and retrieval *)

Lemma bytes_hex_length (b : bytes) : String.length (bytes_hex b) = (2 * length b)%nat.
Proof. induction b as [|x b IH]; [reflexivity|]. cbn [bytes_hex String.length length]. lia. Qed.

(** X7: [_calculate_file_hash] returns, for a file of any length, the
    hexadecimal text of the SHA-256 digest of the whole content: reading in
    blocks of 4096 bytes loses and repeats nothing; the text has two
    characters per digest byte and [bytes.fromhex] gives the digest back;
    the world is left as it was. On a missing file it raises
    FileNotFoundError. *)
Theorem file_hash_covers_whole_file (L : Libs) (w : World) (file_path : string) :
  match fs w !! file_path with
  | Some data =>
      _calculate_file_hash L file_path w = (inr (bytes_hex (sha256_digest L data)), w)
      /\ hash_blocks (S (length data)) data [] = data
      /\ String.length (bytes_hex (sha256_digest L data))
         = (2 * length (sha256_digest L data))%nat
      /\ bytes_fromhex (bytes_hex (sha256_digest L data)) = inr (sha256_digest L data)
  | None =>
      _calculate_file_hash L file_path w
      = (inl (FileNotFoundError ("No such file or directory: '" +:+ file_path +:+ "'")), w)
  end.
Proof.
destruct (fs w !! file_path) as [data|] eqn:Hfile.
- split; [by apply calculate_file_hash_run|].
  split; [by rewrite hash_blocks_all by lia|].
  split; [apply bytes_hex_length|apply bytes_fromhex_hex].
- unfold _calculate_file_hash. unfold_M. unfold read_file. by rewrite Hfile.
Qed.

(** X8: [upload_dataset] fails exactly when the file is missing: it then
    raises FileNotFoundError before anything is stored, and the file system,
    the IPFS node and the salt are as before; on an existing file it returns
    a result whatever the metadata and the password. *)
Theorem upload_fails_only_on_missing_file (L : Libs) (w : World) (file_path : string)
  (metadata : gmap string pyval) (password : option string) :
  match fs w !! file_path with
  | Some data =>
      exists res metadata' w', upload_dataset L file_path metadata password w
                               = (inr (res, metadata'), w')
  | None =>
      upload_dataset L file_path metadata password w
      = (inl (FileNotFoundError ("No such file or directory: '" +:+ file_path +:+ "'")), w)
  end.
Proof.
destruct (fs w !! file_path) as [data|] eqn:Hfile.
- destruct (password_given_cases password) as [(Hgiven & pw & -> & Hpw)|Hgiven].
  + eexists _, _, _. by apply upload_encrypted_run.
  + eexists _, _, _. by apply upload_plain_run.
- unfold upload_dataset, _calculate_file_hash. unfold_M. unfold read_file. by rewrite Hfile.
Qed.

(** X9: a file uploaded without a password (none, or the empty string)
    comes back intact: [retrieve_dataset] on the returned metadata hash, with
    any password argument, returns a path that holds the original bytes and
    the record stored at upload; the record's [file_hash] is the hash of the
    retrieved file, and its [metadata] is the caller's dictionary with
    [encrypted] set to False. *)
Theorem upload_then_retrieve_plain (L : Libs) (w : World) (file_path : string) (data : bytes)
  (metadata : gmap string pyval) (password password' : option string) :
  fs w !! file_path = Some data -> password_given password = false ->
  exists res metadata' w1 path record w2,
    upload_dataset L file_path metadata password w = (inr (res, metadata'), w1)
    /\ retrieve_dataset L (metadata_hash res) password' w1 = (inr (path, record), w2)
    /\ fs w2 !! path = Some data
    /\ py_getitem record "file_hash" = inr (VStr (file_hash res))
    /\ _calculate_file_hash L path w2 = (inr (file_hash res), w2)
    /\ py_getitem record "metadata" = inr (VDict (<["encrypted" := VBool false]> metadata))
    /\ metadata' = <["encrypted" := VBool false]> metadata.
Proof.
intros Hfile Hplain. eexists _, _, _, _, _, _.
split; [by apply upload_plain_run|]. cbn [metadata_hash].
split; [apply retrieve_uploaded_run|].
assert (Hback : forall w1, fs (set_fs (<[ipfs_download_path L (ipfs_cid_file L data) := data]>
                                         (fs w1)) w1)
                           !! ipfs_download_path L (ipfs_cid_file L data) = Some data).
{ intros w1. simpl. apply lookup_insert_eq. }
split; [apply Hback|].
split; [unfold metadata_obj, py_getitem; by simplify_map_eq|].
split; [apply calculate_file_hash_run, Hback|].
split; [apply metadata_obj_encrypted|reflexivity].
Qed.

Lemma upload_then_retrieve_plain_witness :
  exists res metadata' w1 path record w2,
    upload_dataset Examples.libs "data.bin" ∅ None Examples.world = (inr (res, metadata'), w1)
    /\ retrieve_dataset Examples.libs (metadata_hash res) (Some "secret") w1
       = (inr (path, record), w2)
    /\ fs w2 !! path = Some Examples.ten_bytes
    /\ _calculate_file_hash Examples.libs path w2 = (inr (file_hash res), w2).
Proof.
destruct (upload_then_retrieve_plain Examples.libs Examples.world "data.bin" Examples.ten_bytes
            ∅ None (Some "secret") eq_refl eq_refl)
  as (res & metadata' & w1 & path & record & w2 & Hup & Hget & Hfile & _ & Hhash & _).
exists res, metadata', w1, path, record, w2. by repeat split.
Defined.

(** ** QualityChecker: completeness *)

Lemma null_count_zero (cols : list (string * Series)) (n : nat) :
  fold_left (fun n c => (n + count_true (series_isnull c.2))%nat) cols n = 0%nat
  <-> n = 0%nat /\ Forall (fun c => count_true (series_isnull c.2) = 0%nat) cols.
Proof.
revert n. induction cols as [|c cols IH]; intros n; simpl.
- split; [intros ->; by split|by intros [-> _]].
- rewrite IH. split.
  + intros [Hn Hall]. split; [lia|]. constructor; [lia|exact Hall].
  + intros [-> Hall]. inversion Hall; subst. split; [lia|assumption].
Qed.

Lemma Qdiv_inject_Z_zero (a b : Z) :
  (0 < b)%Z -> (inject_Z a / inject_Z b == 0)%Q <-> a = 0%Z.
Proof.
intros Hb. assert (Hb' : ~ (inject_Z b == 0)%Q) by (unfold Qeq; simpl; lia). split.
- intros H. assert (Ha : (inject_Z a == 0)%Q).
  { rewrite <- (Qmult_div_r (inject_Z a) (inject_Z b) Hb'), H. ring. }
  unfold Qeq in Ha. simpl in Ha. lia.
- intros ->. unfold Qdiv. change (inject_Z 0) with 0%Q. ring.
Qed.

Lemma Qdiv_inject_Z_one (a b : Z) :
  (0 < b)%Z -> (inject_Z a / inject_Z b == 1)%Q <-> a = b.
Proof.
intros Hb. assert (Hb' : ~ (inject_Z b == 0)%Q) by (unfold Qeq; simpl; lia). split.
- intros H. assert (Ha : (inject_Z a == inject_Z b)%Q).
  { rewrite <- (Qmult_div_r (inject_Z a) (inject_Z b) Hb'), H. ring. }
  unfold Qeq in Ha. simpl in Ha. lia.
- intros ->. unfold Qdiv. by apply Qmult_inv_r.
Qed.

(** X10: on a well-formed table with at least one cell, completeness is
    the number 1 - missing/(rows x columns); it lies in [0,1]; it is 1 exactly
    when no column has a missing cell, and 0 exactly when every cell is
    missing. *)
Theorem completeness_is_share_of_present_cells (df : DataFrame) :
  frame_wf df -> (0 < index_len df)%nat -> columns df <> [] ->
  exists q,
    _check_completeness df = inr (Fin q)
    /\ (q == 1 - inject_Z (Z.of_nat (df_null_count df))
                 / inject_Z (Z.of_nat (index_len df * length (columns df))))%Q
    /\ (0 <= q /\ q <= 1)%Q
    /\ ((q == 1)%Q
        <-> Forall (fun c => count_true (series_isnull c.2) = 0%nat) (columns df))
    /\ ((q == 0)%Q <-> df_null_count df = (index_len df * length (columns df))%nat).
Proof.
intros Hwf Hrows Hcols.
assert (Hlen : (0 < length (columns df))%nat) by (destruct (columns df); [done|simpl; lia]).
assert (Hcells : (0 < Z.of_nat (index_len df) * Z.of_nat (length (columns df)))%Z) by lia.
pose proof (completeness_null_count _ _ 0%nat Hwf) as Hn. fold (df_null_count df) in Hn.
unfold _check_completeness. rewrite np_truediv_pos by exact Hcells.
rewrite <- Nat2Z.inj_mul in *.
set (cells := (index_len df * length (columns df))%nat) in *.
destruct (ratio_bounds (Z.of_nat (df_null_count df)) (Z.of_nat cells)) as [Hlo Hhi]; [lia..|].
eexists. split; [reflexivity|]. change (inject_Z 1) with 1%Q.
set (r := (inject_Z (Z.of_nat (df_null_count df)) / inject_Z (Z.of_nat cells))%Q) in *.
split; [ring|]. split; [split; lra|]. split.
- transitivity (r == 0)%Q; [split; intros H; lra|]. unfold r.
  rewrite Qdiv_inject_Z_zero by exact Hcells.
  pose proof (null_count_zero (columns df) 0) as Hz. fold (df_null_count df) in Hz. split.
  + intros H. apply Hz. lia.
  + intros H. assert (df_null_count df = 0%nat) by (apply Hz; by split). lia.
- transitivity (r == 1)%Q; [split; intros H; lra|]. unfold r.
  rewrite Qdiv_inject_Z_one by exact Hcells. lia.
Qed.

Lemma completeness_is_share_of_present_cells_witness :
  exists q,
    _check_completeness Cases.gaps_frame = inr (Fin q)
    /\ (q == 0.75)%Q
    /\ ~ Forall (fun c : string * Series => count_true (series_isnull c.2) = 0%nat)
                (columns Cases.gaps_frame).
Proof.
destruct (completeness_is_share_of_present_cells Cases.gaps_frame)
  as (q & Hrun & Hq & _ & Hone & _).
- repeat constructor.
- simpl. lia.
- discriminate.
- exists q. split; [exact Hrun|].
  assert (Hval : (q == 0.75)%Q) by (rewrite Hq; reflexivity).
  split; [exact Hval|]. intros Hall. apply Hone in Hall. rewrite Hval in Hall.
  discriminate Hall.
Defined.

(** ** QualityChecker: tables without rows, columns without values *)



(** X11: a table that has a numeric column but no row cannot be scored:
    [_check_consistency] and [_check_accuracy] raise ZeroDivisionError (the
    outlier count is divided by the number of rows), and so does the
    computation of the report, although completeness alone would give NaN. *)
Theorem numeric_column_without_rows_raises (L : Libs) (now : datetime) (df : DataFrame)
  (metadata : gmap string pyval) :
  index_len df = 0%nat -> NoDup (df_columns df) -> numeric_columns df <> [] ->
  _check_consistency df = inl (ZeroDivisionError "division by zero")
  /\ _check_accuracy L df = inl (ZeroDivisionError "division by zero")
  /\ quality_report L now df metadata = inl (ZeroDivisionError "division by zero")
  /\ (frame_wf df -> _check_completeness df = inr NaN).
Proof.
intros Hrows Hnd Hnum.
assert (Hk : _check_consistency df = inl (ZeroDivisionError "division by zero")).
{ unfold _check_consistency, df_columns.
  rewrite (outlier_loop_without_rows df iqr_outlier_mask (consistency_step df) (columns df) []);
    done. }
assert (Ha : _check_accuracy L df = inl (ZeroDivisionError "division by zero")).
{ unfold _check_accuracy, df_columns.
  rewrite (outlier_loop_without_rows df (three_sigma_mask L)
             (accuracy_step L df) (columns df) []); done. }
split; [exact Hk|]. split; [exact Ha|]. split.
- unfold quality_report. unfold_result. cbn [_check_completeness]. by rewrite Hk.
- intros Hwf. pose proof (completeness_null_count _ _ 0%nat Hwf) as Hn.
  fold (df_null_count df) in Hn. unfold _check_completeness. rewrite Hrows in *.
  by replace (df_null_count df) with 0%nat by lia.
Qed.

Lemma numeric_column_without_rows_raises_witness :
  _check_consistency Cases.rowless_frame = inl (ZeroDivisionError "division by zero")
  /\ quality_report Examples.libs Examples.new_year_2024 Cases.rowless_frame ∅
     = inl (ZeroDivisionError "division by zero").
Proof.
destruct (numeric_column_without_rows_raises Examples.libs Examples.new_year_2024
            Cases.rowless_frame ∅) as (Hk & _ & Hreport & _).
- reflexivity.
- names_distinct.
- discriminate.
- by split.
Defined.

(** ** QualityChecker: missing cells and outliers *)

Lemma flt_nan_r (x : float) : flt x NaN = false.
Proof. by destruct x. Qed.

Lemma B64_ltb_nan_r (x : B64.binary64) : B64.ltb x B64.nan = false.
Proof. by destruct x. Qed.

Lemma series_cells64_missing (s : Series) (i : nat) :
  series_floats s !! i = Some NaN -> series_cells64 s !! i = Some B64.nan.
Proof.
destruct s as [vs|vs|vs|dt na]; simpl; rewrite !list_lookup_fmap.
- destruct (vs !! i); simpl; [discriminate|done].
- destruct (vs !! i) as [[q|]|]; simpl; [discriminate|done..].
- by destruct (vs !! i).
- by destruct (na !! i).
Qed.

(** a test that never flags NaN flags at most the cells that hold a number *)
Lemma count_flagged_le_numbers (flag : B64.binary64 -> bool) (s : Series) :
  flag B64.nan = false ->
  (count_true (map flag (series_cells64 s)) <= length (series_numbers s))%nat.
Proof.
intros Hnan. destruct s as [vs|vs|vs|dt na]; simpl.
- etransitivity; [apply count_true_le|]. by rewrite !length_map.
- induction vs as [|[q|] vs IH]; [done|..]; cbn [map]; rewrite count_true_cons.
  + change (omap id (Some q :: vs)) with (q :: omap id vs). cbn [length].
    destruct (flag (B64.of_Q q)); lia.
  + change (omap id (None :: vs)) with (omap id vs). by rewrite Hnan.
- induction vs as [|v vs IH]; [done|]. cbn [map]. by rewrite count_true_cons, Hnan.
- induction na as [|v na IH]; [done|]. cbn [map]. by rewrite count_true_cons, Hnan.
Qed.

(** X12: a missing cell is never counted as an outlier, by the
    interquartile test or by the three-sigma test: comparisons with NaN are
    false. Each test flags at most as many cells as the column has numbers; a
    numeric column that holds no number at all has no outlier, so it scores a
    full 1 in consistency and in accuracy. *)
Theorem missing_cells_are_never_outliers (L : Libs) (s : Series) :
  (forall i, series_floats s !! i = Some NaN ->
             iqr_outlier_mask s !! i = Some false
             /\ three_sigma_mask L s !! i = Some false)
  /\ (count_true (iqr_outlier_mask s) <= length (series_numbers s))%nat
  /\ (count_true (three_sigma_mask L s) <= length (series_numbers s))%nat
  /\ (series_numbers s = [] ->
      count_true (iqr_outlier_mask s) = 0%nat /\ count_true (three_sigma_mask L s) = 0%nat).
Proof.
assert (Hiqr : (count_true (iqr_outlier_mask s) <= length (series_numbers s))%nat).
{ unfold iqr_outlier_mask. apply count_flagged_le_numbers.
  by rewrite B64_ltb_nan_r. }
assert (Hsig : (count_true (three_sigma_mask L s) <= length (series_numbers s))%nat).
{ unfold three_sigma_mask. apply count_flagged_le_numbers. apply B64_ltb_nan_r. }
split; [|split; [exact Hiqr|split; [exact Hsig|]]].
- intros i Hi. apply series_cells64_missing in Hi.
  unfold iqr_outlier_mask, three_sigma_mask. rewrite !list_lookup_fmap, Hi.
  simpl. by rewrite !B64_ltb_nan_r.
- intros Hnone. rewrite Hnone in Hiqr, Hsig. simpl in *. lia.
Qed.

(** ** QualityChecker: timeliness *)

Lemma timeliness_run (L : Libs) (now : datetime) (metadata : gmap string pyval) (s : string)
  (t : datetime) :
  metadata !! "last_updated" = Some (VStr s) -> fromisoformat L s = inr (NaiveDatetime t) ->
  _check_timeliness L now metadata
  = inr (py_max0 (Fin (1 - inject_Z (timedelta_days now t) / 30))).
Proof.
intros Hmd Ht. unfold _check_timeliness. rewrite Hmd, Ht. reflexivity.
Qed.

Lemma timeliness_aware (L : Libs) (now : datetime) (metadata : gmap string pyval) (s : string)
  (t : datetime) (utcoffset : Z) :
  metadata !! "last_updated" = Some (VStr s) ->
  fromisoformat L s = inr (AwareDatetime t utcoffset) ->
  _check_timeliness L now metadata
  = inl (TypeError "can't subtract offset-naive and offset-aware datetimes").
Proof.
intros Hmd Ht. unfold _check_timeliness. rewrite Hmd, Ht. reflexivity.
Qed.

(** X13: with a [last_updated] that parses to a naive datetime,
    timeliness is max(0, 1 - days/30), where days is the age in whole days:
    it is never negative, it is exactly 0 from thirty days on, positive
    before, and at most 1 as long as the timestamp is not in the future. A
    [last_updated] that carries a UTC offset parses to an aware datetime,
    and the check raises TypeError: [datetime.now()] is naive, and a naive
    and an aware datetime cannot be subtracted. *)
Theorem timeliness_decays_over_thirty_days (L : Libs) (now : datetime)
  (metadata : gmap string pyval) (s : string) (parsed : parsed_datetime) :
  metadata !! "last_updated" = Some (VStr s) -> fromisoformat L s = inr parsed ->
  match parsed with
  | NaiveDatetime t =>
      exists q,
        _check_timeliness L now metadata = inr (Fin q)
        /\ (0 <= q)%Q
        /\ ((30 <= timedelta_days now t)%Z -> (q == 0)%Q)
        /\ ((timedelta_days now t < 30)%Z ->
            (q == 1 - inject_Z (timedelta_days now t) / 30)%Q /\ (0 < q)%Q)
        /\ ((t <= now)%Z -> (q <= 1)%Q)
  | AwareDatetime _ _ =>
      _check_timeliness L now metadata
      = inl (TypeError "can't subtract offset-naive and offset-aware datetimes")
  end.
Proof.
intros Hmd Ht. destruct parsed as [t|t utcoffset];
  [|exact (timeliness_aware L now metadata s t utcoffset Hmd Ht)].
rewrite (timeliness_run L now metadata s t Hmd Ht).
set (d := timedelta_days now t).
assert (Hdiv : (inject_Z d / 30 == inject_Z d * (1 # 30))%Q) by reflexivity.
unfold py_max0, flt, of_Z, Qltb.
destruct (Qle_bool (1 - inject_Z d / 30) (inject_Z 0)) eqn:Hle; simpl.
- apply Qle_bool_iff in Hle. change (inject_Z 0) with 0%Q in *.
  assert (H30 : (30 <= d)%Z).
  { rewrite Zle_Qle. change (inject_Z 30) with 30%Q. lra. }
  eexists. split; [reflexivity|]. split; [lra|]. split; [intros _; reflexivity|].
  split; [lia|]. intros _. lra.
- assert (Hpos : ~ (1 - inject_Z d / 30 <= inject_Z 0)%Q).
  { intros H. apply Qle_bool_iff in H. congruence. }
  change (inject_Z 0) with 0%Q in *.
  assert (H30 : (d < 30)%Z).
  { destruct (Z.lt_ge_cases d 30) as [H|H]; [exact H|]. exfalso. apply Hpos.
    rewrite Zle_Qle in H. change (inject_Z 30) with 30%Q in H. lra. }
  eexists. split; [reflexivity|]. split; [lra|]. split; [lia|].
  split; [intros _; split; [reflexivity|lra]|].
  intros Hpast. assert (Hd : (0 <= d)%Z).
  { unfold d, timedelta_days, microseconds_per_day. apply Z.div_pos; lia. }
  rewrite Zle_Qle in Hd. change (inject_Z 0) with 0%Q in Hd. lra.
Qed.

Lemma timeliness_decays_over_thirty_days_witness :
  timedelta_days Examples.new_year_2024 (19692 * microseconds_per_day)%Z = 31%Z
  /\ (exists q,
        _check_timeliness Examples.libs Examples.new_year_2024 Examples.past_metadata
        = inr (Fin q)
        /\ (q == 0)%Q)
  /\ _check_timeliness Examples.libs Examples.new_year_2024 Cases.utc_metadata
     = inl (TypeError "can't subtract offset-naive and offset-aware datetimes").
Proof.
split; [reflexivity|]. split.
- destruct (timeliness_decays_over_thirty_days Examples.libs Examples.new_year_2024
              Examples.past_metadata "2023-12-01"
              (NaiveDatetime (19692 * microseconds_per_day)%Z))
    as (q & Hrun & _ & Hold & _).
  + reflexivity.
  + reflexivity.
  + exists q. split; [exact Hrun|]. apply Hold. vm_compute. discriminate.
- apply (timeliness_decays_over_thirty_days Examples.libs Examples.new_year_2024
           Cases.utc_metadata "2023-12-01T00:00:00+00:00"
           (AwareDatetime (19692 * microseconds_per_day)%Z 0)); reflexivity.
Defined.

(** X14: every report computed from a loaded table carries the advisory
    "Update the dataset with more recent data", unless the timestamp lies in
    the future: the timeliness score, at most 1, is compared with the
    threshold 30 (a number of days). *)
Theorem report_always_advises_update (L : Libs) (now : datetime) (df : DataFrame)
  (metadata : gmap string pyval) (report : QualityReport) :
  not_dated_ahead L now metadata ->
  quality_report L now df metadata = inr report ->
  "Update the dataset with more recent data" ∈ recommendations report.
Proof.
intros Hpast H. unfold quality_report in H. unfold_result.
destruct (_check_completeness df) as [e|c]; [discriminate H|].
destruct (_check_consistency df) as [e|k]; [discriminate H|].
destruct (_check_accuracy L df) as [e|a]; [discriminate H|].
destruct (_check_timeliness L now metadata) as [e|t] eqn:Ht; [discriminate H|].
destruct (_check_format_validity df) as [e|f]; [discriminate H|].
destruct (_check_schema_compliance df metadata) as [e|s]; [discriminate H|].
destruct (weighted_sum _) as [e|overall]; [discriminate H|].
inversion H; subst; clear H. cbn [recommendations].
unfold _generate_recommendations. rewrite recommendations_from. cbn [app].
unfold advisories_below_threshold. apply list_elem_of_omap.
exists ("timeliness", t). split; [do 3 right; left|].
cbn [fst snd]. pose proof (timeliness_in_unit L now metadata t Hpast Ht) as Hunit.
destruct t as [q| | |]; try contradiction. destruct Hunit as [_ Hq].
assert (Hlt : flt (Fin q) (threshold_get "timeliness") = true).
{ change (threshold_get "timeliness") with (Fin 30). simpl. unfold Qltb.
  apply negb_true_iff. destruct (Qle_bool 30 q) eqn:Hle; [|reflexivity].
  apply Qle_bool_iff in Hle. lra. }
rewrite Hlt. reflexivity.
Qed.

Lemma report_always_advises_update_witness :
  exists report,
    quality_report Examples.libs Examples.new_year_2024 Examples.outlier_frame ∅ = inr report
    /\ "Update the dataset with more recent data" ∈ recommendations report.
Proof.
assert (Hrun : exists report,
          quality_report Examples.libs Examples.new_year_2024 Examples.outlier_frame ∅
          = inr report) by (eexists; vm_compute; reflexivity).
destruct Hrun as [report Hrun]. exists report. split; [exact Hrun|].
apply (report_always_advises_update Examples.libs Examples.new_year_2024
         Examples.outlier_frame ∅ report); [|exact Hrun].
intros s t Hs. rewrite lookup_empty in Hs. discriminate Hs.
Defined.

(** ** QualityChecker: schema compliance *)

Lemma py_len_zero_iter (v : pyval) : py_len v = inr 0%nat -> py_iter v = inr [].
Proof.
destruct v as [| | | |s|l|d]; simpl; intros H; inversion H as [Hlen].
- by destruct s.
- by destruct l.
- apply map_size_empty_iff in Hlen. subst. by rewrite map_to_list_empty.
Qed.

(** X15: a schema that is declared but empty (an empty dictionary, list or
    string) makes [_check_schema_compliance] raise ZeroDivisionError: the
    number of matching columns is divided by the length of the schema. The
    report can then not be computed, whatever the table. *)
Theorem empty_schema_raises (L : Libs) (now : datetime) (df : DataFrame)
  (metadata : gmap string pyval) (schema : pyval) :
  metadata !! "schema" = Some schema -> py_len schema = inr 0%nat ->
  _check_schema_compliance df metadata = inl (ZeroDivisionError "division by zero")
  /\ forall report, quality_report L now df metadata <> inr report.
Proof.
intros Hmd Hlen.
assert (Hs : _check_schema_compliance df metadata
             = inl (ZeroDivisionError "division by zero")).
{ unfold _check_schema_compliance. rewrite Hmd, (py_len_zero_iter schema Hlen), Hlen.
  reflexivity. }
split; [exact Hs|]. intros report H. unfold quality_report in H. unfold_result.
destruct (_check_completeness df) as [e|c]; [discriminate H|].
destruct (_check_consistency df) as [e|k]; [discriminate H|].
destruct (_check_accuracy L df) as [e|a]; [discriminate H|].
destruct (_check_timeliness L now metadata) as [e|t]; [discriminate H|].
destruct (_check_format_validity df) as [e|f]; [discriminate H|].
rewrite Hs in H. discriminate H.
Qed.

Lemma empty_schema_raises_witness :
  _check_schema_compliance Examples.id_frame Cases.empty_schema_metadata
  = inl (ZeroDivisionError "division by zero").
Proof.
apply (empty_schema_raises Examples.libs Examples.new_year_2024 Examples.id_frame
         Cases.empty_schema_metadata (VDict ∅)); reflexivity.
Defined.

Lemma schema_matches_entry (df : DataFrame) (types : gmap string pyval) (c : string)
  (t : pyval) :
  types !! c = Some t ->
  schema_column_matches df (VDict types) (VStr c) = inr (schema_entry_matches df (c, t)).
Proof.
intros Hc. unfold schema_column_matches, schema_entry_matches, py_getitem. simpl.
destruct (df_dtypes df !! c) as [actual|]; [|reflexivity]. by rewrite Hc.
Qed.

Lemma schema_count_loop (df : DataFrame) (types : gmap string pyval)
  (entries : list (string * pyval)) (n : nat) :
  (forall c t, (c, t) ∈ entries -> types !! c = Some t) ->
  for_each (fun n col => b ← schema_column_matches df (VDict types) col;
                         mret (if b : bool then S n else n))
           (map (fun kv => VStr kv.1) entries) n
  = inr (n + length (List.filter (schema_entry_matches df) entries))%nat.
Proof.
revert n. induction entries as [|[c t] entries IH]; intros n Hin; cbn [map for_each fst].
- unfold_result. cbn [List.filter length]. f_equal. lia.
- rewrite (schema_matches_entry df types c t) by (apply Hin; left). unfold_result.
  rewrite IH by (intros c' t' H'; apply Hin; by right).
  cbn [List.filter]. destruct (schema_entry_matches df (c, t)); cbn [length]; f_equal; lia.
Qed.

Lemma filter_length_full {A} (f : A -> bool) (l : list A) :
  length (List.filter f l) = length l <-> Forall (fun x => f x = true) l.
Proof.
induction l as [|x l IH]; simpl; [split; [constructor|reflexivity]|].
pose proof (List.filter_length_le f l) as Hle.
destruct (f x) eqn:Hx; simpl.
- split.
  + intros H. constructor; [exact Hx|]. apply IH. lia.
  + intros H. inversion H; subst. f_equal. by apply IH.
- split; [lia|]. intros H. inversion H; subst. congruence.
Qed.

Lemma schema_compliance_dict_run (df : DataFrame) (metadata types : gmap string pyval) :
  metadata !! "schema" = Some (VDict types) -> types <> ∅ ->
  _check_schema_compliance df metadata
  = inr (Fin (inject_Z (Z.of_nat (length (List.filter (schema_entry_matches df)
                                                      (map_to_list types))))
              / inject_Z (Z.of_nat (size types)))).
Proof.
intros Hmd Hne.
assert (Hsize : (0 < Z.of_nat (size types))%Z).
{ apply map_size_non_empty_iff in Hne. lia. }
unfold _check_schema_compliance. rewrite Hmd. cbn [py_iter py_len]. unfold_result.
rewrite (schema_count_loop df types (map_to_list types) 0)
  by (intros c t; apply elem_of_map_to_list).
cbn [Nat.add]. unfold py_truediv.
by destruct (Z.eqb_spec (Z.of_nat (size types)) 0) as [Hz|_]; [lia|].
Qed.

(** X16: for a schema given as a non-empty dictionary, schema compliance is
    the share of the schema's entries whose column exists in the table with
    the declared dtype; it is 1 exactly when every entry of the schema does,
    whatever further columns the table has. *)
Theorem schema_compliance_is_share_of_matching_entries (df : DataFrame)
  (metadata types : gmap string pyval) :
  metadata !! "schema" = Some (VDict types) -> types <> ∅ ->
  exists q,
    _check_schema_compliance df metadata = inr (Fin q)
    /\ (q == inject_Z (Z.of_nat (length (List.filter (schema_entry_matches df)
                                                      (map_to_list types))))
             / inject_Z (Z.of_nat (size types)))%Q
    /\ ((q == 1)%Q
        <-> forall c t, types !! c = Some t ->
                        exists dtype, df_dtypes df !! c = Some dtype /\ t = VStr dtype).
Proof.
intros Hmd Hne.
assert (Hsize : (0 < Z.of_nat (size types))%Z).
{ apply map_size_non_empty_iff in Hne. lia. }
rewrite (schema_compliance_dict_run df metadata types Hmd Hne).
eexists. split; [reflexivity|]. split; [reflexivity|].
rewrite Qdiv_inject_Z_one by exact Hsize.
rewrite <- (length_map_to_list types), Nat2Z.inj_iff, filter_length_full, Forall_forall.
split.
- intros Hall c t Hc. apply elem_of_map_to_list in Hc. specialize (Hall (c, t) Hc).
  unfold schema_entry_matches in Hall. cbn [fst snd] in Hall.
  destruct (df_dtypes df !! c) as [actual|]; [|discriminate Hall].
  destruct t; try discriminate Hall. apply String.eqb_eq in Hall. subst. by eexists.
- intros Hall [c t] Hin. apply elem_of_map_to_list in Hin.
  destruct (Hall c t Hin) as (dtype & Hd & ->).
  unfold schema_entry_matches. cbn [fst snd]. rewrite Hd. apply String.eqb_refl.
Qed.

Lemma schema_compliance_is_share_of_matching_entries_witness :
  exists q,
    _check_schema_compliance Examples.id_frame Cases.id_schema_metadata = inr (Fin q)
    /\ (q == 1)%Q.
Proof.
destruct (schema_compliance_is_share_of_matching_entries Examples.id_frame
            Cases.id_schema_metadata Cases.id_schema) as (q & Hrun & _ & Hone).
- reflexivity.
- apply insert_non_empty.
- exists q. split; [exact Hrun|]. apply Hone. intros c t Hc.
  unfold Cases.id_schema in Hc. apply lookup_singleton_Some in Hc as [<- <-].
  by exists "int64".
Defined.

(** ** Means of scores *)

Lemma fsum_full_iff (l : list float) (a : Q) :
  Forall in_unit l ->
  exists s, fold_left fadd l (Fin a) = Fin s
            /\ (a <= s /\ s <= a + inject_Z (Z.of_nat (length l)))%Q
            /\ ((s == a + inject_Z (Z.of_nat (length l)))%Q
                <-> Forall (fun x => feq x (of_Z 1)) l).
Proof.
intros Hl. revert a. induction Hl as [|x l Hx Hl IH]; intros a; simpl.
- exists a. split; [reflexivity|]. change (inject_Z (Z.of_nat 0)) with 0%Q.
  split; [split; lra|]. split; [constructor|intros _; ring].
- destruct x as [q| | |]; try contradiction. simpl in Hx. destruct Hx as [Hq0 Hq1].
  destruct (IH (a + q)%Q) as (s & Hs & [Hlo Hhi] & Hfull). exists s. split; [exact Hs|].
  rewrite Nat2Z.inj_succ, <- Z.add_1_r, inject_Z_plus.
  change (inject_Z 1) with 1%Q. split; [split; lra|]. split.
  + intros Heq. assert (Hq : (q == 1)%Q) by lra. constructor; [exact Hq|].
    apply Hfull. lra.
  + intros Hall. inversion Hall as [|? ? Hq Hrest]; subst. simpl in Hq.
    change (inject_Z 1) with 1%Q in Hq. apply Hfull in Hrest. lra.
Qed.

(** the mean of scores of the unit interval is 1 exactly when each is 1 *)
Lemma np_mean_one_iff (l : list float) :
  Forall in_unit l -> l <> [] ->
  exists m, np_mean l = Fin m /\ (0 <= m /\ m <= 1)%Q
            /\ ((m == 1)%Q <-> Forall (fun x => feq x (of_Z 1)) l).
Proof.
intros Hl Hne. unfold np_mean, fsum, of_nat, of_Z.
destruct (fsum_full_iff l (inject_Z 0) Hl) as (s & -> & [Hlo Hhi] & Hfull).
assert (Hn : (0 < Z.of_nat (length l))%Z) by (destruct l; [done|simpl; lia]).
unfold fdiv. rewrite Qeq_bool_inject_Z_pos by exact Hn.
assert (Hn' : (0 < inject_Z (Z.of_nat (length l)))%Q) by (unfold Qlt; simpl; lia).
change (inject_Z 0) with 0%Q in *. eexists. split; [reflexivity|]. split; [split|].
- apply Qle_shift_div_l; [exact Hn'|]. lra.
- apply Qle_shift_div_r; [exact Hn'|]. lra.
- rewrite <- Hfull. split.
  + intros H. assert (Hs : (s == s / inject_Z (Z.of_nat (length l))
                                 * inject_Z (Z.of_nat (length l)))%Q).
    { field. lra. }
    rewrite Hs, H. ring.
  + intros H. rewrite H. field. lra.
Qed.

(** ** The loops over numeric columns *)

Lemma score_loop (df : DataFrame) (mask : Series -> list bool)
  (step : list float -> string -> result (list float)) (cols : list (string * Series))
  (acc : list float) :
  (forall acc col,
     step acc col
     = (sel ← df_getitem df col;
        s ← as_series sel "dtype";
        if is_int64_or_float64 s then
          ratio ← py_truediv (Z.of_nat (count_true (mask s))) (Z.of_nat (index_len df));
          mret (acc ++ [fsub (of_Z 1) ratio])
        else mret acc)) ->
  (0 < index_len df)%nat -> NoDup (df_columns df) -> cols ⊆ columns df ->
  for_each step (map fst cols) acc
  = inr (acc ++ map (column_score mask df)
                    (filter (fun s => is_int64_or_float64 s = true) (map snd cols))).
Proof.
intros Hstep Hrows Hnd. revert acc.
induction cols as [|[name s] cols IH]; intros acc Hsub; cbn [map fst snd for_each].
- by rewrite app_nil_r.
- rewrite Hstep. rewrite (df_getitem_unique df name s Hnd) by (apply Hsub; left).
  unfold as_series, py_truediv. unfold_result. cbv beta iota.
  destruct (is_int64_or_float64 s) eqn:Hs.
  + destruct (Z.eqb_spec (Z.of_nat (index_len df)) 0) as [Hz|_]; [lia|].
    rewrite IH by (intros c Hc; apply Hsub; by right).
    rewrite filter_cons_True by exact Hs. cbn [map]. by rewrite <- app_assoc.
  + rewrite IH by (intros c Hc; apply Hsub; by right).
    by rewrite filter_cons_False by (rewrite Hs; discriminate).
Qed.

Lemma column_score_in_unit (df : DataFrame) (mask : Series -> list bool) (s : Series) :
  (0 < index_len df)%nat -> length (mask s) = index_len df ->
  in_unit (column_score mask df s).
Proof.
intros Hrows Hlen. unfold column_score. pose proof (count_true_le (mask s)).
apply one_minus_ratio_in_unit; lia.
Qed.

Lemma column_score_one_iff (df : DataFrame) (mask : Series -> list bool) (s : Series) :
  (0 < index_len df)%nat ->
  feq (column_score mask df s) (of_Z 1) <-> count_true (mask s) = 0%nat.
Proof.
intros Hrows. unfold column_score. simpl. change (inject_Z 1) with 1%Q.
set (r := (inject_Z (Z.of_nat (count_true (mask s))) / inject_Z (Z.of_nat (index_len df)))%Q).
transitivity (r == 0)%Q; [split; intros H; lra|]. unfold r.
rewrite Qdiv_inject_Z_zero by lia. lia.
Qed.

Lemma numeric_columns_wf (df : DataFrame) (s : Series) :
  frame_wf df -> s ∈ numeric_columns df -> series_len s = index_len df.
Proof.
intros Hwf Hin. unfold numeric_columns in Hin. apply list_elem_of_filter in Hin as [_ Hin].
apply list_elem_of_fmap in Hin as ([name s'] & -> & Hin).
unfold frame_wf in Hwf. rewrite Forall_forall in Hwf. by apply (Hwf (name, s')).
Qed.

(** the mean column score of a table with rows: a number of [0,1], equal to
    1 exactly when the test flags no cell of a numeric column *)
Lemma mean_column_score_one_iff (df : DataFrame) (mask : Series -> list bool) :
  frame_wf df -> (0 < index_len df)%nat ->
  (forall s, length (mask s) = series_len s) ->
  exists q, mean_column_score mask df = Fin q /\ (0 <= q /\ q <= 1)%Q
            /\ ((q == 1)%Q
                <-> Forall (fun s => count_true (mask s) = 0%nat) (numeric_columns df)).
Proof.
intros Hwf Hrows Hmask. unfold mean_column_score.
destruct (numeric_columns df) as [|s0 cols] eqn:Hnum.
- exists 1%Q. split; [reflexivity|]. split; [split; lra|]. split; [constructor|reflexivity].
- assert (Hunit : Forall in_unit (map (column_score mask df) (s0 :: cols))).
  { apply Forall_fmap, Forall_forall. intros s Hs. apply column_score_in_unit; [exact Hrows|].
    rewrite Hmask. apply numeric_columns_wf; [exact Hwf|by rewrite Hnum]. }
  destruct (np_mean_one_iff _ Hunit) as (m & Hm & Hrange & Hone); [discriminate|].
  exists m. split; [exact Hm|]. split; [exact Hrange|].
  rewrite Hone, Forall_fmap. apply Forall_iff. intros s. by apply column_score_one_iff.
Qed.

Lemma iqr_mask_length (s : Series) : length (iqr_outlier_mask s) = series_len s.
Proof. unfold iqr_outlier_mask. by rewrite length_map, series_cells64_length. Qed.

Lemma three_sigma_mask_length (L : Libs) (s : Series) :
  length (three_sigma_mask L s) = series_len s.
Proof. unfold three_sigma_mask. by rewrite length_map, series_cells64_length. Qed.

Lemma accuracy_matches_mean (L : Libs) (df : DataFrame) :
  NoDup (df_columns df) -> (0 < index_len df)%nat ->
  _check_accuracy L df = inr (mean_column_score (three_sigma_mask L) df).
Proof.
intros Hnd Hrows. unfold _check_accuracy, df_columns.
rewrite (score_loop df (three_sigma_mask L) (accuracy_step L df)
           (columns df) []); [|done..].
unfold_result. cbn [app]. unfold mean_column_score, numeric_columns.
by destruct (filter _ _).
Qed.

(** X17: on a well-formed table with distinct column names and at least
    one row, accuracy is the unweighted mean, over the int64 and float64
    columns, of 1 - flagged/rows, where a cell is flagged when its distance
    to the mean of the column, as pandas returns it, exceeds three times the
    standard deviation of the column, as pandas returns it; it is 1.0 when
    there is no such column; it lies in [0,1], and it is 1 exactly when no
    cell is flagged. *)
Theorem accuracy_is_mean_three_sigma_share (L : Libs) (df : DataFrame) :
  frame_wf df -> NoDup (df_columns df) -> (0 < index_len df)%nat ->
  exists q,
    _check_accuracy L df = inr (Fin q)
    /\ Fin q = mean_column_score (three_sigma_mask L) df
    /\ (0 <= q /\ q <= 1)%Q
    /\ ((q == 1)%Q
        <-> Forall (fun s => count_true (three_sigma_mask L s) = 0%nat)
                   (numeric_columns df))
    /\ (forall s i x,
          series_cells64 s !! i = Some x ->
          three_sigma_mask L s !! i
          = Some (B64.ltb (B64.mul (B64.of_Z 3) (series_std L s))
                          (B64.abs (B64.sub x (series_mean L s))))).
Proof.
intros Hwf Hnd Hrows. rewrite (accuracy_matches_mean L df Hnd Hrows).
destruct (mean_column_score_one_iff df (three_sigma_mask L) Hwf Hrows
            (three_sigma_mask_length L)) as (q & Hq & Hrange & Hone).
exists q. rewrite Hq. split; [reflexivity|]. split; [reflexivity|].
split; [exact Hrange|]. split; [exact Hone|].
intros s i x Hx. unfold three_sigma_mask. by rewrite list_lookup_fmap, Hx.
Qed.

Lemma accuracy_is_mean_three_sigma_share_witness :
  (exists q,
     _check_accuracy Examples.libs Cases.gaps_frame = inr (Fin q) /\ (0 <= q /\ q <= 1)%Q)
  /\ (exists q,
        _check_accuracy Examples.libs Cases.spike_frame = inr (Fin q) /\ (q == 10 # 11)%Q)
  /\ three_sigma_mask Examples.libs (Int64Col (replicate 10 0%Z ++ [100%Z]))
     = replicate 10 false ++ [true].
Proof.
split; [|split].
- destruct (accuracy_is_mean_three_sigma_share Examples.libs Cases.gaps_frame)
    as (q & Hrun & _ & Hrange & _).
  + repeat constructor.
  + names_distinct.
  + simpl. lia.
  + by exists q.
- destruct (accuracy_is_mean_three_sigma_share Examples.libs Cases.spike_frame)
    as (q & Hrun & _ & _ & _).
  + repeat constructor.
  + names_distinct.
  + simpl. lia.
  + exists q. split; [exact Hrun|].
    assert (Hvalue : _check_accuracy Examples.libs Cases.spike_frame = inr (Fin (10 # 11)))
      by (vm_compute; reflexivity).
    rewrite Hvalue in Hrun. by injection Hrun as <-.
- vm_compute. reflexivity.
Defined.

(** X18: on a well-formed table with distinct column names and at least
    one row, the consistency score is 1 exactly when the interquartile test
    flags no cell of any numeric column. *)
Theorem consistency_is_one_iff_no_outlier (df : DataFrame) :
  frame_wf df -> NoDup (df_columns df) -> (0 < index_len df)%nat ->
  exists q,
    _check_consistency df = inr (Fin q)
    /\ (0 <= q /\ q <= 1)%Q
    /\ ((q == 1)%Q
        <-> Forall (fun s => count_true (iqr_outlier_mask s) = 0%nat) (numeric_columns df)).
Proof.
intros Hwf Hnd Hrows. rewrite (consistency_matches_spec df Hnd) by (by right).
change (consistency_spec df) with (mean_column_score iqr_outlier_mask df).
destruct (mean_column_score_one_iff df iqr_outlier_mask Hwf Hrows iqr_mask_length)
  as (q & Hq & Hrange & Hone).
exists q. rewrite Hq. by repeat split; try apply Hone; try apply Hrange.
Qed.

Lemma consistency_is_one_iff_no_outlier_witness :
  exists q,
    _check_consistency Examples.outlier_frame = inr (Fin q)
    /\ ~ (q == 1)%Q
    /\ count_true (iqr_outlier_mask Examples.outlier_column) = 1%nat.
Proof.
destruct (consistency_is_one_iff_no_outlier Examples.outlier_frame)
  as (q & Hrun & _ & Hone).
- repeat constructor.
- names_distinct.
- simpl. lia.
- exists q. split; [exact Hrun|]. split; [|reflexivity].
  intros Hq. apply Hone in Hq. inversion Hq as [|s l Hs _]; subst.
  vm_compute in Hs. discriminate Hs.
Defined.

(** ** QualityChecker: format validity *)

Lemma map_snd_filter_numeric (cols : list (string * Series)) :
  map snd (filter (fun c : string * Series => is_int64_or_float64 c.2 = true) cols)
  = filter (fun s => is_int64_or_float64 s = true) (map snd cols).
Proof.
induction cols as [|[name s] cols IH]; [reflexivity|]. cbn [map snd].
destruct (is_int64_or_float64 s) eqn:Hs.
- rewrite !filter_cons_True by exact Hs. cbn [map snd]. by rewrite IH.
- by rewrite !filter_cons_False by (cbn [snd]; rewrite Hs; discriminate).
Qed.

Lemma format_loop (df : DataFrame) (cols : list (string * Series)) (acc : list float) :
  (0 < index_len df)%nat -> NoDup (df_columns df) -> cols ⊆ columns df ->
  for_each (format_step df) (map fst cols) acc
  = inr (acc ++ map (column_score series_isnull df) (map snd cols)).
Proof.
intros Hrows Hnd. revert acc.
induction cols as [|[name s] cols IH]; intros acc Hsub; cbn [map fst snd for_each].
- by rewrite app_nil_r.
- assert (Hstep : format_step df acc name = inr (acc ++ [column_score series_isnull df s])).
  { unfold format_step. rewrite (df_getitem_unique df name s Hnd) by (apply Hsub; left).
    unfold_result. by rewrite np_truediv_pos by lia. }
  rewrite Hstep. unfold_result.
  rewrite IH by (intros c Hc; apply Hsub; by right). by rewrite <- app_assoc.
Qed.

Lemma format_validity_matches_mean (df : DataFrame) :
  NoDup (df_columns df) -> (0 < index_len df)%nat ->
  _check_format_validity df = inr (mean_column_score series_isnull df).
Proof.
intros Hnd Hrows. unfold _check_format_validity, numeric_column_names.
rewrite (format_loop df _ [] Hrows Hnd) by (intros c Hc; by apply list_elem_of_filter in Hc as [_ Hc]).
unfold try_except. unfold_result. cbn [app].
unfold mean_column_score, numeric_columns. rewrite map_snd_filter_numeric.
by destruct (filter _ _).
Qed.

(** X19: [_check_format_validity] never raises; on a well-formed table with
    distinct column names and at least one row it is the mean, over the
    int64 and float64 columns, of the share of cells that are not missing:
    a number of [0,1] that is 1 exactly when no numeric column has a missing
    cell. Columns of other dtypes, object columns included, do not enter the
    score. *)
Theorem format_validity_is_numeric_completeness (df : DataFrame) :
  frame_wf df -> NoDup (df_columns df) -> (0 < index_len df)%nat ->
  (forall table, exists x, _check_format_validity table = inr x)
  /\ exists q,
       _check_format_validity df = inr (Fin q)
       /\ Fin q = mean_column_score series_isnull df
       /\ (0 <= q /\ q <= 1)%Q
       /\ ((q == 1)%Q
           <-> Forall (fun s => count_true (series_isnull s) = 0%nat) (numeric_columns df)).
Proof.
intros Hwf Hnd Hrows. split.
- intros table. unfold _check_format_validity, try_except. unfold_result.
  destruct (for_each _ _ _); by eexists.
- rewrite (format_validity_matches_mean df Hnd Hrows).
  destruct (mean_column_score_one_iff df series_isnull Hwf Hrows (fun s => eq_refl))
    as (q & Hq & Hrange & Hone).
  exists q. rewrite Hq. by repeat split; try apply Hone; try apply Hrange.
Qed.

Lemma format_validity_is_numeric_completeness_witness :
  exists q,
    _check_format_validity Cases.gaps_frame = inr (Fin q)
    /\ (q == 0.75)%Q.
Proof.
destruct (format_validity_is_numeric_completeness Cases.gaps_frame)
  as (_ & q & Hrun & Hmean & _).
- repeat constructor.
- names_distinct.
- simpl. lia.
- exists q. split; [exact Hrun|].
  vm_compute in Hmean. injection Hmean as ->. reflexivity.
Defined.

(** ** DatasetAnalytics and QualityChecker: the two outlier checks *)

Lemma scores_by_column_cons (df : DataFrame) (mask : Series -> list bool) (c : string * Series)
  (cols : list (string * Series)) (d : gmap string float) :
  scores_by_column mask df (c :: cols) d
  = scores_by_column mask df cols
      (if is_int64_or_float64 c.2 then <[c.1 := column_score mask df c.2]> d else d).
Proof. reflexivity. Qed.

(** the dictionary a loop of DatasetAnalytics builds over [cols] *)
Lemma entry_loop (df : DataFrame) (mask : Series -> list bool)
  (step : gmap string float -> string -> result (gmap string float))
  (cols : list (string * Series)) (d : gmap string float) :
  (forall d col,
     step d col
     = (sel ← df_getitem df col;
        s ← as_series sel "dtype";
        if is_int64_or_float64 s then
          ratio ← py_truediv (Z.of_nat (count_true (mask s))) (Z.of_nat (index_len df));
          mret (<[col := fsub (of_Z 1) ratio]> d)
        else mret d)) ->
  (0 < index_len df)%nat -> NoDup (df_columns df) -> cols ⊆ columns df ->
  for_each step (map fst cols) d = inr (scores_by_column mask df cols d).
Proof.
intros Hstep Hrows Hnd. revert d.
induction cols as [|[name s] cols IH]; intros d Hsub; cbn [map fst snd for_each]; [done|].
rewrite Hstep. rewrite (df_getitem_unique df name s Hnd) by (apply Hsub; left).
unfold as_series, py_truediv. unfold_result. cbv beta iota.
rewrite scores_by_column_cons. cbn [fst snd].
destruct (is_int64_or_float64 s) eqn:Hs.
- destruct (Z.eqb_spec (Z.of_nat (index_len df)) 0) as [Hz|_]; [lia|].
  by rewrite IH by (intros c Hc; apply Hsub; by right).
- by rewrite IH by (intros c Hc; apply Hsub; by right).
Qed.

Lemma scores_by_column_absent (df : DataFrame) (mask : Series -> list bool)
  (cols : list (string * Series)) (d : gmap string float) (name : string) :
  name ∉ map fst cols -> scores_by_column mask df cols d !! name = d !! name.
Proof.
revert d. induction cols as [|[n s] cols IH]; intros d Hname; [reflexivity|].
rewrite scores_by_column_cons. cbn [fst snd].
cbn [map fst] in Hname. apply not_elem_of_cons in Hname as [Hne Hname].
rewrite IH by exact Hname. destruct (is_int64_or_float64 s); [|reflexivity].
by rewrite lookup_insert_ne.
Qed.

Lemma scores_by_column_lookup (df : DataFrame) (mask : Series -> list bool)
  (cols : list (string * Series)) (d : gmap string float) (name : string) (s : Series) :
  NoDup (map fst cols) -> (name, s) ∈ cols ->
  scores_by_column mask df cols d !! name
  = if is_int64_or_float64 s then Some (column_score mask df s) else d !! name.
Proof.
revert d. induction cols as [|[n s'] cols IH]; intros d Hnd Hin.
- by apply elem_of_nil in Hin.
- cbn [map fst] in Hnd. apply NoDup_cons in Hnd as [Hfresh Hnd].
  rewrite scores_by_column_cons. cbn [fst snd].
  apply elem_of_cons in Hin as [Hin|Hin].
  + inversion Hin; subst. rewrite scores_by_column_absent by exact Hfresh.
    destruct (is_int64_or_float64 s'); [apply lookup_insert_eq|reflexivity].
  + rewrite (IH _ Hnd Hin). destruct (is_int64_or_float64 s) eqn:Hs; [reflexivity|].
    destruct (is_int64_or_float64 s'); [|reflexivity].
    rewrite lookup_insert_ne; [reflexivity|]. intros ->. apply Hfresh.
    apply list_elem_of_fmap. by exists (name, s).
Qed.

(** reading the dictionary at the numeric column names gives back the
    column scores, in table order *)
Lemma scores_at_numeric_names (df : DataFrame) (mask : Series -> list bool)
  (d : gmap string float) :
  NoDup (df_columns df) ->
  (forall name s, (name, s) ∈ columns df ->
                  d !! name = if is_int64_or_float64 s then Some (column_score mask df s)
                              else None) ->
  omap (fun name => d !! name) (numeric_column_names df)
  = map (column_score mask df) (numeric_columns df).
Proof.
intros _ Hd. unfold numeric_column_names, numeric_columns.
rewrite <- map_snd_filter_numeric.
assert (Hsub : filter (fun c : string * Series => is_int64_or_float64 c.2 = true) (columns df)
               ⊆ filter (fun c : string * Series => is_int64_or_float64 c.2 = true)
                   (columns df)) by done.
revert Hsub. generalize (filter (fun c : string * Series => is_int64_or_float64 c.2 = true)
                           (columns df)) at 1 3 4.
intros cols. induction cols as [|[name s] cols IH]; intros Hsub; [reflexivity|].
assert (Hin : (name, s) ∈ filter (fun c : string * Series => is_int64_or_float64 c.2 = true)
                            (columns df)) by (apply Hsub; left).
apply list_elem_of_filter in Hin as [Hs Hin]. cbn [snd] in Hs.
cbn [map fst snd]. change (omap ?f (?x :: ?l)) with (match f x with Some y => y :: omap f l | None => omap f l end).
cbv beta. rewrite (Hd name s Hin), Hs. f_equal. apply IH. intros c Hc. apply Hsub. by right.
Qed.

Lemma analytics_dictionary (df : DataFrame) (mask : Series -> list bool)
  (step : gmap string float -> string -> result (gmap string float)) :
  (forall d col,
     step d col
     = (sel ← df_getitem df col;
        s ← as_series sel "dtype";
        if is_int64_or_float64 s then
          ratio ← py_truediv (Z.of_nat (count_true (mask s))) (Z.of_nat (index_len df));
          mret (<[col := fsub (of_Z 1) ratio]> d)
        else mret d)) ->
  NoDup (df_columns df) -> (0 < index_len df)%nat ->
  exists d,
    for_each step (df_columns df) ∅ = inr d
    /\ (forall name s, (name, s) ∈ columns df ->
                       d !! name = if is_int64_or_float64 s
                                   then Some (column_score mask df s) else None)
    /\ (forall name, name ∉ df_columns df -> d !! name = None)
    /\ mean_column_score mask df
       = match numeric_column_names df with
         | [] => of_Z 1
         | names => np_mean (omap (fun name => d !! name) names)
         end.
Proof.
intros Hstep Hnd Hrows. exists (scores_by_column mask df (columns df) ∅).
split; [unfold df_columns; by apply entry_loop|].
assert (Hlook : forall name s, (name, s) ∈ columns df ->
          scores_by_column mask df (columns df) ∅ !! name
          = if is_int64_or_float64 s then Some (column_score mask df s) else None).
{ intros name s Hin. by rewrite (scores_by_column_lookup df mask (columns df) ∅ name s Hnd Hin). }
split; [exact Hlook|]. split.
- intros name Hname. by rewrite scores_by_column_absent.
- pose proof (scores_at_numeric_names df mask _ Hnd Hlook) as Hsc.
  unfold mean_column_score, numeric_column_names, numeric_columns in *.
  rewrite <- map_snd_filter_numeric in *.
  destruct (filter _ (columns df)) as [|c l]; [reflexivity|].
  cbn [map] in *. by rewrite Hsc.
Qed.

(** X20: the consistency of QualityChecker is the mean of the dictionary of
    DatasetAnalytics: on a table with distinct column names and at least one
    row, [DatasetAnalytics._check_consistency] returns a dictionary that
    holds, under the name of each int64 or float64 column and of no other,
    the score 1 - outliers/rows of that column; [QualityChecker._check_consistency]
    returns the mean of its values taken in table order, or 1.0 when it is
    empty. *)
Theorem checker_consistency_is_mean_of_analytics (df : DataFrame) :
  NoDup (df_columns df) -> (0 < index_len df)%nat ->
  exists d,
    DatasetAnalytics._check_consistency df = inr d
    /\ (forall name s, (name, s) ∈ columns df ->
                       d !! name = if is_int64_or_float64 s
                                   then Some (column_consistency df s) else None)
    /\ (forall name, name ∉ df_columns df -> d !! name = None)
    /\ _check_consistency df
       = inr (match numeric_column_names df with
              | [] => of_Z 1
              | names => np_mean (omap (fun name => d !! name) names)
              end).
Proof.
intros Hnd Hrows.
destruct (analytics_dictionary df iqr_outlier_mask (DatasetAnalytics.consistency_entry df))
  as (d & Hrun & Hlook & Habsent & Hmean); [done..|].
exists d. split; [exact Hrun|]. split; [exact Hlook|]. split; [exact Habsent|].
rewrite (consistency_matches_spec df Hnd) by (by right).
change (consistency_spec df) with (mean_column_score iqr_outlier_mask df). by rewrite Hmean.
Qed.

Lemma checker_consistency_is_mean_of_analytics_witness :
  exists d,
    DatasetAnalytics._check_consistency Cases.gaps_frame = inr d
    /\ d !! "price" = Some (column_consistency Cases.gaps_frame
                              (Float64Col [Some 1%Q; None; Some 3%Q; Some 4%Q]))
    /\ d !! "label" = None
    /\ _check_consistency Cases.gaps_frame = inr (np_mean (omap (fun name => d !! name) ["price"])).
Proof.
destruct (checker_consistency_is_mean_of_analytics Cases.gaps_frame)
  as (d & Hrun & Hlook & _ & Hmean).
- names_distinct.
- simpl. lia.
- exists d. split; [exact Hrun|]. split.
  + apply (Hlook "price" (Float64Col [Some 1%Q; None; Some 3%Q; Some 4%Q])). left.
  + split; [|exact Hmean].
    apply (Hlook "label" (ObjectCol [Some "a"; None; Some "c"; Some "d"])). right. left.
Defined.

(** X21: the same for accuracy: [DatasetAnalytics._check_accuracy] returns
    the dictionary of the column scores 1 - flagged/rows under the
    three-sigma test, and [QualityChecker._check_accuracy] the mean of its
    values, or 1.0 when it is empty. *)
Theorem checker_accuracy_is_mean_of_analytics (L : Libs) (df : DataFrame) :
  NoDup (df_columns df) -> (0 < index_len df)%nat ->
  exists d,
    DatasetAnalytics._check_accuracy L df = inr d
    /\ (forall name s, (name, s) ∈ columns df ->
                       d !! name = if is_int64_or_float64 s
                                   then Some (column_score (three_sigma_mask L) df s)
                                   else None)
    /\ (forall name, name ∉ df_columns df -> d !! name = None)
    /\ _check_accuracy L df
       = inr (match numeric_column_names df with
              | [] => of_Z 1
              | names => np_mean (omap (fun name => d !! name) names)
              end).
Proof.
intros Hnd Hrows.
destruct (analytics_dictionary df (three_sigma_mask L)
            (DatasetAnalytics.accuracy_entry L df))
  as (d & Hrun & Hlook & Habsent & Hmean); [done..|].
exists d. split; [exact Hrun|]. split; [exact Hlook|]. split; [exact Habsent|].
by rewrite (accuracy_matches_mean L df Hnd Hrows), Hmean.
Qed.

Lemma checker_accuracy_is_mean_of_analytics_witness :
  exists d,
    DatasetAnalytics._check_accuracy Examples.libs Cases.gaps_frame = inr d
    /\ d !! "label" = None
    /\ _check_accuracy Examples.libs Cases.gaps_frame
       = inr (np_mean (omap (fun name => d !! name) ["price"])).
Proof.
destruct (checker_accuracy_is_mean_of_analytics Examples.libs Cases.gaps_frame)
  as (d & Hrun & Hlook & _ & Hmean).
- names_distinct.
- simpl. lia.
- exists d. split; [exact Hrun|]. split; [|exact Hmean].
  apply (Hlook "label" (ObjectCol [Some "a"; None; Some "c"; Some "d"])). right. left.
Defined.

(** the two loops fail together *)
Lemma loops_raise_alike (df : DataFrame) (mask : Series -> list bool)
  (step1 : list float -> string -> result (list float))
  (step2 : gmap string float -> string -> result (gmap string float))
  (cols : list string) (acc : list float) (d : gmap string float) (e : exn) :
  (forall acc col,
     step1 acc col
     = (sel ← df_getitem df col;
        s ← as_series sel "dtype";
        if is_int64_or_float64 s then
          ratio ← py_truediv (Z.of_nat (count_true (mask s))) (Z.of_nat (index_len df));
          mret (acc ++ [fsub (of_Z 1) ratio])
        else mret acc)) ->
  (forall d col,
     step2 d col
     = (sel ← df_getitem df col;
        s ← as_series sel "dtype";
        if is_int64_or_float64 s then
          ratio ← py_truediv (Z.of_nat (count_true (mask s))) (Z.of_nat (index_len df));
          mret (<[col := fsub (of_Z 1) ratio]> d)
        else mret d)) ->
  for_each step1 cols acc = inl e <-> for_each step2 cols d = inl e.
Proof.
intros H1 H2. revert acc d. induction cols as [|col cols IH]; intros acc d; cbn [for_each].
- unfold_result. split; discriminate.
- rewrite H1, H2. unfold_result.
  destruct (df_getitem df col) as [e1|sel];
    [split; intros H; injection H as ->; reflexivity|].
  destruct (as_series sel "dtype") as [e1|s];
    [split; intros H; injection H as ->; reflexivity|].
  destruct (is_int64_or_float64 s); [|apply IH].
  destruct (py_truediv _ _) as [e1|ratio];
    [split; intros H; injection H as ->; reflexivity|apply IH].
Qed.

(** X22: on every table the outlier checks of DatasetAnalytics and of
    QualityChecker raise in the same cases, with the same exception: a
    column name borne by several columns (AttributeError), a numeric column
    of a table without rows (ZeroDivisionError). *)
Theorem analytics_and_checker_raise_alike (L : Libs) (df : DataFrame) (e : exn) :
  (_check_consistency df = inl e <-> DatasetAnalytics._check_consistency df = inl e)
  /\ (_check_accuracy L df = inl e <-> DatasetAnalytics._check_accuracy L df = inl e).
Proof.
split.
- unfold _check_consistency, DatasetAnalytics._check_consistency.
  rewrite <- (loops_raise_alike df iqr_outlier_mask (consistency_step df)
                (DatasetAnalytics.consistency_entry df) (df_columns df) [] ∅ e) by done.
  unfold_result. destruct (for_each _ _ _);
    [split; intros H; injection H as ->; reflexivity|split; discriminate].
- unfold _check_accuracy, DatasetAnalytics._check_accuracy.
  rewrite <- (loops_raise_alike df (three_sigma_mask L) (accuracy_step L df)
                (DatasetAnalytics.accuracy_entry L df) (df_columns df) [] ∅ e)
    by done.
  unfold_result. destruct (for_each _ _ _);
    [split; intros H; injection H as ->; reflexivity|split; discriminate].
Qed.

(** ** DataValidator: what decides the verdict *)

(** the checks on the table do not read the declared format *)
Lemma validation_checks_format (df : DataFrame) (metadata : gmap string pyval) (v : pyval) :
  validation_checks df (<["format" := v]> metadata) = validation_checks df metadata.
Proof. unfold validation_checks. by rewrite !lookup_insert_ne by discriminate. Qed.

(** X23: the declared format is matched without regard to case: two
    metadata dictionaries that differ only in the case of the letters of
    [format] get the same verdict on every file. *)
Theorem validate_dataset_ignores_format_case (L : Libs) (files : gmap string bytes)
  (file_path : string) (metadata : gmap string pyval) (format format' : string) :
  str_lower format = str_lower format' ->
  validate_dataset L files file_path (<["format" := VStr format]> metadata)
  = validate_dataset L files file_path (<["format" := VStr format']> metadata).
Proof.
intros Hcase.
rewrite (validate_dataset_run L files file_path _ format)
  by (right; apply lookup_insert_eq).
rewrite (validate_dataset_run L files file_path _ format')
  by (right; apply lookup_insert_eq).
rewrite Hcase. unfold_result.
destruct (read_file_with _ _ _) as [e|df]; [reflexivity|].
by rewrite !validation_checks_format.
Qed.

Lemma validate_dataset_ignores_format_case_witness :
  validate_dataset Examples.libs Cases.table_files "ids.csv"
    (<["format" := VStr "CSV"]> Cases.id_required)
  = validate_dataset Examples.libs Cases.table_files "ids.csv"
      (<["format" := VStr "csv"]> Cases.id_required).
Proof.
apply (validate_dataset_ignores_format_case Examples.libs Cases.table_files "ids.csv"
         Cases.id_required "CSV" "csv"). reflexivity.
Defined.

(** X24: for a declared format that is a string or is absent,
    [validate_dataset] answers False, and raises nothing, when the file does
    not exist, when the pandas reader raises on it, and when the table read
    is empty. *)
Theorem validate_dataset_rejects_unreadable (L : Libs) (files : gmap string bytes)
  (file_path : string) (metadata : gmap string pyval) (format : string) :
  declared_format metadata format ->
  (files !! file_path = None \/
   exists content,
     files !! file_path = Some content
     /\ ((exists e, reader_for L (str_lower format) content = inl e)
         \/ exists df, reader_for L (str_lower format) content = inr df
                       /\ df_empty df = true)) ->
  validate_dataset L files file_path metadata = inr false.
Proof.
intros Hformat Hfile. rewrite (validate_dataset_run L files file_path metadata format Hformat).
destruct (bool_decide _); [|reflexivity]. unfold read_file_with. unfold_result.
destruct Hfile as [->|(content & -> & [[e ->]|(df & -> & Hempty)])]; try reflexivity.
unfold validation_checks. by rewrite Hempty.
Qed.

Lemma validate_dataset_rejects_unreadable_witness :
  validate_dataset Examples.libs Cases.table_files "missing.csv"
    (<["format" := VStr "csv"]> Cases.id_required)
  = inr false.
Proof.
apply (validate_dataset_rejects_unreadable Examples.libs Cases.table_files "missing.csv"
         (<["format" := VStr "csv"]> Cases.id_required) "csv").
- right. reflexivity.
- left. reflexivity.
Defined.

Lemma py_all_intro {A} (f : A -> result bool) (xs : list A) :
  Forall (fun x => f x = inr true) xs -> py_all f xs = inr true.
Proof.
induction 1 as [|x xs Hx _ IH]; [reflexivity|]. cbn [py_all]. rewrite Hx. exact IH.
Qed.

Lemma columns_elem_of (df : DataFrame) (col : string) :
  col ∈ df_columns df -> exists s, (col, s) ∈ columns df.
Proof.
unfold df_columns. intros Hin. apply list_elem_of_fmap in Hin as ([n s] & -> & Hin).
by exists s.
Qed.

(** X25: [validate_dataset] answers True on every conforming input: the
    format is supported, the file is read into a table that is not empty
    and has distinct column names, every required column is a column of the
    table, and every column of the table that [column_types] names bears the
    declared dtype. With the converse that holds of every True verdict, this
    says exactly when a dataset is accepted. *)
Theorem validate_dataset_accepts_conforming (L : Libs) (files : gmap string bytes)
  (file_path : string) (metadata : gmap string pyval) (format : string) (content : bytes)
  (df : DataFrame) (required : list string) (types : gmap string pyval) :
  declared_format metadata format ->
  str_lower format ∈ supported_formats ->
  files !! file_path = Some content ->
  reader_for L (str_lower format) content = inr df ->
  df_empty df = false ->
  NoDup (df_columns df) ->
  default (VList []) (metadata !! "required_columns") = VList (map VStr required) ->
  default (VDict ∅) (metadata !! "column_types") = VDict types ->
  (forall col, col ∈ required -> col ∈ df_columns df) ->
  (forall col declared s,
     types !! col = Some declared -> (col, s) ∈ columns df ->
     declared = VStr (series_dtype s)) ->
  validate_dataset L files file_path metadata = inr true.
Proof.
intros Hformat Hsup Hfile Hread Hempty Hnd Hreq Htypes Hpresent Htyped.
rewrite (validate_dataset_run L files file_path metadata format Hformat).
rewrite bool_decide_eq_true_2 by exact Hsup.
unfold read_file_with. rewrite Hfile, Hread. unfold_result.
unfold validation_checks. rewrite Hempty, Hreq, Htypes. cbn [py_iter py_items]. unfold_result.
rewrite py_all_intro.
- cbn [negb]. rewrite py_all_intro; [reflexivity|].
  apply Forall_forall. intros [col declared] Hin. apply elem_of_map_to_list in Hin.
  unfold column_type_ok. cbn [fst snd].
  destruct (bool_decide (col ∈ df_columns df)) eqn:Hcol; [|reflexivity].
  apply bool_decide_eq_true_1 in Hcol. destruct (columns_elem_of df col Hcol) as [s Hs].
  rewrite (df_getitem_unique df col s Hnd Hs). unfold as_series. unfold_result.
  rewrite (Htyped col declared s Hin Hs). by rewrite String.eqb_refl.
- apply Forall_fmap, Forall_forall. intros col Hin. simpl.
  by rewrite bool_decide_eq_true_2 by (by apply Hpresent).
Qed.

Lemma validate_dataset_accepts_conforming_witness :
  validate_dataset Examples.libs Cases.table_files "ids.csv"
    (<["format" := VStr "csv"]> Cases.id_required)
  = inr true.
Proof.
apply (validate_dataset_accepts_conforming Examples.libs Cases.table_files "ids.csv"
         (<["format" := VStr "csv"]> Cases.id_required) "csv" [] Examples.id_frame ["id"] ∅).
- right. reflexivity.
- left.
- reflexivity.
- reflexivity.
- reflexivity.
- names_distinct.
- reflexivity.
- reflexivity.
- intros col Hcol. apply elem_of_cons in Hcol as [->|Hcol]; [left|by apply elem_of_nil in Hcol].
- intros col declared s Hcol. rewrite lookup_empty in Hcol. discriminate Hcol.
Defined.

(** ** QualityChecker: when a report is computed *)

(** X26: the computation of the report succeeds on every table with
    distinct column names and at least one row, provided that
    [last_updated] is absent or a string that parses to a naive datetime,
    and that [schema] is absent or a non-empty dictionary; nothing else in
    the table or in the metadata can make it raise. *)
Theorem quality_report_is_computed (L : Libs) (now : datetime) (df : DataFrame)
  (metadata : gmap string pyval) :
  NoDup (df_columns df) -> (0 < index_len df)%nat ->
  (metadata !! "last_updated" = None
   \/ exists s t, metadata !! "last_updated" = Some (VStr s)
                  /\ fromisoformat L s = inr (NaiveDatetime t)) ->
  (metadata !! "schema" = None
   \/ exists types, metadata !! "schema" = Some (VDict types) /\ types <> ∅) ->
  exists report,
    quality_report L now df metadata = inr report
    /\ map fst (detailed_scores report) = metric_names
    /\ (("consistency", consistency_spec df) ∈ detailed_scores report)
    /\ (("accuracy", mean_column_score (three_sigma_mask L) df)
        ∈ detailed_scores report)
    /\ (("format_validity", mean_column_score series_isnull df) ∈ detailed_scores report).
Proof.
intros Hnd Hrows Hdate Hschema. unfold quality_report.
rewrite (consistency_matches_spec df Hnd) by (by right).
rewrite (accuracy_matches_mean L df Hnd Hrows).
rewrite (format_validity_matches_mean df Hnd Hrows).
assert (Ht : exists t, _check_timeliness L now metadata = inr t).
{ destruct Hdate as [Hnone|(s & t & Hs & Ht)].
  - unfold _check_timeliness. rewrite Hnone. by eexists.
  - rewrite (timeliness_run L now metadata s t Hs Ht). by eexists. }
assert (Hs : exists c, _check_schema_compliance df metadata = inr c).
{ destruct Hschema as [Hnone|(types & Hsome & Hne)].
  - unfold _check_schema_compliance. rewrite Hnone. by eexists.
  - rewrite (schema_compliance_dict_run df metadata types Hsome Hne). by eexists. }
destruct Ht as [t ->], Hs as [c ->]. unfold _check_completeness. unfold_result.
cbv beta iota zeta. rewrite weighted_sum_six. eexists. split; [reflexivity|]. cbn [detailed_scores].
split; [reflexivity|]. split; [right; left|]. split; [do 2 right; left|do 4 right; left].
Qed.

Lemma quality_report_is_computed_witness :
  exists report,
    quality_report Examples.libs Examples.new_year_2024 Cases.gaps_frame
      Examples.past_metadata = inr report
    /\ map fst (detailed_scores report) = metric_names.
Proof.
destruct (quality_report_is_computed Examples.libs Examples.new_year_2024 Cases.gaps_frame
            Examples.past_metadata) as (report & Hrun & Hnames & _).
- names_distinct.
- simpl. lia.
- right. exists "2023-12-01", (19692 * microseconds_per_day)%Z. split; reflexivity.
- left. reflexivity.
- by exists report.
Defined.

(** ** DataManager: what an upload changes, what a retrieval needs *)

(** X27: [upload_dataset] on an existing file adds and never removes: the
    IPFS node gains the stored blob and the record that points to it, and
    nothing else there changes. With a non-empty password the blob is the
    token, and the local file [file_path + '.encrypted'] that holds it stays
    on disk after the call, beside the untouched plaintext; without one the
    blob is the plaintext and the local file system is as before. The salt
    of the instance is never changed. *)
Theorem upload_dataset_only_adds (L : Libs) (w : World) (file_path : string) (data : bytes)
  (metadata : gmap string pyval) (password : option string) :
  fs w !! file_path = Some data ->
  exists res metadata' w' blob,
    upload_dataset L file_path metadata password w = (inr (res, metadata'), w')
    /\ ipfs_files w' = <[ipfs_hash res := blob]> (ipfs_files w)
    /\ ipfs_json w'
       = <[metadata_hash res := metadata_obj (file_hash res) (ipfs_hash res) metadata']>
           (ipfs_json w)
    /\ salt w' = salt w
    /\ fs w' !! file_path = Some data
    /\ (if password_given password
        then fs w' = <[file_path +:+ ".encrypted" := blob]> (fs w)
             /\ exists pw, password = Some pw /\ blob = upload_token L w pw data
        else fs w' = fs w /\ blob = data).
Proof.
intros Hfile. destruct (password_given_cases password) as [(Hgiven & pw & -> & Hpw)|Hgiven].
- rewrite Hgiven. eexists _, _, _, _. split; [by apply upload_encrypted_run|].
  cbn [ipfs_hash metadata_hash file_hash world_after_upload world_after_encrypt
       ipfs_files ipfs_json fs salt set_fs set_os_drawn set_ipfs_files set_ipfs_json].
  split; [reflexivity|]. split; [reflexivity|]. split; [reflexivity|]. split.
  + rewrite lookup_insert_ne; [exact Hfile|]. apply str_app_neq. discriminate.
  + split; [reflexivity|]. by exists pw.
- rewrite Hgiven. eexists _, _, _, _. split; [by apply upload_plain_run|].
  cbn [ipfs_hash metadata_hash file_hash world_after_upload
       ipfs_files ipfs_json fs salt set_ipfs_files set_ipfs_json].
  by repeat split.
Qed.

Lemma upload_dataset_only_adds_witness :
  exists res metadata' w' blob,
    upload_dataset Examples.libs "data.bin" ∅ (Some "secret") Examples.world
    = (inr (res, metadata'), w')
    /\ ipfs_files w' = <[ipfs_hash res := blob]> (ipfs_files Examples.world)
    /\ fs w' = <["data.bin.encrypted" := blob]> (fs Examples.world)
    /\ fs w' !! "data.bin" = Some Examples.ten_bytes.
Proof.
destruct (upload_dataset_only_adds Examples.libs Examples.world "data.bin" Examples.ten_bytes
            ∅ (Some "secret") eq_refl)
  as (res & metadata' & w' & blob & Hup & Hfiles & _ & _ & Hplain & Hfs & _).
exists res, metadata', w', blob. by repeat split.
Defined.

(** X28: what [retrieve_dataset] needs of the stored document. An unknown
    metadata hash and a record without [ipfs_hash] fail before anything is
    downloaded (the second with KeyError). A record that carries
    [encrypted] = True at its top but no [salt] fails with KeyError once a
    non-empty password is given, after the blob was downloaded: the
    downloaded file stays on disk. *)
Theorem retrieve_dataset_missing_keys (L : Libs) (w : World) (cid : string)
  (password : option string) :
  match ipfs_json w !! cid with
  | None => exists e, retrieve_dataset L cid password w = (inl e, w)
  | Some (VDict record) =>
      match record !! "ipfs_hash" with
      | None => retrieve_dataset L cid password w = (inl (KeyError "'ipfs_hash'"), w)
      | Some (VStr blob_cid) =>
          forall blob,
            ipfs_files w !! blob_cid = Some blob ->
            record !! "encrypted" = Some (VBool true) -> record !! "salt" = None ->
            password_given password = true ->
            retrieve_dataset L cid password w
            = (inl (KeyError "'salt'"),
               set_fs (<[ipfs_download_path L blob_cid := blob]> (fs w)) w)
      | Some _ => exists e, retrieve_dataset L cid password w = (inl e, w)
      end
  | Some _ => exists e, retrieve_dataset L cid password w = (inl e, w)
  end.
Proof.
unfold retrieve_dataset. unfold_M. unfold ipfs_get_json.
destruct (ipfs_json w !! cid) as [doc|]; [|by eexists].
destruct doc as [| | | | | |record]; try (by eexists).
unfold py_getitem. destruct (record !! "ipfs_hash") as [v|]; [|reflexivity].
destruct v as [| | | |blob_cid| |]; try (by eexists).
intros blob Hblob Hflag Hsalt Hgiven. unfold_result. unfold ipfs_get. rewrite Hblob.
unfold py_get. rewrite Hflag. cbn [default]. unfold_result.
destruct password as [pw|]; [|discriminate Hgiven]. rewrite Hgiven. cbn [truthy andb].
by rewrite Hsalt.
Qed.

(** ** DataManager: the body of the search *)

Lemma collect_step_run (contract : Contract) (acc found : list DatasetInfo) (i : Z)
  (w w' : World) :
  collect_step contract acc i w = (inr found, w') ->
  w' = w
  /\ (found = acc
      \/ exists d, found = acc ++ [d] /\ info_id d = i /\ reflects_listing contract d).
Proof.
unfold collect_step. unfold_M. destruct (datasets contract i) as [e|listing] eqn:Hlisting;
  [discriminate|].
destruct (listing_active listing) eqn:Hactive.
- unfold ipfs_get_json. destruct (ipfs_json w !! listing_metadata_hash listing) as [doc|];
    [|discriminate].
  destruct (py_getitem doc "metadata") as [e|inner]; [discriminate|].
  intros H. inversion H; subst. split; [reflexivity|]. right. eexists. split; [reflexivity|].
  split; [reflexivity|]. exists listing. cbn. by repeat split.
- intros H. inversion H; subst. split; [reflexivity|]. by left.
Qed.

Lemma collect_loop (contract : Contract) (ids : list Z) (acc found : list DatasetInfo)
  (w w' : World) :
  for_each_M (collect_step contract) ids acc w = (inr found, w') ->
  w' = w
  /\ exists new, found = acc ++ new
                 /\ map info_id new `sublist_of` ids
                 /\ Forall (reflects_listing contract) new.
Proof.
revert acc w. induction ids as [|i ids IH]; intros acc w; cbn [for_each_M].
- unfold_M. intros H. inversion H; subst. split; [reflexivity|]. exists [].
  split; [by rewrite app_nil_r|]. split; [constructor|constructor].
- unfold mbind, M_bind.
  destruct (collect_step contract acc i w) as [[e|acc'] w1] eqn:Hstep; [discriminate|].
  apply collect_step_run in Hstep as [-> Hacc]. intros Hrest.
  apply IH in Hrest as [-> (new & -> & Hsub & Hall)]. split; [reflexivity|].
  destruct Hacc as [->|(d & -> & Hid & Hd)].
  + exists new. split; [reflexivity|]. split; [by apply sublist_cons|exact Hall].
  + exists (d :: new). split; [by rewrite <- app_assoc|].
    split; [cbn [map]; rewrite Hid; by apply sublist_skip|by constructor].
Qed.

Lemma py_filter_kept {A} (cond : A -> result bool) (xs ys : list A) :
  py_filter cond xs = inr ys ->
  ys `sublist_of` xs /\ Forall (fun x => cond x = inr true) ys.
Proof.
revert ys. induction xs as [|x xs IH]; intros ys; cbn [py_filter]; unfold_result.
- intros H. inversion H; subst. split; constructor.
- destruct (cond x) as [e|b] eqn:Hx; [discriminate|].
  destruct (py_filter cond xs) as [e|kept]; [discriminate|].
  destruct (IH kept eq_refl) as [Hsub Hall]. intros H. inversion H; subst.
  destruct b.
  + split; [by apply sublist_skip|by constructor].
  + split; [by apply sublist_cons|exact Hall].
Qed.

Lemma list_filter_sublist {A} (f : A -> bool) (xs : list A) : List.filter f xs `sublist_of` xs.
Proof.
induction xs as [|x xs IH]; cbn [List.filter]; [constructor|].
destruct (f x); [by apply sublist_skip|by apply sublist_cons].
Qed.

Lemma Forall_sublist_of {A} (P : A -> Prop) (xs ys : list A) :
  ys `sublist_of` xs -> Forall P xs -> Forall P ys.
Proof.
intros Hsub Hall. apply Forall_forall. intros x Hx. rewrite Forall_forall in Hall.
apply Hall. by apply (elem_of_sublist ys xs).
Qed.

Lemma apply_query_kept (py_str : pyval -> string) (query : option string)
  (found kept : list DatasetInfo) :
  apply_query py_str query found = inr kept -> kept `sublist_of` found.
Proof.
unfold apply_query. destruct query as [q|]; [|intros H; by inversion H].
destruct (negb (String.eqb q "")); [|intros H; by inversion H].
intros H. by apply py_filter_kept in H as [Hsub _].
Qed.

Lemma int_ge_true (price z : Z) : int_ge price (VInt z) = inr true -> (z <= price)%Z.
Proof. simpl. intros H. inversion H as [Hb]. by apply Z.leb_le. Qed.

Lemma int_le_true (price z : Z) : int_le price (VInt z) = inr true -> (price <= z)%Z.
Proof. simpl. intros H. inversion H as [Hb]. by apply Z.leb_le. Qed.

Lemma apply_filters_kept (filters : option (gmap string pyval))
  (found kept : list DatasetInfo) :
  apply_filters filters found = inr kept ->
  kept `sublist_of` found
  /\ (forall f z, filters = Some f -> f !! "min_price" = Some (VInt z) ->
                  Forall (fun d => (z <= info_price d)%Z) kept)
  /\ (forall f z, filters = Some f -> f !! "max_price" = Some (VInt z) ->
                  Forall (fun d => (info_price d <= z)%Z) kept).
Proof.
unfold apply_filters. destruct filters as [f|].
2:{ intros H. inversion H; subst. split; [done|]. split; intros ? ? Hf; discriminate Hf. }
destruct (truthy (VDict f)) eqn:Htruthy.
2:{ intros H. inversion H; subst. split; [done|].
    assert (Hempty : f = ∅).
    { simpl in Htruthy. apply negb_false_iff, bool_decide_eq_true_1 in Htruthy. exact Htruthy. }
    subst. split; intros f z Hf Hkey; inversion Hf; subst f;
      rewrite lookup_empty in Hkey; discriminate Hkey. }
unfold_result.
set (l1 := match f !! "data_type" with
           | Some v => List.filter (fun d => str_equals (info_data_type d) v) found
           | None => found
           end).
assert (H1 : l1 `sublist_of` found).
{ unfold l1. destruct (f !! "data_type"); [apply list_filter_sublist|done]. }
replace (match f !! "data_type" with
         | Some v => inr (List.filter (fun d => str_equals (info_data_type d) v) found)
         | None => inr found
         end) with (@inr exn _ l1) by (unfold l1; by destruct (f !! "data_type")).
destruct (match f !! "min_price" with
          | Some v => py_filter (fun d => int_ge (info_price d) v) l1
          | None => inr l1
          end) as [e|l2] eqn:Hmin; [discriminate|].
assert (H2 : l2 `sublist_of` l1
             /\ forall z, f !! "min_price" = Some (VInt z) ->
                          Forall (fun d => (z <= info_price d)%Z) l2).
{ destruct (f !! "min_price") as [v|].
  - apply py_filter_kept in Hmin as [Hsub Hall]. split; [exact Hsub|].
    intros z Hz. inversion Hz; subst. eapply Forall_impl; [exact Hall|].
    intros d Hd. by apply int_ge_true.
  - inversion Hmin; subst. split; [done|]. intros z Hz. discriminate Hz. }
destruct H2 as [H2 Hlow].
destruct (match f !! "max_price" with
          | Some v => py_filter (fun d => int_le (info_price d) v) l2
          | None => inr l2
          end) as [e|l3] eqn:Hmax; [discriminate|].
assert (H3 : l3 `sublist_of` l2
             /\ forall z, f !! "max_price" = Some (VInt z) ->
                          Forall (fun d => (info_price d <= z)%Z) l3).
{ destruct (f !! "max_price") as [v|].
  - apply py_filter_kept in Hmax as [Hsub Hall]. split; [exact Hsub|].
    intros z Hz. inversion Hz; subst. eapply Forall_impl; [exact Hall|].
    intros d Hd. by apply int_le_true.
  - inversion Hmax; subst. split; [done|]. intros z Hz. discriminate Hz. }
destruct H3 as [H3 Hhigh].
intros Hkept.
assert (H4 : kept `sublist_of` l3).
{ destruct (f !! "owner"); inversion Hkept; subst; [apply list_filter_sublist|done]. }
split; [by repeat (etransitivity; [eassumption|])|]. split.
- intros f' z Hf Hz. inversion Hf; subst f'.
  apply (Forall_sublist_of _ l2); [by etransitivity|by apply Hlow].
- intros f' z Hf Hz. inversion Hf; subst f'.
  apply (Forall_sublist_of _ l3); [exact H4|by apply Hhigh].
Qed.

(** X29: what the body of [search_datasets] computes for a bound market
    contract: whenever it returns, the world is as before, and the datasets
    returned are entries of active listings of the contract, each with the
    fields of its listing, in increasing order of their identifiers 1..count
    and without repetition; a [min_price] or [max_price] filter given as an
    integer holds of every dataset returned. *)
Theorem search_body_returns_active_listings (py_str : pyval -> string) (contract : Contract)
  (query : option string) (filters : option (gmap string pyval)) (w w' : World)
  (found : list DatasetInfo) :
  search_body py_str contract query filters w = (inr found, w') ->
  w' = w
  /\ exists count,
       datasetCount contract = inr count
       /\ map info_id found `sublist_of` range_from_one count
       /\ Forall (reflects_listing contract) found
       /\ (forall f z, filters = Some f -> f !! "min_price" = Some (VInt z) ->
                       Forall (fun d => (z <= info_price d)%Z) found)
       /\ (forall f z, filters = Some f -> f !! "max_price" = Some (VInt z) ->
                       Forall (fun d => (info_price d <= z)%Z) found).
Proof.
unfold search_body. unfold mbind, M_bind, lift.
destruct (datasetCount contract) as [e|count]; [discriminate|].
destruct (for_each_M _ _ _ w) as [[e|collected] w1] eqn:Hloop; [discriminate|].
apply collect_loop in Hloop as [-> (new & Hnew & Hsub & Hall)]. cbn [app] in Hnew. subst new.
destruct (apply_query py_str query collected) as [e|queried] eqn:Hquery; [discriminate|].
apply apply_query_kept in Hquery.
destruct (apply_filters filters queried) as [e|kept] eqn:Hfilters; [discriminate|].
apply apply_filters_kept in Hfilters as (Hkept & Hlow & Hhigh).
intros H. inversion H; subst. split; [reflexivity|]. exists count. split; [reflexivity|].
assert (Hfound : found `sublist_of` collected) by (by etransitivity).
split.
- etransitivity; [|exact Hsub]. by apply (fmap_sublist info_id).
- split; [by apply (Forall_sublist_of _ collected)|by split].
Qed.

Lemma search_body_returns_active_listings_witness :
  exists found,
    search_body (fun _ => "") Cases.market None (Some {["min_price" := VInt 3]})
      Cases.market_world = (inr found, Cases.market_world)
    /\ map info_id found `sublist_of` [1; 2]%Z
    /\ Forall (fun d => (3 <= info_price d)%Z) found.
Proof.
assert (Hrun : exists found,
          search_body (fun _ => "") Cases.market None (Some {["min_price" := VInt 3]})
            Cases.market_world = (inr found, Cases.market_world))
  by (eexists; vm_compute; reflexivity).
destruct Hrun as [found Hrun]. exists found. split; [exact Hrun|].
destruct (search_body_returns_active_listings _ _ _ _ _ _ _ Hrun)
  as (_ & count & Hcount & Hids & _ & Hlow & _).
inversion Hcount; subst count. split; [exact Hids|].
apply (Hlow {["min_price" := VInt 3]}); reflexivity.
Defined.
